(** * The Old Vine Hotel: booking engine

    A shallow embedding of the booking core of the CMS server:
    - [models/Booking.js]  (schema, the [pre('validate')] hook,
      [generateRevenueReport], [canBeCancelled], [calculateCancellationFee]),
    - [models/Room.js]     ([currentPrice], [findAvailable], [isAvailable]),
    - [routes/bookings.js] (the request handlers).

    Conventions of the embedding.
    - A JavaScript [Date] is its time value: an integer number of
      milliseconds since the epoch, here a [Z].  Differences of dates and
      their quotients by the length of an hour or of a day are taken exactly
      (in [Z] and [Q]); [Math.ceil] is [Qceiling].  Time values are
      integers of magnitude at most 8.64e15, below 2^53: their differences
      are exact doubles, the comparisons of the hour quotient with 24 and
      48 and the ceiling of the day quotient are those of the exact
      quotients.
    - A JavaScript [Number] that holds an amount of money is an IEEE 754
      binary64 value: Rocq's primitive [float], with its own [*], [+], [-],
      [/] and [<?].  The literal [0.12] below is the same double as the
      literal [0.12] of the source.
    - A string field that may be absent is a [string]; the absent value is
      the empty string, which is exactly the value the source's truthiness
      tests ([!this.bookingNumber], [if (confirmationCode)]) cannot tell from
      [undefined].
    - The [bookings] collection is a list in insertion order; the [_id] of
      a document is its position (the routes never delete a booking).  The
      [rooms] collection is a finite map from [_id] to document.
    - Everything a handler obtains from outside the two collections (clock
      readings, random draws, the guest collection, the payment processor,
      the mailer) is an explicit input of the handler, grouped in an
      environment record; every call it makes to the payment processor
      or to the mailer is recorded in the list of calls it returns. *)

From Stdlib Require Import ZArith QArith Qround Lia.
From Stdlib Require Import PrimFloat FloatOps SpecFloat.
From Stdlib Require Import String Ascii.
From stdpp Require Import gmap strings list fin_maps pretty sorting.

Set Warnings "-inexact-float".

Local Open Scope Z_scope.

(** ** JavaScript values *)

Module JS.

(** [1000 * 60 * 60] and [1000 * 60 * 60 * 24]. *)
Definition msPerHour : Z := 1000 * 60 * 60.
Definition msPerDay : Z := 1000 * 60 * 60 * 24.

(** The double nearest to an integer (conversion of an integral value
    to [Number]). *)
Definition float_of_Z (z : Z) : float :=
  SF2Prim (binary_normalize prec emax z 0 false).

(** Truthiness of a string: only the empty string is falsy. *)
Definition truthy (s : string) : bool :=
  match s with
  | EmptyString => false
  | String _ _ => true
  end.

(** [s.charAt(i)]: the one-character string at position [i], the empty
    string when [i] is out of range. *)
Definition charAt (s : string) (i : nat) : string :=
  match String.get i s with
  | Some c => String c EmptyString
  | None => EmptyString
  end.

(** Strict comparison of two exact quotients. *)
Definition Qltb (x y : Q) : bool :=
  Qnum x * Z.pos (Qden y) <? Qnum y * Z.pos (Qden x).

(** [Math.round] on a double: the nearest integer, ties towards
    positive infinity; zeros, infinities and NaN are returned as they
    are, and a negative value that rounds to zero (from -0.5 up) gives
    the negative zero. *)
Definition Math_round (x : float) : float :=
  match Prim2SF x with
  | S754_finite s m e =>
      let n := if s then Z.neg m else Z.pos m in
      if 0 <=? e then x
      else
        let r := (2 * n + 2 ^ (- e)) / 2 ^ (1 - e) in
        if s && (r =? 0) then neg_zero else float_of_Z r
  | _ => x
  end.

End JS.

(** ** models/Booking.js *)

Module Booking.

Inductive Status :=
| Pending | Confirmed | CheckedIn | CheckedOut | Cancelled | NoShow.

Inductive PaymentStatus :=
| PaymentPending | Paid | PartiallyPaid | Refunded | Failed.

Inductive PaymentMethod :=
| CreditCard | DebitCard | BankTransfer | Cash | OnlinePayment.

Definition Status_eqb (a b : Status) : bool :=
  match a, b with
  | Pending, Pending | Confirmed, Confirmed | CheckedIn, CheckedIn
  | CheckedOut, CheckedOut | Cancelled, Cancelled | NoShow, NoShow => true
  | _, _ => false
  end.

#[global] Instance Status_eq_dec : EqDecision Status.
Proof. solve_decision. Defined.

(** The fields of the schema that the booking routes read or write. *)
Record t := mk {
  bookingNumber : string;
  confirmationCode : string;
  guest : nat;
  room : nat;
  checkInDate : Z;
  checkOutDate : Z;
  adults : Z;
  children : Z;
  roomRate : float;
  numberOfNights : Z;
  subtotal : float;
  taxes : float;
  totalAmount : float;
  paymentStatus : PaymentStatus;
  paymentMethod : PaymentMethod;
  stripePaymentIntentId : string;
  status : Status;
  actualCheckInTime : option Z;
  actualCheckOutTime : option Z;
  cancellationReason : option string;
  cancellationDate : option Z;
  cancellationFee : float;
  refundAmount : float;
  emailConfirmationSent : bool
}.

(** Assignments to single fields of a document. *)
Definition set_bookingNumber (v : string) (b : t) : t :=
  mk v (confirmationCode b) (guest b) (room b) (checkInDate b)
     (checkOutDate b) (adults b) (children b) (roomRate b)
     (numberOfNights b) (subtotal b) (taxes b) (totalAmount b)
     (paymentStatus b) (paymentMethod b) (stripePaymentIntentId b)
     (status b) (actualCheckInTime b) (actualCheckOutTime b)
     (cancellationReason b) (cancellationDate b) (cancellationFee b)
     (refundAmount b) (emailConfirmationSent b).

Definition set_confirmationCode (v : string) (b : t) : t :=
  mk (bookingNumber b) v (guest b) (room b) (checkInDate b)
     (checkOutDate b) (adults b) (children b) (roomRate b)
     (numberOfNights b) (subtotal b) (taxes b) (totalAmount b)
     (paymentStatus b) (paymentMethod b) (stripePaymentIntentId b)
     (status b) (actualCheckInTime b) (actualCheckOutTime b)
     (cancellationReason b) (cancellationDate b) (cancellationFee b)
     (refundAmount b) (emailConfirmationSent b).

Definition set_numberOfNights (v : Z) (b : t) : t :=
  mk (bookingNumber b) (confirmationCode b) (guest b) (room b)
     (checkInDate b) (checkOutDate b) (adults b) (children b) (roomRate b)
     v (subtotal b) (taxes b) (totalAmount b)
     (paymentStatus b) (paymentMethod b) (stripePaymentIntentId b)
     (status b) (actualCheckInTime b) (actualCheckOutTime b)
     (cancellationReason b) (cancellationDate b) (cancellationFee b)
     (refundAmount b) (emailConfirmationSent b).

Definition set_paymentStatus (v : PaymentStatus) (b : t) : t :=
  mk (bookingNumber b) (confirmationCode b) (guest b) (room b)
     (checkInDate b) (checkOutDate b) (adults b) (children b) (roomRate b)
     (numberOfNights b) (subtotal b) (taxes b) (totalAmount b)
     v (paymentMethod b) (stripePaymentIntentId b)
     (status b) (actualCheckInTime b) (actualCheckOutTime b)
     (cancellationReason b) (cancellationDate b) (cancellationFee b)
     (refundAmount b) (emailConfirmationSent b).

Definition set_status (v : Status) (b : t) : t :=
  mk (bookingNumber b) (confirmationCode b) (guest b) (room b)
     (checkInDate b) (checkOutDate b) (adults b) (children b) (roomRate b)
     (numberOfNights b) (subtotal b) (taxes b) (totalAmount b)
     (paymentStatus b) (paymentMethod b) (stripePaymentIntentId b)
     v (actualCheckInTime b) (actualCheckOutTime b)
     (cancellationReason b) (cancellationDate b) (cancellationFee b)
     (refundAmount b) (emailConfirmationSent b).

Definition set_actualCheckInTime (v : option Z) (b : t) : t :=
  mk (bookingNumber b) (confirmationCode b) (guest b) (room b)
     (checkInDate b) (checkOutDate b) (adults b) (children b) (roomRate b)
     (numberOfNights b) (subtotal b) (taxes b) (totalAmount b)
     (paymentStatus b) (paymentMethod b) (stripePaymentIntentId b)
     (status b) v (actualCheckOutTime b)
     (cancellationReason b) (cancellationDate b) (cancellationFee b)
     (refundAmount b) (emailConfirmationSent b).

Definition set_actualCheckOutTime (v : option Z) (b : t) : t :=
  mk (bookingNumber b) (confirmationCode b) (guest b) (room b)
     (checkInDate b) (checkOutDate b) (adults b) (children b) (roomRate b)
     (numberOfNights b) (subtotal b) (taxes b) (totalAmount b)
     (paymentStatus b) (paymentMethod b) (stripePaymentIntentId b)
     (status b) (actualCheckInTime b) v
     (cancellationReason b) (cancellationDate b) (cancellationFee b)
     (refundAmount b) (emailConfirmationSent b).

Definition set_cancellationReason (v : option string) (b : t) : t :=
  mk (bookingNumber b) (confirmationCode b) (guest b) (room b)
     (checkInDate b) (checkOutDate b) (adults b) (children b) (roomRate b)
     (numberOfNights b) (subtotal b) (taxes b) (totalAmount b)
     (paymentStatus b) (paymentMethod b) (stripePaymentIntentId b)
     (status b) (actualCheckInTime b) (actualCheckOutTime b)
     v (cancellationDate b) (cancellationFee b)
     (refundAmount b) (emailConfirmationSent b).

Definition set_cancellationDate (v : option Z) (b : t) : t :=
  mk (bookingNumber b) (confirmationCode b) (guest b) (room b)
     (checkInDate b) (checkOutDate b) (adults b) (children b) (roomRate b)
     (numberOfNights b) (subtotal b) (taxes b) (totalAmount b)
     (paymentStatus b) (paymentMethod b) (stripePaymentIntentId b)
     (status b) (actualCheckInTime b) (actualCheckOutTime b)
     (cancellationReason b) v (cancellationFee b)
     (refundAmount b) (emailConfirmationSent b).

Definition set_cancellationFee (v : float) (b : t) : t :=
  mk (bookingNumber b) (confirmationCode b) (guest b) (room b)
     (checkInDate b) (checkOutDate b) (adults b) (children b) (roomRate b)
     (numberOfNights b) (subtotal b) (taxes b) (totalAmount b)
     (paymentStatus b) (paymentMethod b) (stripePaymentIntentId b)
     (status b) (actualCheckInTime b) (actualCheckOutTime b)
     (cancellationReason b) (cancellationDate b) v
     (refundAmount b) (emailConfirmationSent b).

Definition set_refundAmount (v : float) (b : t) : t :=
  mk (bookingNumber b) (confirmationCode b) (guest b) (room b)
     (checkInDate b) (checkOutDate b) (adults b) (children b) (roomRate b)
     (numberOfNights b) (subtotal b) (taxes b) (totalAmount b)
     (paymentStatus b) (paymentMethod b) (stripePaymentIntentId b)
     (status b) (actualCheckInTime b) (actualCheckOutTime b)
     (cancellationReason b) (cancellationDate b) (cancellationFee b)
     v (emailConfirmationSent b).

Definition set_emailConfirmationSent (v : bool) (b : t) : t :=
  mk (bookingNumber b) (confirmationCode b) (guest b) (room b)
     (checkInDate b) (checkOutDate b) (adults b) (children b) (roomRate b)
     (numberOfNights b) (subtotal b) (taxes b) (totalAmount b)
     (paymentStatus b) (paymentMethod b) (stripePaymentIntentId b)
     (status b) (actualCheckInTime b) (actualCheckOutTime b)
     (cancellationReason b) (cancellationDate b) (cancellationFee b)
     (refundAmount b) v.

(** *** The [pre('validate')] hook *)

(** What the hook draws from outside the document: the year of
    [new Date()], the value of
    [Math.floor(100000 + Math.random() * 900000)], and the eight values
    of [Math.floor(Math.random() * chars.length)]. *)
Record Draws := {
  year : Z;
  random : Z;
  indices : list nat
}.

Definition chars : string := "ABCDEFGHIJKLMNOPQRSTUVWXYZ0123456789".

(** [`OVH${year}${random}`] *)
Definition generate_bookingNumber (d : Draws) : string :=
  "OVH" +:+ pretty (year d) +:+ pretty (random d).

(** The loop [for (let i = 0; i < 8; i++) code += chars.charAt(...)],
    one draw per round; the source makes eight draws, a shorter list of
    draws ends the loop where it ends. *)
Fixpoint generate_code (rounds : nat) (draws : list nat) (code : string)
  : string :=
  match rounds with
  | O => code
  | S k =>
      match draws with
      | [] => code
      | i :: rest => generate_code k rest (code +:+ JS.charAt chars i)
      end
  end.

Definition generate_confirmationCode (d : Draws) : string :=
  generate_code 8 (indices d) "".

(** [Math.ceil(Math.abs(checkOut - checkIn) / (1000 * 60 * 60 * 24))] *)
Definition duration_nights (checkIn checkOut : Z) : Z :=
  Qceiling (inject_Z (Z.abs (checkOut - checkIn)) / inject_Z JS.msPerDay).

Definition pre_validate (d : Draws) (b : t) : t :=
  let b1 :=
    if negb (JS.truthy (bookingNumber b))
    then set_bookingNumber (generate_bookingNumber d) b else b in
  let b2 :=
    if negb (JS.truthy (confirmationCode b1))
    then set_confirmationCode (generate_confirmationCode d) b1 else b1 in
  if numberOfNights b2 =? 0
  then set_numberOfNights
         (duration_nights (checkInDate b2) (checkOutDate b2)) b2
  else b2.

(** *** Instance methods *)

(** [(checkInDate - now) / (1000 * 60 * 60)] *)
Definition hoursUntilCheckIn (b : t) (now : Z) : Q :=
  inject_Z (checkInDate b - now) / inject_Z JS.msPerHour.

Definition canBeCancelled (b : t) (now : Z) : bool :=
  Status_eqb (status b) Confirmed
  && JS.Qltb 24 (hoursUntilCheckIn b now).

Definition calculateCancellationFee (b : t) (now : Z) : float :=
  if JS.Qltb 48 (hoursUntilCheckIn b now) then 0%float
  else if JS.Qltb 24 (hoursUntilCheckIn b now)
       then (totalAmount b * 0.25)%float
       else (totalAmount b * 0.50)%float.

(** *** Persistence: [doc.save()]

    [save] runs the [pre('validate')] hook, the [required] validators of
    [bookingNumber] and [confirmationCode], and then writes the
    document: an insert when the document is new ([slot = None]), an
    update of the document at position [i] when [slot = Some i].  Both
    fields are declared [unique: true]: a write that gives one of them a
    value another document already has is refused by the index.  An
    update writes only the paths that were assigned, so it meets the
    index only for a field the hook has just filled.  The other
    validators of the schema bear on fields the routes always fill with
    valid values, or on fields the model does not carry: a creation
    request whose [specialRequests] is longer than 1000 characters makes
    the real [save] fail (the route answers 500) and is outside the
    model. *)

Inductive SaveResult :=
| Saved (coll : list t) (doc : t)
| ValidationError
| DuplicateKey.

Definition required_ok (b : t) : bool :=
  JS.truthy (bookingNumber b) && JS.truthy (confirmationCode b).

Definition written (slot : option nat) (before after : t)
    (field : t -> string) : bool :=
  match slot with
  | None => true
  | Some _ => negb (String.eqb (field before) (field after))
  end.

Definition is_slot (slot : option nat) (j : nat) : bool :=
  match slot with
  | None => false
  | Some i => Nat.eqb i j
  end.

Definition collides (slot : option nat) (before after : t)
    (j : nat) (e : t) : bool :=
  negb (is_slot slot j)
  && ((written slot before after bookingNumber
       && String.eqb (bookingNumber e) (bookingNumber after))
      || (written slot before after confirmationCode
          && String.eqb (confirmationCode e) (confirmationCode after))).

Definition save (d : Draws) (slot : option nat) (doc : t) (coll : list t)
  : SaveResult :=
  let doc' := pre_validate d doc in
  if negb (required_ok doc') then ValidationError
  else if existsb (fun hit : bool => hit)
            (imap (collides slot doc doc') coll)
       then DuplicateKey
       else Saved (match slot with
                   | None => coll ++ [doc']
                   | Some i => <[i:=doc']> coll
                   end) doc'.

(** *** [generateRevenueReport] *)

(** [$year], [$month] and [$dayOfMonth] of a date: its civil date in
    UTC (proleptic Gregorian calendar), from the number of whole days
    since the epoch. *)
Definition dateParts (date : Z) : Z * Z * Z :=
  let z := date / JS.msPerDay + 719468 in
  let era := z / 146097 in
  let doe := z - era * 146097 in
  let yoe := (doe - doe / 1460 + doe / 36524 - doe / 146096) / 365 in
  let y := yoe + era * 400 in
  let doy := doe - (365 * yoe + yoe / 4 - yoe / 100) in
  let mp := (5 * doy + 2) / 153 in
  let d := doy - (153 * mp + 2) / 5 + 1 in
  let m := if mp <? 10 then mp + 3 else mp - 9 in
  (if m <=? 2 then y + 1 else y, m, d).

#[global] Arguments dateParts : simpl never.

Record RevenueRecord := {
  _id : Z * Z * Z;
  totalRevenue : float;
  bookingsCount : Z;
  averageRate : float
}.

(** The first [$match] stage. *)
Definition report_match (startDate endDate : Z) (b : t) : bool :=
  (Status_eqb (status b) Confirmed
   || Status_eqb (status b) CheckedIn
   || Status_eqb (status b) CheckedOut)
  && (startDate <=? checkInDate b) && (checkInDate b <=? endDate).

(** The order of [$sort: { '_id.year': 1, '_id.month': 1, '_id.day': 1 }]. *)
Definition key_leb (a b : Z * Z * Z) : bool :=
  let '(y1, m1, d1) := a in
  let '(y2, m2, d2) := b in
  (y1 <? y2) || ((y1 =? y2) && ((m1 <? m2) || ((m1 =? m2) && (d1 <=? d2)))).

Definition record_le (r1 r2 : RevenueRecord) : Prop :=
  key_leb (_id r1) (_id r2) = true.

#[global] Instance record_le_dec (r1 r2 : RevenueRecord)
  : Decision (record_le r1 r2).
Proof. unfold record_le. apply _. Defined.

Section Aggregation.

(** The accumulators [$sum] and [$avg] of the database, applied to the
    values of a field over the documents of one group. *)
Variable acc_sum acc_avg : list float -> float.

Definition group_of (docs : list t) (k : Z * Z * Z) : list t :=
  filter (fun b => dateParts (checkInDate b) = k) docs.

(** The output document of the [$group] stage for the key [k]. *)
Definition group_record (docs : list t) (k : Z * Z * Z) : RevenueRecord :=
  {| _id := k;
     totalRevenue := acc_sum (totalAmount <$> group_of docs k);
     bookingsCount := Z.of_nat (length (group_of docs k));
     averageRate := acc_avg (roomRate <$> group_of docs k) |}.

Definition generateRevenueReport (coll : list t) (startDate endDate : Z)
  : list RevenueRecord :=
  let matched :=
    filter (fun b => report_match startDate endDate b = true) coll in
  let grouped :=
    group_record matched
      <$> remove_dups ((fun b => dateParts (checkInDate b)) <$> matched) in
  merge_sort record_le grouped.

End Aggregation.

End Booking.

(** ** models/Room.js *)

Module Room.

Inductive Status := Available | Occupied | OutOfOrder | Maintenance.

Inductive CleaningStatus := Clean | Dirty | InProgress | Inspected.

Definition Status_eqb (a b : Status) : bool :=
  match a, b with
  | Available, Available | Occupied, Occupied
  | OutOfOrder, OutOfOrder | Maintenance, Maintenance => true
  | _, _ => false
  end.

Record SeasonalPrice := {
  startDate : Z;
  endDate : Z;
  priceMultiplier : float
}.

Record t := mk {
  maxOccupancy : Z;
  basePrice : float;
  seasonalPricing : list SeasonalPrice;
  status : Status;
  isActive : bool;
  cleaningStatus : CleaningStatus;
  lastCleaning : option Z
}.

Definition set_status (v : Status) (r : t) : t :=
  mk (maxOccupancy r) (basePrice r) (seasonalPricing r) v (isActive r)
     (cleaningStatus r) (lastCleaning r).

Definition set_cleaningStatus (v : CleaningStatus) (r : t) : t :=
  mk (maxOccupancy r) (basePrice r) (seasonalPricing r) (status r)
     (isActive r) v (lastCleaning r).

Definition set_lastCleaning (v : option Z) (r : t) : t :=
  mk (maxOccupancy r) (basePrice r) (seasonalPricing r) (status r)
     (isActive r) (cleaningStatus r) v.

(** The virtual [currentPrice]; [now] is the [new Date()] of the getter. *)
Definition in_season (now : Z) (pricing : SeasonalPrice) : bool :=
  (startDate pricing <=? now) && (endDate pricing >=? now).

Definition currentPrice (r : t) (now : Z) : float :=
  let seasonalRate :=
    list_find (fun pricing => in_season now pricing = true)
              (seasonalPricing r) in
  match seasonalRate with
  | Some (_, seasonalRate) =>
      (basePrice r * priceMultiplier seasonalRate)%float
  | None => basePrice r
  end.

(** The query shared by [isAvailable] and the [$lookup] of
    [findAvailable]: bookings of the room [roomId] with status
    ['Confirmed'] or ['Checked In'], [checkInDate < checkOut] and
    [checkOutDate > checkIn]. *)
Definition conflicting (roomId : nat) (checkIn checkOut : Z)
    (b : Booking.t) : bool :=
  Nat.eqb (Booking.room b) roomId
  && (Booking.Status_eqb (Booking.status b) Booking.Confirmed
      || Booking.Status_eqb (Booking.status b) Booking.CheckedIn)
  && (Booking.checkInDate b <? checkOut)
  && (Booking.checkOutDate b >? checkIn).

(** The instance method [isAvailable] of the room [r] whose [_id] is
    [roomId]. *)
Definition isAvailable (roomId : nat) (r : t) (bookings : list Booking.t)
    (checkIn checkOut : Z) : bool :=
  let conflictingBooking :=
    list_find (fun b => conflicting roomId checkIn checkOut b = true)
              bookings in
  match conflictingBooking with
  | Some _ => false
  | None => Status_eqb (status r) Available && isActive r
  end.

(** The static [findAvailable]: the four stages of the pipeline. *)
Definition findAvailable (rooms : gmap nat t) (bookings : list Booking.t)
    (checkIn checkOut : Z) (guests : Z) : gmap nat t :=
  let matched :=
    filter (fun kr : nat * t =>
              Status_eqb (status kr.2) Available && isActive kr.2
              && (maxOccupancy kr.2 >=? guests) = true) rooms in
  let looked_up :=
    map_imap (fun roomId r =>
                Some (r, filter (fun b => conflicting roomId checkIn
                                           checkOut b = true) bookings))
             matched in
  let unbooked :=
    filter (fun krc : nat * (t * list Booking.t) =>
              length krc.2.2 = 0%nat) looked_up in
  fst <$> unbooked.

End Room.

(** ** routes/bookings.js *)

Module Routes.

(** The two collections.  The guests collection is not part of the
    store: what a handler writes to it ([guest.save()], [updateStayStats],
    [addLoyaltyPoints]) shows only through the outcome of the write (the
    fields [guest] and [statsOk] of the environment), so that "the store"
    below always means the bookings and the rooms. *)
Record Store := {
  rooms : gmap nat Room.t;
  bookings : list Booking.t
}.

Definition with_bookings (s : Store) (coll : list Booking.t) : Store :=
  {| rooms := rooms s; bookings := coll |}.

(** Calls to the external collaborators. *)
Inductive Call :=
| PaymentIntentsCreate (amount : float) (payment_method : string)
| RefundsCreate (payment_intent : string) (amount : float)
| SendEmail (template : string) (guest : nat).

Inductive Response (A : Type) :=
| Success (code : Z) (data : A)
| Failure (code : Z) (message : string).
Arguments Success {A} code data.
Arguments Failure {A} code message.

Definition Outcome (A : Type) : Type := Store * list Call * Response A.

(** *** Creation: [POST /request] and [POST /] *)

(** The body of a creation request once the validators have accepted
    it and the two dates are parsed.  The two guest counts are numbers:
    [adults] is [Number(numberOfGuests.adults)] and [children] is
    [numberOfGuests.children] when it is present and not zero.  [POST
    /request] converts the counts with [Number] before it adds them;
    [POST /] adds the values of the body as they are, which is the same
    sum for counts sent as JSON numbers (the model covers [POST /] for
    such requests; [isInt] also accepts strings of digits, which [+]
    would concatenate). *)
Record CreateRequest := {
  roomId : nat;
  checkInDate : Z;
  checkOutDate : Z;
  adults : Z;
  children : option Z;
  paymentMethodId : string
}.

(** The answer of [stripe.paymentIntents.create]. *)
Record PaymentIntent := {
  id : string;
  succeeded : bool                 (* [status === 'succeeded'] *)
}.

Record CreateEnv := {
  now : Z;                         (* [new Date()] of the date check *)
  guest : option nat;              (* find-or-create of the guest and
                                      [guest.save()]: the guest's [_id],
                                      [None] when it throws *)
  priceNow : Z;                    (* [new Date()] inside [currentPrice] *)
  paymentIntent : option PaymentIntent;
                                   (* [None]: the processor throws *)
  draws : Booking.Draws;           (* for the first [booking.save()] *)
  statsOk : bool;                  (* [updateStayStats], [addLoyaltyPoints] *)
  emailOk : bool;                  (* [sendEmail] *)
  drawsAgain : Booking.Draws       (* for the second [booking.save()] *)
}.

Record Pricing := {
  numberOfNights : Z;
  roomRate : float;
  subtotal : float;
  taxes : float;
  totalAmount : float
}.

(** The five lines under [// Pricing] ([POST /request]) and under
    [// Calculate pricing] ([POST /]); they are the same. *)
Definition pricing (room : Room.t) (checkIn checkOut : Z) (priceNow : Z)
  : Pricing :=
  let numberOfNights :=
    Qceiling (inject_Z (checkOut - checkIn) / inject_Z JS.msPerDay) in
  let roomRate := Room.currentPrice room priceNow in
  let subtotal := (roomRate * JS.float_of_Z numberOfNights)%float in
  let taxes := (subtotal * 0.12)%float in
  let totalAmount := (subtotal + taxes)%float in
  {| numberOfNights := numberOfNights; roomRate := roomRate;
     subtotal := subtotal; taxes := taxes; totalAmount := totalAmount |}.

(** [new Booking({ ... })]: the fields the route gives, the schema's
    defaults for the others. *)
Definition newBooking (guestId : nat) (req : CreateRequest) (p : Pricing)
    (paymentStatus : Booking.PaymentStatus)
    (paymentMethod : Booking.PaymentMethod)
    (stripePaymentIntentId : string) (status : Booking.Status)
  : Booking.t :=
  {| Booking.bookingNumber := "";
     Booking.confirmationCode := "";
     Booking.guest := guestId;
     Booking.room := roomId req;
     Booking.checkInDate := checkInDate req;
     Booking.checkOutDate := checkOutDate req;
     Booking.adults := adults req;
     Booking.children := default 0 (children req);
     Booking.roomRate := roomRate p;
     Booking.numberOfNights := numberOfNights p;
     Booking.subtotal := subtotal p;
     Booking.taxes := taxes p;
     Booking.totalAmount := totalAmount p;
     Booking.paymentStatus := paymentStatus;
     Booking.paymentMethod := paymentMethod;
     Booking.stripePaymentIntentId := stripePaymentIntentId;
     Booking.status := status;
     Booking.actualCheckInTime := None;
     Booking.actualCheckOutTime := None;
     Booking.cancellationReason := None;
     Booking.cancellationDate := None;
     Booking.cancellationFee := 0%float;
     Booking.refundAmount := 0%float;
     Booking.emailConfirmationSent := false |}.

(** The checks both creation routes make before they touch the guest:
    the room the request is for, or the error response. *)
Definition precheck (s : Store) (req : CreateRequest) (env : CreateEnv)
  : Room.t + Z * string :=
  let checkIn := checkInDate req in
  let checkOut := checkOutDate req in
  if checkIn >=? checkOut
  then inr (400, "Check-out date must be after check-in date")
  else if checkIn <? now env
  then inr (400, "Check-in date cannot be in the past")
  else
    match rooms s !! roomId req with
    | None => inr (404, "Room not found")
    | Some room =>
        if negb (Room.isActive room) then inr (404, "Room not found")
        else
          let totalGuests := adults req + default 0 (children req) in
          if Room.maxOccupancy room <? totalGuests
          then inr (400,
                    "Room can accommodate maximum "
                    +:+ pretty (Room.maxOccupancy room) +:+ " guests")
          else
            let isAvailable :=
              Room.isAvailable (roomId req) room (bookings s)
                               checkIn checkOut in
            if negb isAvailable
            then inr (400, "Room is not available for the selected dates")
            else inl room
    end.

(** [POST /api/bookings/request] *)
Definition createBookingRequest (s : Store) (req : CreateRequest)
    (env : CreateEnv) : Outcome Booking.t :=
  match precheck s req env with
  | inr (code, message) => (s, [], Failure code message)
  | inl room =>
      match guest env with
      | None =>
          (s, [], Failure 500 "Server error while creating booking request")
      | Some guestId =>
          let p := pricing room (checkInDate req) (checkOutDate req)
                           (priceNow env) in
          let booking :=
            newBooking guestId req p Booking.PaymentPending Booking.Cash
                       "" Booking.Pending in
          match Booking.save (draws env) None booking (bookings s) with
          | Booking.Saved coll doc =>
              (with_bookings s coll, [], Success 201 doc)
          | _ =>
              (s, [],
               Failure 500 "Server error while creating booking request")
          end
      end
  end.

(** [POST /api/bookings] *)
Definition createBooking (s : Store) (req : CreateRequest)
    (env : CreateEnv) : Outcome Booking.t :=
  match precheck s req env with
  | inr (code, message) => (s, [], Failure code message)
  | inl room =>
      match guest env with
      | None => (s, [], Failure 500 "Server error while creating booking")
      | Some guestId =>
          let p := pricing room (checkInDate req) (checkOutDate req)
                           (priceNow env) in
          let charge :=
            PaymentIntentsCreate
              (JS.Math_round (totalAmount p * 100)%float)
              (paymentMethodId req) in
          match paymentIntent env with
          | None => (s, [charge], Failure 400 "Payment processing failed")
          | Some intent =>
              let booking :=
                newBooking guestId req p
                  (if succeeded intent then Booking.Paid
                   else Booking.PaymentPending)
                  Booking.CreditCard (id intent)
                  (if succeeded intent then Booking.Confirmed
                   else Booking.Pending) in
              match Booking.save (draws env) None booking (bookings s) with
              | Booking.Saved coll doc =>
                  if negb (succeeded intent)
                  then (with_bookings s coll, [charge], Success 201 doc)
                  else if negb (statsOk env)
                  then (with_bookings s coll, [charge],
                        Failure 500 "Server error while creating booking")
                  else
                    let mail := SendEmail "bookingConfirmation" guestId in
                    if negb (emailOk env)
                    then (with_bookings s coll, [charge; mail],
                          Success 201 doc)
                    else
                      let sent :=
                        Booking.set_emailConfirmationSent true doc in
                      match Booking.save (drawsAgain env)
                              (Some (length (bookings s))) sent coll with
                      | Booking.Saved coll' doc' =>
                          (with_bookings s coll', [charge; mail],
                           Success 201 doc')
                      | _ =>
                          (with_bookings s coll, [charge; mail],
                           Success 201 sent)
                      end
              | _ =>
                  (s, [charge],
                   Failure 500 "Server error while creating booking")
              end
          end
      end
  end.

(** *** Lookup: [GET /:bookingNumber] *)

(** The confirmation code of the query string is a string (the empty
    string when it is absent); a query that makes it an object
    ([?confirmationCode[$ne]=x]) is passed to [findOne] as an operator and
    is outside the model. *)
Record GetRequest := {
  get_bookingNumber : string;      (* [req.params.bookingNumber] *)
  get_confirmationCode : string;   (* [req.query.confirmationCode] *)
  authorization : string           (* the [Authorization] header *)
}.

Definition by_number_and_code (bookingNumber confirmationCode : string)
    (b : Booking.t) : Prop :=
  Booking.bookingNumber b = bookingNumber
  /\ Booking.confirmationCode b = confirmationCode.

Definition by_number (bookingNumber : string) (b : Booking.t) : Prop :=
  Booking.bookingNumber b = bookingNumber.

#[global] Instance by_number_and_code_dec n c b
  : Decision (by_number_and_code n c b).
Proof. unfold by_number_and_code. apply _. Defined.

#[global] Instance by_number_dec n b : Decision (by_number n b).
Proof. unfold by_number. apply _. Defined.

Definition getBooking (s : Store) (req : GetRequest) : Outcome Booking.t :=
  let booking :=
    if JS.truthy (get_confirmationCode req)
    then list_find (by_number_and_code (get_bookingNumber req)
                                       (get_confirmationCode req))
                   (bookings s)
    else list_find (by_number (get_bookingNumber req)) (bookings s) in
  match booking with
  | None => (s, [], Failure 404 "Booking not found")
  | Some (_, b) => (s, [], Success 200 b)
  end.

(** *** Cancellation: [PUT /:bookingNumber/cancel] *)

(** The confirmation code of the body is a string, as for the lookup. *)
Record CancelRequest := {
  cancel_bookingNumber : string;
  cancel_confirmationCode : string;   (* not empty: [notEmpty()] *)
  reason : option string
}.

Record CancelEnv := {
  guardNow : Z;          (* [new Date()] inside [canBeCancelled] *)
  feeNow : Z;            (* [new Date()] inside [calculateCancellationFee] *)
  refundOk : bool;       (* [stripe.refunds.create] returns *)
  cancelNow : Z;         (* [new Date()] for [cancellationDate] *)
  cancelDraws : Booking.Draws
}.

Record Cancellation := {
  c_bookingNumber : string;
  c_cancellationFee : float;
  c_refundAmount : float;
  c_status : Booking.Status
}.

(** The six assignments under [// Update booking]. *)
Definition markCancelled (booking : Booking.t) (reason : option string)
    (now : Z) (cancellationFee refundAmount : float) : Booking.t :=
  Booking.set_paymentStatus
    (if (0 <? refundAmount)%float then Booking.Refunded else Booking.Paid)
    (Booking.set_refundAmount refundAmount
       (Booking.set_cancellationFee cancellationFee
          (Booking.set_cancellationDate (Some now)
             (Booking.set_cancellationReason reason
                (Booking.set_status Booking.Cancelled booking))))).

Definition cancelBooking (s : Store) (req : CancelRequest)
    (env : CancelEnv) : Outcome Cancellation :=
  match list_find (by_number_and_code (cancel_bookingNumber req)
                                      (cancel_confirmationCode req))
                  (bookings s) with
  | None => (s, [], Failure 404 "Booking not found")
  | Some (i, booking) =>
      if negb (Booking.canBeCancelled booking (guardNow env))
      then (s, [], Failure 400 "Booking cannot be cancelled at this time")
      else
        let cancellationFee :=
          Booking.calculateCancellationFee booking (feeNow env) in
        let refundAmount :=
          (Booking.totalAmount booking - cancellationFee)%float in
        let refunding :=
          JS.truthy (Booking.stripePaymentIntentId booking)
          && (0 <? refundAmount)%float in
        let refund :=
          if refunding
          then [RefundsCreate (Booking.stripePaymentIntentId booking)
                              (JS.Math_round (refundAmount * 100)%float)]
          else [] in
        if refunding && negb (refundOk env)
        then (s, refund, Failure 400 "Refund processing failed")
        else
          let cancelled :=
            markCancelled booking (reason req) (cancelNow env)
                          cancellationFee refundAmount in
          match Booking.save (cancelDraws env) (Some i) cancelled
                             (bookings s) with
          | Booking.Saved coll doc =>
              (with_bookings s coll,
               refund ++ [SendEmail "bookingCancellation"
                                    (Booking.guest doc)],
               Success 200
                 {| c_bookingNumber := cancel_bookingNumber req;
                    c_cancellationFee := cancellationFee;
                    c_refundAmount := refundAmount;
                    c_status := Booking.status doc |})
          | _ =>
              (s, refund, Failure 500 "Server error while cancelling booking")
          end
  end.

(** *** Check-in and check-out: [PUT /:id/checkin], [PUT /:id/checkout]

    Both routes are behind [adminAuth]; the handlers below are what runs
    once the middleware has let the request through. *)

Record StayEnv := {
  stayNow : Z;           (* [new Date()] for the booking's time stamp *)
  stayDraws : Booking.Draws;
  cleaningNow : Z        (* [new Date()] for [lastCleaning] (check-out) *)
}.

Definition checkIn (s : Store) (id : nat) (env : StayEnv)
  : Outcome Booking.t :=
  match bookings s !! id with
  | None => (s, [], Failure 404 "Booking not found")
  | Some booking =>
      if negb (Booking.Status_eqb (Booking.status booking)
                                  Booking.Confirmed)
      then (s, [], Failure 400 "Booking must be confirmed to check in")
      else
        let checkedIn :=
          Booking.set_actualCheckInTime (Some (stayNow env))
            (Booking.set_status Booking.CheckedIn booking) in
        match Booking.save (stayDraws env) (Some id) checkedIn
                           (bookings s) with
        | Booking.Saved coll doc =>
            match rooms s !! Booking.room doc with
            | None =>
                (with_bookings s coll, [],
                 Failure 500 "Server error during check-in")
            | Some room =>
                ({| rooms := <[Booking.room doc :=
                                 Room.set_status Room.Occupied room]>
                               (rooms s);
                    bookings := coll |}, [], Success 200 doc)
            end
        | _ => (s, [], Failure 500 "Server error during check-in")
        end
  end.

Definition checkOut (s : Store) (id : nat) (env : StayEnv)
  : Outcome Booking.t :=
  match bookings s !! id with
  | None => (s, [], Failure 404 "Booking not found")
  | Some booking =>
      if negb (Booking.Status_eqb (Booking.status booking)
                                  Booking.CheckedIn)
      then (s, [], Failure 400 "Guest must be checked in to check out")
      else
        let checkedOut :=
          Booking.set_actualCheckOutTime (Some (stayNow env))
            (Booking.set_status Booking.CheckedOut booking) in
        match Booking.save (stayDraws env) (Some id) checkedOut
                           (bookings s) with
        | Booking.Saved coll doc =>
            match rooms s !! Booking.room doc with
            | None =>
                (with_bookings s coll, [],
                 Failure 500 "Server error during check-out")
            | Some room =>
                ({| rooms := <[Booking.room doc :=
                                 Room.set_lastCleaning
                                   (Some (cleaningNow env))
                                   (Room.set_cleaningStatus Room.Dirty
                                      (Room.set_status Room.Available
                                                       room))]>
                               (rooms s);
                    bookings := coll |}, [], Success 200 doc)
            end
        | _ => (s, [], Failure 500 "Server error during check-out")
        end
  end.

(** *** Revenue analytics: [GET /analytics/revenue] (behind [adminAuth]) *)

Record RevenueRequest := {
  startDate : option Z;
  endDate : option Z
}.

Record Summary := {
  totalRevenue : float;
  totalBookings : Z;
  averageBookingValue : float;
  dateRange : Z * Z
}.

Section Analytics.

Variable acc_sum acc_avg : list float -> float.

(** [dateNow] is [Date.now()], [endNow] the [new Date()] of the
    default end of the window. *)
Definition revenueAnalytics (s : Store) (req : RevenueRequest)
    (dateNow endNow : Z)
  : Outcome (list Booking.RevenueRecord * Summary) :=
  let start :=
    match startDate req with
    | Some d => d
    | None => dateNow - 30 * 24 * 60 * 60 * 1000
    end in
  let end_ :=
    match endDate req with
    | Some d => d
    | None => endNow
    end in
  let revenueData :=
    Booking.generateRevenueReport acc_sum acc_avg (bookings s)
                                  start end_ in
  let totalRevenue :=
    fold_left (fun sum day => (sum + Booking.totalRevenue day)%float)
              revenueData 0%float in
  let totalBookings :=
    fold_left (fun sum day => sum + Booking.bookingsCount day)
              revenueData 0 in
  let averageBookingValue :=
    if totalBookings >? 0
    then (totalRevenue / JS.float_of_Z totalBookings)%float
    else 0%float in
  (s, [],
   Success 200
     (revenueData,
      {| totalRevenue := totalRevenue;
         totalBookings := totalBookings;
         averageBookingValue := averageBookingValue;
         dateRange := (start, end_) |})).

End Analytics.

(** *** Sequential execution

    One request at a time, each handled to completion; the catalogue of
    rooms may be edited between two requests by the routes that own it
    ([CatalogEdit]). *)
Inductive Op :=
| PostRequest (req : CreateRequest) (env : CreateEnv)
| PostBooking (req : CreateRequest) (env : CreateEnv)
| PutCancel (req : CancelRequest) (env : CancelEnv)
| PutCheckIn (id : nat) (env : StayEnv)
| PutCheckOut (id : nat) (env : StayEnv)
| GetBooking (req : GetRequest)
| CatalogEdit (catalog : gmap nat Room.t).

Definition exec (s : Store) (op : Op) : Store :=
  match op with
  | PostRequest req env => (createBookingRequest s req env).1.1
  | PostBooking req env => (createBooking s req env).1.1
  | PutCancel req env => (cancelBooking s req env).1.1
  | PutCheckIn id env => (checkIn s id env).1.1
  | PutCheckOut id env => (checkOut s id env).1.1
  | GetBooking req => (getBooking s req).1.1
  | CatalogEdit catalog => {| rooms := catalog; bookings := bookings s |}
  end.

Definition run (s : Store) (ops : list Op) : Store :=
  fold_left exec ops s.

(** The store before the first booking. *)
Definition opening (catalog : gmap nat Room.t) : Store :=
  {| rooms := catalog; bookings := [] |}.

End Routes.

(** * Vocabulary of the properties *)

(** A booking blocks the interval from [checkIn] to [checkOut] of the
    room [roomId]. *)
Definition blocks (roomId : nat) (checkIn checkOut : Z) (b : Booking.t)
  : Prop :=
  Booking.room b = roomId
  /\ (Booking.status b = Booking.Confirmed
      \/ Booking.status b = Booking.CheckedIn)
  /\ Booking.checkInDate b < checkOut
  /\ Booking.checkOutDate b > checkIn.

(** The date range of a seasonal override contains the instant [now]. *)
Definition season_contains (now : Z) (sp : Room.SeasonalPrice) : Prop :=
  Room.startDate sp <= now <= Room.endDate sp.

(** The nightly rate of [room] at the evaluation time [now]: the base
    price times the multiplier of the first seasonal override whose range
    contains [now], the base price when there is none. *)
Definition rate_of (room : Room.t) (now : Z) (rate : float) : Prop :=
  (exists i sp,
      Room.seasonalPricing room !! i = Some sp
      /\ season_contains now sp
      /\ (forall j sp', (j < i)%nat -> Room.seasonalPricing room !! j = Some sp'
                        -> ~ season_contains now sp')
      /\ rate = (Room.basePrice room * Room.priceMultiplier sp)%float)
  \/ ((forall sp, sp ∈ Room.seasonalPricing room -> ~ season_contains now sp)
      /\ rate = Room.basePrice room).

(** The pricing snapshot of the booking [b] is the one computed for
    [room], the stay from [checkIn] to [checkOut] and the evaluation time
    [now]. *)
Definition priced (room : Room.t) (checkIn checkOut now : Z) (b : Booking.t)
  : Prop :=
  Booking.numberOfNights b
  = Qceiling (inject_Z (checkOut - checkIn) / inject_Z JS.msPerDay)
  /\ 1 <= Booking.numberOfNights b
  /\ rate_of room now (Booking.roomRate b)
  /\ Booking.subtotal b
     = (Booking.roomRate b * JS.float_of_Z (Booking.numberOfNights b))%float
  /\ Booking.taxes b = (Booking.subtotal b * 0.12)%float
  /\ Booking.totalAmount b = (Booking.subtotal b + Booking.taxes b)%float.

(** A booking occupies its room's calendar. *)
Definition occupying (b : Booking.t) : Prop :=
  Booking.status b = Booking.Confirmed \/ Booking.status b = Booking.CheckedIn.

(** Any two distinct occupying bookings of one room have disjoint
    half-open stays: one ends no later than the other begins. *)
Definition disjoint_stays (bookings : list Booking.t) : Prop :=
  forall i j b1 b2,
    i <> j -> bookings !! i = Some b1 -> bookings !! j = Some b2 ->
    Booking.room b1 = Booking.room b2 -> occupying b1 -> occupying b2 ->
    Booking.checkOutDate b1 <= Booking.checkInDate b2
    \/ Booking.checkOutDate b2 <= Booking.checkInDate b1.

(** The pricing snapshot stored in a booking. *)
Definition snapshot (b : Booking.t) : Routes.Pricing :=
  {| Routes.numberOfNights := Booking.numberOfNights b;
     Routes.roomRate := Booking.roomRate b;
     Routes.subtotal := Booking.subtotal b;
     Routes.taxes := Booking.taxes b;
     Routes.totalAmount := Booking.totalAmount b |}.

(** A creation route answers 201 with the booking [b]. *)
Definition created (s : Routes.Store) (req : Routes.CreateRequest)
    (env : Routes.CreateEnv) (b : Booking.t) : Prop :=
  exists s' calls,
    Routes.createBookingRequest s req env = (s', calls, Routes.Success 201 b)
    \/ Routes.createBooking s req env = (s', calls, Routes.Success 201 b).

(** No two stored bookings share a booking number or a confirmation
    code, and every stored booking has both. *)
Definition unique_ids (bookings : list Booking.t) : Prop :=
  (forall i j b1 b2,
      i <> j -> bookings !! i = Some b1 -> bookings !! j = Some b2 ->
      Booking.bookingNumber b1 <> Booking.bookingNumber b2
      /\ Booking.confirmationCode b1 <> Booking.confirmationCode b2)
  /\ forall b, b ∈ bookings -> Booking.required_ok b = true.

(** A value drawn for a new booking is already taken in the store. *)
Definition collision (d : Booking.Draws) (bookings : list Booking.t) : Prop :=
  exists e, e ∈ bookings
    /\ (Booking.bookingNumber e = Booking.generate_bookingNumber d
        \/ Booking.confirmationCode e = Booking.generate_confirmationCode d).

(** A booking counts in the revenue report of the window from
    [startDate] to [endDate]. *)
Definition counted (startDate endDate : Z) (b : Booking.t) : Prop :=
  (Booking.status b = Booking.Confirmed
   \/ Booking.status b = Booking.CheckedIn
   \/ Booking.status b = Booking.CheckedOut)
  /\ startDate <= Booking.checkInDate b <= endDate.

#[global] Instance counted_dec startDate endDate b
  : Decision (counted startDate endDate b).
Proof. unfold counted. apply _. Defined.

(** The counted bookings of the calendar day [k] (year, month, day), in
    the order of the collection. *)
Definition day_bookings (startDate endDate : Z) (k : Z * Z * Z)
    (coll : list Booking.t) : list Booking.t :=
  filter (fun b => Booking.dateParts (Booking.checkInDate b) = k
                   /\ counted startDate endDate b) coll.

(** The calendar day [a] is strictly before the calendar day [b]. *)
Definition day_before (a b : Z * Z * Z) : Prop :=
  let '(y1, m1, d1) := a in
  let '(y2, m2, d2) := b in
  y1 < y2 \/ (y1 = y2 /\ (m1 < m2 \/ (m1 = m2 /\ d1 < d2))).

(** [$sum] and [$avg] as plain left-to-right sums of doubles, for the
    examples. *)
Definition plain_sum (values : list float) : float :=
  fold_left PrimFloat.add values 0%float.

Definition plain_avg (values : list float) : float :=
  (plain_sum values / JS.float_of_Z (Z.of_nat (length values)))%float.

(** ** The calendar

    The proleptic Gregorian calendar, said the usual way: leap years,
    lengths of the months, the day after a day.  A civil date is a triple
    (year, month, day). *)

Module Calendar.

Definition leap_year (y : Z) : bool :=
  (y mod 4 =? 0) && (negb (y mod 100 =? 0) || (y mod 400 =? 0)).

Definition days_in_month (y m : Z) : Z :=
  if m =? 2 then (if leap_year y then 29 else 28)
  else if (m =? 4) || (m =? 6) || (m =? 9) || (m =? 11) then 30 else 31.

Definition next_day (k : Z * Z * Z) : Z * Z * Z :=
  let '(y, m, d) := k in
  if d <? days_in_month y m then (y, m, d + 1)
  else if m <? 12 then (y, m + 1, 1) else (y + 1, 1, 1).

(** A civil date that exists. *)
Definition civil (k : Z * Z * Z) : Prop :=
  let '(y, m, d) := k in 1 <= m <= 12 /\ 1 <= d <= days_in_month y m.

(** The number of the UTC day of an instant: whole days since the epoch,
    negative before it. *)
Definition utc_day (date : Z) : Z := date / JS.msPerDay.

(** The steps of [Booking.dateParts], named: the year of the era, the
    first day of a year of the era (years begin on the first of March),
    the date of a day of such a year, and the date of a day number. *)
Definition yoe_of (doe : Z) : Z :=
  (doe - doe / 1460 + doe / 36524 - doe / 146096) / 365.

Definition start (yoe : Z) : Z := 365 * yoe + yoe / 4 - yoe / 100.

Definition leapZ (y : Z) : Z := if leap_year y then 1 else 0.

Definition md (y doy : Z) : Z * Z * Z :=
  let mp := (5 * doy + 2) / 153 in
  let d := doy - (153 * mp + 2) / 5 + 1 in
  let m := if mp <? 10 then mp + 3 else mp - 9 in
  (if m <=? 2 then y + 1 else y, m, d).

Definition of_day (day : Z) : Z * Z * Z :=
  let z := day + 719468 in
  let era := z / 146097 in
  let doe := z - era * 146097 in
  md (yoe_of doe + era * 400) (doe - start (yoe_of doe)).

End Calendar.

(** The counted bookings whose check-in falls on the UTC day number [n],
    in the order of the collection. *)
Definition utc_day_bookings (startDate endDate n : Z)
    (coll : list Booking.t) : list Booking.t :=
  filter (fun b => Calendar.utc_day (Booking.checkInDate b) = n
                   /\ counted startDate endDate b) coll.

(** ** A hotel with one room, for the examples

    One room of base price 100 without seasonal prices; the first of
    January 2026 is [t0]. *)

Definition t0 : Z := 1767225600000.

Definition room100 : Room.t :=
  {| Room.maxOccupancy := 2; Room.basePrice := 100%float;
     Room.seasonalPricing := []; Room.status := Room.Available;
     Room.isActive := true; Room.cleaningStatus := Room.Clean;
     Room.lastCleaning := None |}.

Definition catalog1 : gmap nat Room.t := {[ 0%nat := room100 ]}.

Definition draws1 : Booking.Draws :=
  {| Booking.year := 2026; Booking.random := 123456;
     Booking.indices := [0; 1; 2; 3; 4; 5; 6; 7]%nat |}.

Definition draws2 : Booking.Draws :=
  {| Booking.year := 2026; Booking.random := 654321;
     Booking.indices := [8; 1; 2; 3; 4; 5; 6; 7]%nat |}.

(** A stay of three nights from the 11th of January. *)
Definition req1 : Routes.CreateRequest :=
  {| Routes.roomId := 0; Routes.checkInDate := t0 + 10 * JS.msPerDay;
     Routes.checkOutDate := t0 + 13 * JS.msPerDay; Routes.adults := 2;
     Routes.children := None; Routes.paymentMethodId := "pm_1" |}.

(** The payment succeeds, the mail is sent. *)
Definition env1 : Routes.CreateEnv :=
  {| Routes.now := t0; Routes.guest := Some 7%nat; Routes.priceNow := t0;
     Routes.paymentIntent :=
       Some {| Routes.id := "pi_1"; Routes.succeeded := true |};
     Routes.draws := draws1; Routes.statsOk := true; Routes.emailOk := true;
     Routes.drawsAgain := draws1 |}.

(** The confirmed and paid booking that [req1] creates. *)
Definition booking1 : Booking.t :=
  {| Booking.bookingNumber := "OVH2026123456";
     Booking.confirmationCode := "ABCDEFGH";
     Booking.guest := 7; Booking.room := 0;
     Booking.checkInDate := t0 + 10 * JS.msPerDay;
     Booking.checkOutDate := t0 + 13 * JS.msPerDay;
     Booking.adults := 2; Booking.children := 0;
     Booking.roomRate := 100%float; Booking.numberOfNights := 3;
     Booking.subtotal := 300%float; Booking.taxes := 36%float;
     Booking.totalAmount := 336%float;
     Booking.paymentStatus := Booking.Paid;
     Booking.paymentMethod := Booking.CreditCard;
     Booking.stripePaymentIntentId := "pi_1";
     Booking.status := Booking.Confirmed;
     Booking.actualCheckInTime := None; Booking.actualCheckOutTime := None;
     Booking.cancellationReason := None; Booking.cancellationDate := None;
     Booking.cancellationFee := 0%float; Booking.refundAmount := 0%float;
     Booking.emailConfirmationSent := true |}.

(** A stay of two nights that begins when [booking1] ends. *)
Definition req2 : Routes.CreateRequest :=
  {| Routes.roomId := 0; Routes.checkInDate := t0 + 13 * JS.msPerDay;
     Routes.checkOutDate := t0 + 15 * JS.msPerDay; Routes.adults := 1;
     Routes.children := None; Routes.paymentMethodId := "pm_2" |}.

(** Another guest; the draws of the hook come out as they did for
    [booking1]. *)
Definition env2 : Routes.CreateEnv :=
  {| Routes.now := t0; Routes.guest := Some 8%nat; Routes.priceNow := t0;
     Routes.paymentIntent :=
       Some {| Routes.id := "pi_2"; Routes.succeeded := true |};
     Routes.draws := draws1; Routes.statsOk := true; Routes.emailOk := true;
     Routes.drawsAgain := draws1 |}.

(** The booking request that [req1] creates on [POST /request]. *)
Definition request1 : Booking.t :=
  {| Booking.bookingNumber := "OVH2026123456";
     Booking.confirmationCode := "ABCDEFGH";
     Booking.guest := 7; Booking.room := 0;
     Booking.checkInDate := t0 + 10 * JS.msPerDay;
     Booking.checkOutDate := t0 + 13 * JS.msPerDay;
     Booking.adults := 2; Booking.children := 0;
     Booking.roomRate := 100%float; Booking.numberOfNights := 3;
     Booking.subtotal := 300%float; Booking.taxes := 36%float;
     Booking.totalAmount := 336%float;
     Booking.paymentStatus := Booking.PaymentPending;
     Booking.paymentMethod := Booking.Cash;
     Booking.stripePaymentIntentId := "";
     Booking.status := Booking.Pending;
     Booking.actualCheckInTime := None; Booking.actualCheckOutTime := None;
     Booking.cancellationReason := None; Booking.cancellationDate := None;
     Booking.cancellationFee := 0%float; Booking.refundAmount := 0%float;
     Booking.emailConfirmationSent := false |}.

(** A confirmed booking that was never paid: payment pending, no
    payment-intent reference. *)
Definition unpaid1 : Booking.t :=
  {| Booking.bookingNumber := "OVH2026123456";
     Booking.confirmationCode := "ABCDEFGH";
     Booking.guest := 7; Booking.room := 0;
     Booking.checkInDate := t0 + 10 * JS.msPerDay;
     Booking.checkOutDate := t0 + 13 * JS.msPerDay;
     Booking.adults := 2; Booking.children := 0;
     Booking.roomRate := 100%float; Booking.numberOfNights := 3;
     Booking.subtotal := 300%float; Booking.taxes := 36%float;
     Booking.totalAmount := 336%float;
     Booking.paymentStatus := Booking.PaymentPending;
     Booking.paymentMethod := Booking.Cash;
     Booking.stripePaymentIntentId := "";
     Booking.status := Booking.Confirmed;
     Booking.actualCheckInTime := None; Booking.actualCheckOutTime := None;
     Booking.cancellationReason := None; Booking.cancellationDate := None;
     Booking.cancellationFee := 0%float; Booking.refundAmount := 0%float;
     Booking.emailConfirmationSent := false |}.

Definition store_unpaid : Routes.Store :=
  {| Routes.rooms := catalog1; Routes.bookings := [unpaid1] |}.

(** The cancellation of [booking1], thirty hours before check-in. *)
Definition cancel1 : Routes.CancelRequest :=
  {| Routes.cancel_bookingNumber := "OVH2026123456";
     Routes.cancel_confirmationCode := "ABCDEFGH";
     Routes.reason := None |}.

Definition cancel_env30 : Routes.CancelEnv :=
  {| Routes.guardNow := t0 + 10 * JS.msPerDay - 30 * JS.msPerHour;
     Routes.feeNow := t0 + 10 * JS.msPerDay - 30 * JS.msPerHour;
     Routes.refundOk := true;
     Routes.cancelNow := t0 + 10 * JS.msPerDay - 30 * JS.msPerHour;
     Routes.cancelDraws := draws2 |}.

(** The same, with a payment processor that refuses every refund. *)
Definition cancel_env30_norefund : Routes.CancelEnv :=
  {| Routes.guardNow := t0 + 10 * JS.msPerDay - 30 * JS.msPerHour;
     Routes.feeNow := t0 + 10 * JS.msPerDay - 30 * JS.msPerHour;
     Routes.refundOk := false;
     Routes.cancelNow := t0 + 10 * JS.msPerDay - 30 * JS.msPerHour;
     Routes.cancelDraws := draws2 |}.

(** A cancellation whose guard reads the clock one millisecond before
    the 24th hour and whose fee computation reads it at the 24th hour. *)
Definition cancel_env24 : Routes.CancelEnv :=
  {| Routes.guardNow := t0 + 10 * JS.msPerDay - 24 * JS.msPerHour - 1;
     Routes.feeNow := t0 + 10 * JS.msPerDay - 24 * JS.msPerHour;
     Routes.refundOk := true;
     Routes.cancelNow := t0 + 10 * JS.msPerDay - 24 * JS.msPerHour;
     Routes.cancelDraws := draws2 |}.

Definition cancellation30 : Routes.Cancellation :=
  {| Routes.c_bookingNumber := "OVH2026123456";
     Routes.c_cancellationFee := 84%float;
     Routes.c_refundAmount := 252%float;
     Routes.c_status := Booking.Cancelled |}.

Definition stay_env1 : Routes.StayEnv :=
  {| Routes.stayNow := t0 + 10 * JS.msPerDay; Routes.stayDraws := draws2;
     Routes.cleaningNow := t0 + 10 * JS.msPerDay |}.

(** The same room with a seasonal price, half as much again, for the
    thirty days from [t0]. *)
Definition room_seasonal : Room.t :=
  {| Room.maxOccupancy := 2; Room.basePrice := 100%float;
     Room.seasonalPricing :=
       [{| Room.startDate := t0; Room.endDate := t0 + 30 * JS.msPerDay;
           Room.priceMultiplier := 1.5%float |}];
     Room.status := Room.Available; Room.isActive := true;
     Room.cleaningStatus := Room.Clean; Room.lastCleaning := None |}.

Definition store1 : Routes.Store :=
  {| Routes.rooms := catalog1; Routes.bookings := [booking1] |}.

(** * More of the server

    The virtual [duration] of a booking, the slug hook of models/Room.js,
    the pagination of the list routes, and the routes of routes/rooms.js
    that quote, show and retire a room. *)

(** ** models/Booking.js: the virtual [duration] *)

Module Virtuals.

(** The two dates of a stored booking are always present, so the guard
    [this.checkInDate && this.checkOutDate] holds. *)
Definition duration (b : Booking.t) : Z :=
  Booking.duration_nights (Booking.checkInDate b) (Booking.checkOutDate b).

End Virtuals.

(** ** models/Room.js: the [pre('save')] hook that derives the slug

    A name is a string of code units below 256. *)

Module Slug.

Definition dash : ascii := "-"%char.

Definition in_range (lo hi c : ascii) : bool :=
  Ascii.leb lo c && Ascii.leb c hi.

(** [toLowerCase] on one code unit: the letters A to Z and the capital
    letters of Latin-1 (192 to 222, the multiplication sign 215 apart)
    move up by 32. *)
Definition toLowerCase (c : ascii) : ascii :=
  if in_range "A" "Z" c
     || (in_range "192" "222" c && negb (Ascii.eqb c "215"))
  then ascii_of_nat (nat_of_ascii c + 32)
  else c.

Definition is_alnum (c : ascii) : bool :=
  in_range "a" "z" c || in_range "0" "9" c.

(** [.replace(/[^a-z0-9]/g, '-')], on one code unit. *)
Definition replace_other (c : ascii) : ascii :=
  if is_alnum c then c else dash.

(** [.replace(/-+/g, '-')] *)
Fixpoint collapse (l : list ascii) : list ascii :=
  match l with
  | [] => []
  | c :: rest =>
      if Ascii.eqb c dash
      then match rest with
           | d :: _ => if Ascii.eqb d dash then collapse rest
                       else c :: collapse rest
           | [] => [c]
           end
      else c :: collapse rest
  end.

(** [.replace(/^-|-$/g, '')]: a dash at the start goes, and a dash at the
    end goes. *)
Definition strip_leading (l : list ascii) : list ascii :=
  match l with
  | c :: rest => if Ascii.eqb c dash then rest else l
  | [] => []
  end.

Fixpoint strip_trailing (l : list ascii) : list ascii :=
  match l with
  | [] => []
  | c :: rest =>
      match rest with
      | [] => if Ascii.eqb c dash then [] else [c]
      | _ :: _ => c :: strip_trailing rest
      end
  end.

Definition slugify_list (l : list ascii) : list ascii :=
  strip_trailing
    (strip_leading
       (collapse (List.map (fun c => replace_other (toLowerCase c)) l))).

Definition slugify (name : string) : string :=
  string_of_list_ascii (slugify_list (list_ascii_of_string name)).

Record Doc := {
  name : string;
  slug : string
}.

(** [nameModified] is [this.isModified('name')]. *)
Definition pre_save (nameModified : bool) (doc : Doc) : Doc :=
  if nameModified || negb (JS.truthy (slug doc))
  then {| name := name doc; slug := slugify (name doc) |}
  else doc.

End Slug.

(** ** The pagination of the list routes

    [GET /api/bookings] and [GET /api/rooms] page their result with the
    same lines: [skip = (page - 1) * limit], [limit], and the
    [pagination] object of the response. *)

Module Paging.

Record Pagination := {
  currentPage : Z;
  totalPages : Z;
  totalCount : Z;
  hasNextPage : bool;
  hasPrevPage : bool
}.

Definition pagination (page limit count : Z) : Pagination :=
  let totalPages := Qceiling (inject_Z count / inject_Z limit) in
  {| currentPage := page;
     totalPages := totalPages;
     totalCount := count;
     hasNextPage := page <? totalPages;
     hasPrevPage := page >? 1 |}.

(** The stages [$skip] and [$limit] ([.skip(skip).limit(limit)]) on the
    sorted documents. *)
Definition skip_limit {A} (page limit : Z) (docs : list A) : list A :=
  take (Z.to_nat limit) (drop (Z.to_nat ((page - 1) * limit)) docs).

End Paging.

(** ** routes/rooms.js *)

Module Rooms.

(** The body of [POST /:id/availability] once the validators have
    accepted it; [guests] is 1 when the body has none. *)
Record AvailabilityRequest := {
  id : nat;
  checkIn : Z;
  checkOut : Z;
  guests : Z
}.

Record Quote := {
  available : bool;
  room : nat;
  maxOccupancy : Z;
  pricing : Routes.Pricing;
  dates : Z * Z
}.

(** [POST /api/rooms/:id/availability]; [now] is the [new Date()] of the
    date check, [priceNow] the one inside [currentPrice].  The five
    pricing lines are those of the creation routes. *)
Definition checkAvailability (s : Routes.Store) (req : AvailabilityRequest)
    (now priceNow : Z) : Routes.Outcome Quote :=
  let checkInDate := checkIn req in
  let checkOutDate := checkOut req in
  if checkInDate >=? checkOutDate
  then (s, [], Routes.Failure 400 "Check-out date must be after check-in date")
  else if checkInDate <? now
  then (s, [], Routes.Failure 400 "Check-in date cannot be in the past")
  else
    match Routes.rooms s !! id req with
    | None => (s, [], Routes.Failure 404 "Room not found")
    | Some room =>
        if negb (Room.isActive room)
        then (s, [], Routes.Failure 404 "Room not found")
        else if Room.maxOccupancy room <? guests req
        then (s, [],
              Routes.Failure 400
                ("Room can accommodate maximum "
                 +:+ pretty (Room.maxOccupancy room) +:+ " guests"))
        else
          let isAvailable :=
            Room.isAvailable (id req) room (Routes.bookings s)
                             checkInDate checkOutDate in
          (s, [],
           Routes.Success 200
             {| available := isAvailable;
                room := id req;
                maxOccupancy := Room.maxOccupancy room;
                pricing := Routes.pricing room checkInDate checkOutDate
                                          priceNow;
                dates := (checkInDate, checkOutDate) |})
    end.

(** [GET /api/rooms/:id] *)
Definition getRoom (s : Routes.Store) (roomId : nat)
  : Routes.Outcome Room.t :=
  match Routes.rooms s !! roomId with
  | None => (s, [], Routes.Failure 404 "Room not found")
  | Some room =>
      if negb (Room.isActive room)
      then (s, [], Routes.Failure 404 "Room not found")
      else (s, [], Routes.Success 200 room)
  end.

(** The update [{ isActive: false }]. *)
Definition deactivate (r : Room.t) : Room.t :=
  Room.mk (Room.maxOccupancy r) (Room.basePrice r) (Room.seasonalPricing r)
          (Room.status r) false (Room.cleaningStatus r) (Room.lastCleaning r).

(** [DELETE /api/rooms/:id] (behind [adminAuth]):
    [findByIdAndUpdate(id, { isActive: false })]. *)
Definition deleteRoom (s : Routes.Store) (roomId : nat)
  : Routes.Outcome string :=
  match Routes.rooms s !! roomId with
  | None => (s, [], Routes.Failure 404 "Room not found")
  | Some room =>
      ({| Routes.rooms := <[roomId := deactivate room]> (Routes.rooms s);
          Routes.bookings := Routes.bookings s |}, [],
       Routes.Success 200 "Room deleted successfully")
  end.

End Rooms.

(** ** Vocabulary of the further properties *)

(** The moves of a booking's status that the routes make. *)
Definition status_moves (a b : Booking.Status) : Prop :=
  a = b
  \/ (a = Booking.Confirmed
      /\ (b = Booking.CheckedIn \/ b = Booking.CheckedOut
          \/ b = Booking.Cancelled))
  \/ (a = Booking.CheckedIn /\ b = Booking.CheckedOut).

(** What a stored booking keeps for ever: its room, its guest, its dates,
    its occupants and its pricing snapshot. *)
Definition same_stay (b b' : Booking.t) : Prop :=
  Booking.room b' = Booking.room b
  /\ Booking.guest b' = Booking.guest b
  /\ Booking.checkInDate b' = Booking.checkInDate b
  /\ Booking.checkOutDate b' = Booking.checkOutDate b
  /\ Booking.adults b' = Booking.adults b
  /\ Booking.children b' = Booking.children b
  /\ Booking.roomRate b' = Booking.roomRate b
  /\ Booking.subtotal b' = Booking.subtotal b
  /\ Booking.taxes b' = Booking.taxes b
  /\ Booking.totalAmount b' = Booking.totalAmount b.

(** The identifiers and the number of nights of a booking that has them. *)
Definition same_ids (b b' : Booking.t) : Prop :=
  Booking.required_ok b = true -> Booking.numberOfNights b <> 0 ->
  Booking.bookingNumber b' = Booking.bookingNumber b
  /\ Booking.confirmationCode b' = Booking.confirmationCode b
  /\ Booking.numberOfNights b' = Booking.numberOfNights b.

Definition evolves (b b' : Booking.t) : Prop :=
  same_stay b b' /\ status_moves (Booking.status b) (Booking.status b')
  /\ same_ids b b'.

(** A stored booking is sound: a real stay, with the identifiers, the
    number of nights and the amounts the creation routes give. *)
Definition sound (b : Booking.t) : Prop :=
  Booking.required_ok b = true
  /\ Booking.checkInDate b < Booking.checkOutDate b
  /\ Booking.numberOfNights b
     = Qceiling (inject_Z (Booking.checkOutDate b - Booking.checkInDate b)
                 / inject_Z JS.msPerDay)
  /\ 1 <= Booking.numberOfNights b
  /\ Booking.subtotal b
     = (Booking.roomRate b * JS.float_of_Z (Booking.numberOfNights b))%float
  /\ Booking.taxes b = (Booking.subtotal b * 0.12)%float
  /\ Booking.totalAmount b = (Booking.subtotal b + Booking.taxes b)%float.

(** The shape of a slug: lower-case letters, digits and single dashes
    between them. *)
Definition slug_shaped (l : list ascii) : Prop :=
  Forall (fun c => Slug.is_alnum c = true \/ c = Slug.dash) l
  /\ head l <> Some Slug.dash
  /\ last l <> Some Slug.dash
  /\ forall i, ~ (l !! i = Some Slug.dash /\ l !! S i = Some Slug.dash).

(** A code unit that survives in a slug: a letter or a digit. *)
Definition survives (c : ascii) : bool :=
  Slug.is_alnum (Slug.toLowerCase c).

(** No dash is followed by a dash. *)
Fixpoint no_double_dash (l : list ascii) : Prop :=
  match l with
  | c :: rest =>
      match rest with
      | d :: _ => ~ (c = Slug.dash /\ d = Slug.dash) /\ no_double_dash rest
      | [] => True
      end
  | [] => True
  end.

(** A character of a confirmation code: a capital letter or a digit. *)
Definition code_char (c : ascii) : bool :=
  Slug.in_range "A" "Z" c || Slug.in_range "0" "9" c.


(** ** More examples on the one-room hotel *)

(** The question whether the room is free for the stay of [req1]. *)
Definition quote_req1 : Rooms.AvailabilityRequest :=
  {| Rooms.id := 0; Rooms.checkIn := t0 + 10 * JS.msPerDay;
     Rooms.checkOut := t0 + 13 * JS.msPerDay; Rooms.guests := 2 |}.

(** The revenue of January 2026. *)
Definition january : Routes.RevenueRequest :=
  {| Routes.startDate := Some t0;
     Routes.endDate := Some (t0 + 30 * JS.msPerDay) |}.

Definition lookup1 : Routes.GetRequest :=
  {| Routes.get_bookingNumber := "OVH2026123456";
     Routes.get_confirmationCode := "ABCDEFGH";
     Routes.authorization := "" |}.

(** A room that was never given a slug. *)
Definition doc1 : Slug.Doc :=
  {| Slug.name := "Deluxe Suite #1"; Slug.slug := "" |}.
(** * Properties *)

(** ** Basic facts about the embedding *)

Lemma booking_status_eqb_eq (a b : Booking.Status) :
  Booking.Status_eqb a b = true <-> a = b.
Proof. destruct a, b; simpl; split; intros H; congruence. Qed.

Lemma room_status_eqb_eq (a b : Room.Status) :
  Room.Status_eqb a b = true <-> a = b.
Proof. destruct a, b; simpl; split; intros H; congruence. Qed.

Lemma Qltb_lt (x y : Q) : JS.Qltb x y = true <-> (x < y)%Q.
Proof. unfold JS.Qltb, Qlt. apply Z.ltb_lt. Qed.

Lemma Qltb_ge (x y : Q) : JS.Qltb x y = false <-> (y <= x)%Q.
Proof. unfold JS.Qltb, Qle. rewrite Z.ltb_ge. reflexivity. Qed.

(** ** Availability (models/Room.js) *)

Lemma conflicting_blocks roomId checkIn checkOut b :
  Room.conflicting roomId checkIn checkOut b = true
  <-> blocks roomId checkIn checkOut b.
Proof.
  unfold Room.conflicting, blocks.
  rewrite !andb_true_iff, orb_true_iff, !booking_status_eqb_eq.
  rewrite Nat.eqb_eq, Z.ltb_lt, Z.gtb_gt. tauto.
Qed.

Lemma isAvailable_true roomId r (bookings : list Booking.t) checkIn checkOut :
  Room.isAvailable roomId r bookings checkIn checkOut = true
  <-> Room.isActive r = true
      /\ Room.status r = Room.Available
      /\ forall b, b ∈ bookings -> ~ blocks roomId checkIn checkOut b.
Proof.
  unfold Room.isAvailable.
  destruct (list_find _ bookings) as [[i b]|] eqn:Hfind.
  - apply list_find_Some in Hfind as (Hi & Hb & _).
    split; [discriminate|]. intros (_ & _ & Hno). exfalso.
    apply (Hno b); [eapply list_elem_of_lookup_2; eauto|].
    by apply conflicting_blocks.
  - apply list_find_None in Hfind. rewrite Forall_forall in Hfind.
    rewrite andb_true_iff, room_status_eqb_eq. split.
    + intros [Hs Ha]. repeat split; auto. intros b Hb Hbl.
      apply (Hfind b Hb). by apply conflicting_blocks.
    + tauto.
Qed.

Lemma findAvailable_lookup (rooms : gmap nat Room.t)
    (bookings : list Booking.t) checkIn checkOut guests roomId r :
  Room.findAvailable rooms bookings checkIn checkOut guests !! roomId = Some r
  <-> rooms !! roomId = Some r
      /\ Room.isActive r = true
      /\ Room.status r = Room.Available
      /\ guests <= Room.maxOccupancy r
      /\ forall b, b ∈ bookings -> ~ blocks roomId checkIn checkOut b.
Proof.
  unfold Room.findAvailable. rewrite lookup_fmap, fmap_Some. split.
  - intros ([r' c] & Hl & ->). simpl.
    apply map_lookup_filter_Some in Hl as [Hl Hc]. simpl in Hc.
    rewrite map_lookup_imap in Hl.
    destruct (filter _ rooms !! roomId) as [r0|] eqn:Hm; simpl in Hl;
      [|discriminate].
    injection Hl as -> <-.
    apply map_lookup_filter_Some in Hm as [Hm Hp]. simpl in Hp.
    rewrite !andb_true_iff, room_status_eqb_eq, Z.geb_le in Hp.
    destruct Hp as [[Hs Ha] Hg]. repeat split; auto.
    intros b Hb Hbl. apply length_zero_iff_nil in Hc.
    assert (b ∈ filter (fun b => Room.conflicting roomId checkIn checkOut b
                                 = true) bookings) as Hin.
    { apply list_elem_of_filter. split; [by apply conflicting_blocks|done]. }
    rewrite Hc in Hin. by apply elem_of_nil in Hin.
  - intros (Hl & Ha & Hs & Hg & Hno).
    exists (r, []). split; [|done].
    apply map_lookup_filter_Some. split; [|done].
    rewrite map_lookup_imap.
    assert (filter (fun kr : nat * Room.t =>
                Room.Status_eqb (Room.status kr.2) Room.Available
                && Room.isActive kr.2
                && (Room.maxOccupancy kr.2 >=? guests) = true) rooms
            !! roomId = Some r) as ->.
    { apply map_lookup_filter_Some. split; auto. simpl.
      rewrite !andb_true_iff, room_status_eqb_eq, Z.geb_le. auto. }
    simpl. do 2 f_equal.
    destruct (filter _ bookings) as [|b rest] eqn:Hf; [done|].
    assert (b ∈ b :: rest) as Hin by apply list_elem_of_here.
    rewrite <- Hf in Hin. apply list_elem_of_filter in Hin as [Hb Hin].
    exfalso. apply (Hno b Hin). by apply conflicting_blocks.
Qed.

(** ** The hook and [save] (models/Booking.js) *)

Lemma pre_validate_shape d b :
  exists k c n,
    Booking.pre_validate d b
    = Booking.set_numberOfNights n
        (Booking.set_confirmationCode c (Booking.set_bookingNumber k b)).
Proof.
  exists (Booking.bookingNumber (Booking.pre_validate d b)),
         (Booking.confirmationCode (Booking.pre_validate d b)),
         (Booking.numberOfNights (Booking.pre_validate d b)).
  unfold Booking.pre_validate.
  destruct b as [k c g r ci co a ch rr n].
  destruct k, c; cbn; destruct (n =? 0); reflexivity.
Qed.

Lemma pre_validate_id d b :
  Booking.required_ok b = true -> Booking.numberOfNights b <> 0 ->
  Booking.pre_validate d b = b.
Proof.
  unfold Booking.required_ok, Booking.pre_validate.
  intros [Hk Hc]%andb_true_iff Hn.
  rewrite Hk; simpl. rewrite Hc; simpl.
  apply Z.eqb_neq in Hn. by rewrite Hn.
Qed.

Lemma pre_validate_new d b :
  Booking.bookingNumber b = "" -> Booking.confirmationCode b = "" ->
  Booking.numberOfNights b <> 0 ->
  Booking.pre_validate d b
  = Booking.set_confirmationCode (Booking.generate_confirmationCode d)
      (Booking.set_bookingNumber (Booking.generate_bookingNumber d) b).
Proof.
  unfold Booking.pre_validate. intros Hk Hc Hn.
  rewrite Hk; simpl. rewrite Hc; simpl.
  apply Z.eqb_neq in Hn. by rewrite Hn.
Qed.

Lemma pre_validate_keeps_number d b :
  JS.truthy (Booking.bookingNumber b) = true ->
  Booking.bookingNumber (Booking.pre_validate d b) = Booking.bookingNumber b.
Proof.
  unfold Booking.pre_validate. intros Hk. rewrite Hk; simpl.
  destruct (negb (JS.truthy (Booking.confirmationCode b))); simpl;
    match goal with
    | |- context [if ?n =? 0 then _ else _] => destruct (n =? 0)
    end; reflexivity.
Qed.

Lemma pre_validate_keeps_code d b :
  JS.truthy (Booking.confirmationCode b) = true ->
  Booking.confirmationCode (Booking.pre_validate d b)
  = Booking.confirmationCode b.
Proof.
  unfold Booking.pre_validate. intros Hc.
  destruct (negb (JS.truthy (Booking.bookingNumber b))); simpl;
    rewrite Hc; simpl;
    match goal with
    | |- context [if ?n =? 0 then _ else _] => destruct (n =? 0)
    end; reflexivity.
Qed.

Lemma existsb_imap_false {A} (f : nat -> A -> bool) (l : list A) :
  existsb (fun hit : bool => hit) (imap f l) = false
  <-> forall j e, l !! j = Some e -> f j e = false.
Proof.
  split.
  - intros H j e Hj.
    destruct (f j e) eqn:Hf; [|done].
    assert (existsb (fun hit : bool => hit) (imap f l) = true) as Ht.
    { apply existsb_exists. exists true. split; [|done].
      apply list_elem_of_In, list_elem_of_lookup. exists j.
      rewrite list_lookup_imap, Hj. simpl. by rewrite Hf. }
    congruence.
  - intros H. apply not_true_is_false. intros Ht.
    apply existsb_exists in Ht as (hit & Hin & ->).
    apply list_elem_of_In, list_elem_of_lookup in Hin as [j Hj].
    rewrite list_lookup_imap in Hj.
    destruct (l !! j) as [e|] eqn:He; simpl in Hj; [|done].
    injection Hj as Hj. rewrite (H j e He) in Hj. done.
Qed.

Lemma save_Saved d slot doc coll coll' doc' :
  Booking.save d slot doc coll = Booking.Saved coll' doc' ->
  doc' = Booking.pre_validate d doc
  /\ Booking.required_ok doc' = true
  /\ coll' = match slot with
             | None => coll ++ [doc']
             | Some i => <[i:=doc']> coll
             end
  /\ forall j e, coll !! j = Some e ->
                 Booking.collides slot doc doc' j e = false.
Proof.
  unfold Booking.save. intros H.
  destruct (Booking.required_ok (Booking.pre_validate d doc)) eqn:Hr;
    simpl in H; [|discriminate].
  destruct (existsb _ _) eqn:Hc; [discriminate|].
  injection H as <- <-. repeat split; auto.
  by apply existsb_imap_false.
Qed.

Lemma save_DuplicateKey d slot doc coll :
  Booking.save d slot doc coll = Booking.DuplicateKey
  <-> Booking.required_ok (Booking.pre_validate d doc) = true
      /\ exists j e, coll !! j = Some e
           /\ Booking.collides slot doc (Booking.pre_validate d doc) j e
              = true.
Proof.
  unfold Booking.save.
  destruct (Booking.required_ok (Booking.pre_validate d doc)) eqn:Hr; simpl.
  - destruct (existsb _ _) eqn:Hc.
    + split; [|done]. intros _. split; [done|].
      apply existsb_exists in Hc as (hit & Hin & ->).
      apply list_elem_of_In, list_elem_of_lookup in Hin as [j Hj].
      rewrite list_lookup_imap in Hj.
      destruct (coll !! j) as [e|] eqn:He; simpl in Hj; [|done].
      injection Hj as Hj. eauto.
    + split; [done|]. intros (_ & j & e & He & Hce).
      rewrite existsb_imap_false in Hc. rewrite (Hc j e He) in Hce. done.
  - split; [done|]. intros [? _]. done.
Qed.

(** ** Creation (routes/bookings.js) *)

Lemma precheck_inl s req env room :
  Routes.precheck s req env = inl room ->
  Routes.checkInDate req < Routes.checkOutDate req
  /\ Routes.now env <= Routes.checkInDate req
  /\ Routes.rooms s !! Routes.roomId req = Some room
  /\ Room.isActive room = true
  /\ Routes.adults req + default 0 (Routes.children req)
     <= Room.maxOccupancy room
  /\ Room.isAvailable (Routes.roomId req) room (Routes.bookings s)
       (Routes.checkInDate req) (Routes.checkOutDate req) = true.
Proof.
  unfold Routes.precheck. intros H.
  destruct (Routes.checkInDate req >=? Routes.checkOutDate req) eqn:Hd;
    [discriminate|].
  destruct (Routes.checkInDate req <? Routes.now env) eqn:Hp; [discriminate|].
  destruct (Routes.rooms s !! Routes.roomId req) as [r|]; [|discriminate].
  destruct (Room.isActive r) eqn:Ha; simpl in H; [|discriminate].
  destruct (Room.maxOccupancy r <? _) eqn:Ho; [discriminate|].
  destruct (Room.isAvailable _ _ _ _ _) eqn:Hv; simpl in H; [|discriminate].
  injection H as <-.
  rewrite Z.geb_leb, Z.leb_gt in Hd. apply Z.ltb_ge in Hp, Ho.
  repeat split; auto.
Qed.

Lemma nights_positive checkIn checkOut :
  checkIn < checkOut ->
  1 <= Qceiling (inject_Z (checkOut - checkIn) / inject_Z JS.msPerDay).
Proof.
  intros H.
  set (x := (inject_Z (checkOut - checkIn) / inject_Z JS.msPerDay)%Q).
  assert (0 < x)%Q as Hx.
  { unfold x. apply Qlt_shift_div_l; [reflexivity|].
    rewrite Qmult_0_l. rewrite <- (Zlt_Qlt 0). lia. }
  pose proof (Qle_ceiling x) as Hc.
  assert (0 < inject_Z (Qceiling x))%Q as Hpos
    by (eapply Qlt_le_trans; eauto).
  rewrite <- (Zlt_Qlt 0) in Hpos. lia.
Qed.

Lemma save_insert d draft coll coll' doc :
  Booking.bookingNumber draft = "" -> Booking.confirmationCode draft = "" ->
  Booking.numberOfNights draft <> 0 ->
  Booking.save d None draft coll = Booking.Saved coll' doc ->
  doc = Booking.set_confirmationCode (Booking.generate_confirmationCode d)
          (Booking.set_bookingNumber (Booking.generate_bookingNumber d) draft)
  /\ coll' = coll ++ [doc]
  /\ Booking.required_ok doc = true
  /\ forall e, e ∈ coll ->
       Booking.bookingNumber e <> Booking.bookingNumber doc
       /\ Booking.confirmationCode e <> Booking.confirmationCode doc.
Proof.
  intros Hk Hc Hn Hs.
  apply save_Saved in Hs as (Hd & Hr & -> & Hcol).
  rewrite pre_validate_new in Hd by assumption.
  repeat split; auto.
  - intros Heq. apply list_elem_of_lookup in H as [j Hj].
    specialize (Hcol j e Hj). unfold Booking.collides in Hcol. simpl in Hcol.
    apply orb_false_iff in Hcol as [Hcol _].
    apply String.eqb_neq in Hcol. done.
  - intros Heq. apply list_elem_of_lookup in H as [j Hj].
    specialize (Hcol j e Hj). unfold Booking.collides in Hcol. simpl in Hcol.
    apply orb_false_iff in Hcol as [_ Hcol].
    apply String.eqb_neq in Hcol. done.
Qed.

Lemma save_again d doc coll :
  Booking.required_ok doc = true -> Booking.numberOfNights doc <> 0 ->
  forall i, Booking.save d (Some i) doc coll
            = Booking.Saved (<[i:=doc]> coll) doc.
Proof.
  intros Hr Hn i. unfold Booking.save.
  rewrite (pre_validate_id d doc Hr Hn), Hr. simpl.
  assert (existsb (fun hit : bool => hit)
            (imap (Booking.collides (Some i) doc doc) coll) = false) as ->;
    [|done].
  apply existsb_imap_false. intros j e _.
  unfold Booking.collides, Booking.written.
  rewrite !String.eqb_refl. simpl. by rewrite andb_false_r.
Qed.

Lemma createBookingRequest_spec s req env s' calls resp :
  Routes.createBookingRequest s req env = (s', calls, resp) ->
  (s' = s /\ exists code message, resp = Routes.Failure code message)
  \/ exists room guestId doc,
       Routes.precheck s req env = inl room
       /\ Routes.guest env = Some guestId
       /\ Booking.save (Routes.draws env) None
            (Routes.newBooking guestId req
               (Routes.pricing room (Routes.checkInDate req)
                  (Routes.checkOutDate req) (Routes.priceNow env))
               Booking.PaymentPending Booking.Cash "" Booking.Pending)
            (Routes.bookings s)
          = Booking.Saved (Routes.bookings s ++ [doc]) doc
       /\ s' = Routes.with_bookings s (Routes.bookings s ++ [doc])
       /\ resp = Routes.Success 201 doc.
Proof.
  unfold Routes.createBookingRequest. intros H.
  destruct (Routes.precheck s req env) as [room|[code message]] eqn:Ha;
    [|injection H as <- <- <-; left; eauto].
  destruct (Routes.guest env) as [guestId|] eqn:Hg;
    [|injection H as <- <- <-; left; eauto].
  destruct (Booking.save _ _ _ _) as [coll doc| |] eqn:Hs;
    [|injection H as <- <- <-; left; eauto..].
  injection H as <- <- <-. right. exists room, guestId, doc.
  pose proof Hs as Hs'. apply save_Saved in Hs' as (_ & _ & -> & _).
  auto.
Qed.

Lemma createBooking_spec s req env s' calls resp :
  Routes.createBooking s req env = (s', calls, resp) ->
  (s' = s /\ exists code message, resp = Routes.Failure code message)
  \/ exists room guestId intent doc stored,
       Routes.precheck s req env = inl room
       /\ Routes.guest env = Some guestId
       /\ Routes.paymentIntent env = Some intent
       /\ Booking.save (Routes.draws env) None
            (Routes.newBooking guestId req
               (Routes.pricing room (Routes.checkInDate req)
                  (Routes.checkOutDate req) (Routes.priceNow env))
               (if Routes.succeeded intent then Booking.Paid
                else Booking.PaymentPending)
               Booking.CreditCard (Routes.id intent)
               (if Routes.succeeded intent then Booking.Confirmed
                else Booking.Pending))
            (Routes.bookings s)
          = Booking.Saved (Routes.bookings s ++ [doc]) doc
       /\ s' = Routes.with_bookings s (Routes.bookings s ++ [stored])
       /\ (stored = doc
           \/ stored = Booking.set_emailConfirmationSent true doc)
       /\ ((exists message, resp = Routes.Failure 500 message)
           \/ resp = Routes.Success 201 doc
           \/ resp = Routes.Success 201
                       (Booking.set_emailConfirmationSent true doc)).
Proof.
  unfold Routes.createBooking. intros H.
  destruct (Routes.precheck s req env) as [room|[code message]] eqn:Ha;
    [|injection H as <- <- <-; left; eauto].
  destruct (Routes.guest env) as [guestId|] eqn:Hg;
    [|injection H as <- <- <-; left; eauto].
  destruct (Routes.paymentIntent env) as [intent|] eqn:Hi;
    [|injection H as <- <- <-; left; eauto].
  destruct (Booking.save (Routes.draws env) _ _ _) as [coll doc| |] eqn:Hs;
    [|injection H as <- <- <-; left; eauto..].
  right. exists room, guestId, intent, doc.
  pose proof Hs as Hs'. apply save_Saved in Hs' as (Hd & Hr & -> & _).
  apply precheck_inl in Ha as Hadm. destruct Hadm as (Hlt & _).
  assert (Booking.numberOfNights doc <> 0) as Hn.
  { rewrite Hd.
    destruct (pre_validate_shape (Routes.draws env)
      (Routes.newBooking guestId req
         (Routes.pricing room (Routes.checkInDate req)
            (Routes.checkOutDate req) (Routes.priceNow env))
         (if Routes.succeeded intent then Booking.Paid
          else Booking.PaymentPending)
         Booking.CreditCard (Routes.id intent)
         (if Routes.succeeded intent then Booking.Confirmed
          else Booking.Pending))) as (k & c & n & Hshape).
    unfold Booking.pre_validate in *. simpl in *.
    pose proof (nights_positive _ _ Hlt) as Hpos.
    destruct (Qceiling _ =? 0) eqn:Hz; [apply Z.eqb_eq in Hz; lia|].
    simpl. lia. }
  destruct (Routes.succeeded intent) eqn:Hsucc; simpl in H.
  - destruct (Routes.statsOk env); simpl in H.
    + destruct (Routes.emailOk env); simpl in H.
      * rewrite save_again in H; auto.
        rewrite <- (Nat.add_0_r (length (Routes.bookings s))) in H.
        rewrite insert_app_r in H. simpl in H.
        injection H as <- <- <-.
        exists (Booking.set_emailConfirmationSent true doc).
        repeat split; auto.
      * injection H as <- <- <-. exists doc. repeat split; auto.
    + injection H as <- <- <-. exists doc. repeat split; eauto.
  - injection H as <- <- <-. exists doc. repeat split; auto.
Qed.

Lemma in_season_contains now sp :
  Room.in_season now sp = true <-> season_contains now sp.
Proof.
  unfold Room.in_season, season_contains.
  rewrite andb_true_iff, Z.leb_le, Z.geb_le. tauto.
Qed.

Lemma currentPrice_rate room now :
  rate_of room now (Room.currentPrice room now).
Proof.
  unfold rate_of, Room.currentPrice.
  destruct (list_find _ _) as [[i sp]|] eqn:Hf.
  - left. apply list_find_Some in Hf as (Hi & Hsp & Hfirst).
    exists i, sp. repeat split; auto; try by apply in_season_contains.
    intros j sp' Hj Hl Hc. apply (Hfirst j sp' Hl Hj).
    by apply in_season_contains.
  - right. apply list_find_None in Hf. rewrite Forall_forall in Hf.
    split; [|done]. intros sp Hin Hc. apply (Hf sp Hin).
    by apply in_season_contains.
Qed.

Lemma pricing_priced guestId req room now ps pm pi st :
  Routes.checkInDate req < Routes.checkOutDate req ->
  priced room (Routes.checkInDate req) (Routes.checkOutDate req) now
    (Routes.newBooking guestId req
       (Routes.pricing room (Routes.checkInDate req)
          (Routes.checkOutDate req) now) ps pm pi st).
Proof.
  intros Hlt. unfold priced. simpl.
  repeat split; auto using nights_positive, currentPrice_rate.
Qed.

Lemma priced_ext room checkIn checkOut now b b' :
  Booking.numberOfNights b' = Booking.numberOfNights b ->
  Booking.roomRate b' = Booking.roomRate b ->
  Booking.subtotal b' = Booking.subtotal b ->
  Booking.taxes b' = Booking.taxes b ->
  Booking.totalAmount b' = Booking.totalAmount b ->
  priced room checkIn checkOut now b -> priced room checkIn checkOut now b'.
Proof. unfold priced. intros -> -> -> -> ->. done. Qed.

Lemma draft_nights guestId req room now ps pm pi st :
  Routes.checkInDate req < Routes.checkOutDate req ->
  Booking.numberOfNights
    (Routes.newBooking guestId req
       (Routes.pricing room (Routes.checkInDate req)
          (Routes.checkOutDate req) now) ps pm pi st) <> 0.
Proof.
  intros Hlt. simpl. pose proof (nights_positive _ _ Hlt). lia.
Qed.

Lemma priced_scenario room checkIn checkOut now b :
  priced room checkIn checkOut now b ->
  Room.basePrice room = 100%float -> Room.seasonalPricing room = [] ->
  Booking.numberOfNights b = 3 ->
  Booking.subtotal b = 300%float /\ Booking.taxes b = 36%float
  /\ Booking.totalAmount b = 336%float.
Proof.
  intros (_ & _ & Hrate & Hsub & Htax & Htot) Hbase Hseason Hn.
  assert (Booking.roomRate b = 100%float) as Hr.
  { destruct Hrate as [(i & sp & Hl & _)|[_ ->]]; [|done].
    rewrite Hseason in Hl. done. }
  rewrite Hr, Hn in Hsub. rewrite Hsub in Htax. rewrite Hsub, Htax in Htot.
  rewrite Hsub, Htax, Htot. repeat split; reflexivity.
Qed.

(** C3: every successful booking creation (either route) has check-in
    strictly before check-out and persists a booking whose pricing
    snapshot, like that of the booking in the response, is: numberOfNights
    = ceil((checkOut - checkIn) / 1 day), at least 1; roomRate = basePrice
    times the multiplier of the (first) seasonal override whose range
    contains the evaluation time, basePrice when there is none; subtotal =
    roomRate * numberOfNights; taxes = subtotal * 0.12; totalAmount =
    subtotal + taxes.  For a base price of 100, no seasonal override and 3
    nights the stored amounts are 300, 36 and 336. *)
Theorem creation_pricing s req env s' calls b :
  Routes.createBookingRequest s req env = (s', calls, Routes.Success 201 b)
  \/ Routes.createBooking s req env = (s', calls, Routes.Success 201 b) ->
  Routes.checkInDate req < Routes.checkOutDate req
  /\ exists room stored,
       Routes.rooms s !! Routes.roomId req = Some room
       /\ Routes.bookings s' = Routes.bookings s ++ [stored]
       /\ priced room (Routes.checkInDate req) (Routes.checkOutDate req)
                 (Routes.priceNow env) stored
       /\ priced room (Routes.checkInDate req) (Routes.checkOutDate req)
                 (Routes.priceNow env) b
       /\ (Room.basePrice room = 100%float ->
           Room.seasonalPricing room = [] ->
           Booking.numberOfNights stored = 3 ->
           Booking.subtotal stored = 300%float
           /\ Booking.taxes stored = 36%float
           /\ Booking.totalAmount stored = 336%float).
Proof.
  intros [H|H].
  - apply createBookingRequest_spec in H
      as [[_ (code & msg & Hr)]|(room & g & doc & Ha & Hg & Hs & -> & Hr)];
      [discriminate|].
    injection Hr as ->.
    apply precheck_inl in Ha as (Hlt & _ & Hroom & _).
    apply save_insert in Hs as (Hd & _);
      [|reflexivity|reflexivity|by apply draft_nights].
    assert (priced room (Routes.checkInDate req) (Routes.checkOutDate req)
              (Routes.priceNow env) doc) as Hp.
    { eapply priced_ext;
        [..|exact (pricing_priced g req room (Routes.priceNow env)
                     Booking.PaymentPending Booking.Cash ""
                     Booking.Pending Hlt)];
        rewrite Hd; reflexivity. }
    split; [done|]. exists room, doc.
    do 4 (split; [done|]). by eapply priced_scenario.
  - apply createBooking_spec in H
      as [[_ (code & msg & Hr)]
         |(room & g & intent & doc & stored & Ha & Hg & Hi & Hs & -> & Hst
           & Hr)];
      [discriminate|].
    apply precheck_inl in Ha as (Hlt & _ & Hroom & _).
    apply save_insert in Hs as (Hd & _);
      [|reflexivity|reflexivity|by apply draft_nights].
    assert (forall e, priced room (Routes.checkInDate req)
              (Routes.checkOutDate req) (Routes.priceNow env)
              (Booking.set_emailConfirmationSent e doc)) as Hp.
    { intros e. eapply priced_ext; 
        [..|exact (pricing_priced g req room (Routes.priceNow env)
                     (if Routes.succeeded intent then Booking.Paid
                      else Booking.PaymentPending)
                     Booking.CreditCard (Routes.id intent)
                     (if Routes.succeeded intent then Booking.Confirmed
                      else Booking.Pending) Hlt)];
        rewrite Hd; reflexivity. }
    assert (priced room (Routes.checkInDate req) (Routes.checkOutDate req)
              (Routes.priceNow env) doc) as Hp0.
    { eapply priced_ext; 
        [..|exact (pricing_priced g req room (Routes.priceNow env)
                     (if Routes.succeeded intent then Booking.Paid
                      else Booking.PaymentPending)
                     Booking.CreditCard (Routes.id intent)
                     (if Routes.succeeded intent then Booking.Confirmed
                      else Booking.Pending) Hlt)];
        rewrite Hd; reflexivity. }
    assert (priced room (Routes.checkInDate req) (Routes.checkOutDate req)
              (Routes.priceNow env) stored) as Hps.
    { destruct Hst as [->| ->]; auto. }
    assert (priced room (Routes.checkInDate req) (Routes.checkOutDate req)
              (Routes.priceNow env) b) as Hpb.
    { destruct Hr as [[msg Hr]|[Hr|Hr]]; [discriminate|..];
        injection Hr as ->; auto. }
    split; [done|]. exists room, stored.
    do 4 (split; [done|]). by eapply priced_scenario.
Qed.

Lemma createBooking_example :
  Routes.createBooking (Routes.opening catalog1) req1 env1
  = (store1,
     [Routes.PaymentIntentsCreate 33600%float "pm_1";
      Routes.SendEmail "bookingConfirmation" 7],
     Routes.Success 201 booking1).
Proof. vm_compute. reflexivity. Qed.

Lemma creation_pricing_witness :
  Routes.checkInDate req1 < Routes.checkOutDate req1
  /\ exists room stored,
       Routes.rooms (Routes.opening catalog1) !! Routes.roomId req1
       = Some room
       /\ Routes.bookings store1
          = Routes.bookings (Routes.opening catalog1) ++ [stored]
       /\ priced room (Routes.checkInDate req1) (Routes.checkOutDate req1)
                 (Routes.priceNow env1) stored
       /\ priced room (Routes.checkInDate req1) (Routes.checkOutDate req1)
                 (Routes.priceNow env1) booking1
       /\ (Room.basePrice room = 100%float ->
           Room.seasonalPricing room = [] ->
           Booking.numberOfNights stored = 3 ->
           Booking.subtotal stored = 300%float
           /\ Booking.taxes stored = 36%float
           /\ Booking.totalAmount stored = 336%float).
Proof.
  apply (creation_pricing (Routes.opening catalog1) req1 env1 store1
           [Routes.PaymentIntentsCreate 33600%float "pm_1";
            Routes.SendEmail "bookingConfirmation" 7] booking1).
  right. vm_compute. reflexivity.
Defined.

(** C2: [isAvailable] answers true exactly when the room is active, its
    operational status is 'Available' and no booking of that room with
    status 'Confirmed' or 'Checked In' has checkInDate < checkOut and
    checkOutDate > checkIn; [findAvailable] returns exactly the rooms of
    the catalogue that are active, 'Available', of maxOccupancy at least
    the requested capacity, and without such a booking.  Bookings in the
    four other statuses never block, nor does a booking that ends where
    the interval begins or begins where it ends. *)
Theorem availability_exact :
  (forall roomId r (bookings : list Booking.t) checkIn checkOut,
      Room.isAvailable roomId r bookings checkIn checkOut = true
      <-> Room.isActive r = true
          /\ Room.status r = Room.Available
          /\ forall b, b ∈ bookings -> ~ blocks roomId checkIn checkOut b)
  /\ (forall (rooms : gmap nat Room.t) (bookings : list Booking.t)
             checkIn checkOut minCapacity roomId r,
         Room.findAvailable rooms bookings checkIn checkOut minCapacity
           !! roomId = Some r
         <-> rooms !! roomId = Some r
             /\ Room.isActive r = true
             /\ Room.status r = Room.Available
             /\ minCapacity <= Room.maxOccupancy r
             /\ forall b, b ∈ bookings -> ~ blocks roomId checkIn checkOut b)
  /\ (forall roomId checkIn checkOut b,
         Room.conflicting roomId checkIn checkOut b = true
         <-> blocks roomId checkIn checkOut b)
  /\ (forall roomId checkIn checkOut b,
         Booking.status b = Booking.Pending
         \/ Booking.status b = Booking.Cancelled
         \/ Booking.status b = Booking.CheckedOut
         \/ Booking.status b = Booking.NoShow ->
         ~ blocks roomId checkIn checkOut b)
  /\ (forall roomId checkIn checkOut b,
         Booking.checkOutDate b = checkIn \/ Booking.checkInDate b = checkOut ->
         ~ blocks roomId checkIn checkOut b).
Proof.
  split; [exact isAvailable_true|].
  split; [exact findAvailable_lookup|].
  split; [exact conflicting_blocks|].
  split.
  - intros roomId checkIn checkOut b Hs (_ & Hst & _).
    destruct Hs as [Hs|[Hs|[Hs|Hs]]]; rewrite Hs in Hst;
      destruct Hst; discriminate.
  - intros roomId checkIn checkOut b Hd (_ & _ & Hi & Ho). lia.
Qed.

Lemma availability_exact_witness :
  Room.isAvailable 0 room100 [booking1]
    (t0 + 13 * JS.msPerDay) (t0 + 15 * JS.msPerDay) = true.
Proof.
  apply (proj1 availability_exact).
  split; [reflexivity|]. split; [reflexivity|].
  intros b Hb (_ & _ & _ & Ho). apply list_elem_of_singleton in Hb.
  subst b. vm_compute in Ho. discriminate.
Defined.

(** ** Updates of a stored booking *)

Lemma pre_validate_core d b :
  let b' := Booking.pre_validate d b in
  Booking.status b' = Booking.status b
  /\ Booking.room b' = Booking.room b
  /\ Booking.checkInDate b' = Booking.checkInDate b
  /\ Booking.checkOutDate b' = Booking.checkOutDate b
  /\ Booking.guest b' = Booking.guest b
  /\ Booking.totalAmount b' = Booking.totalAmount b
  /\ Booking.paymentStatus b' = Booking.paymentStatus b
  /\ Booking.stripePaymentIntentId b' = Booking.stripePaymentIntentId b
  /\ Booking.cancellationFee b' = Booking.cancellationFee b
  /\ Booking.refundAmount b' = Booking.refundAmount b
  /\ Booking.cancellationReason b' = Booking.cancellationReason b
  /\ Booking.cancellationDate b' = Booking.cancellationDate b.
Proof.
  destruct (pre_validate_shape d b) as (k & c & n & ->).
  simpl. repeat split; reflexivity.
Qed.

Lemma cancelBooking_spec s req env s' calls resp :
  Routes.cancelBooking s req env = (s', calls, resp) ->
  (s' = s /\ exists code message, resp = Routes.Failure code message)
  \/ exists i booking,
       list_find (Routes.by_number_and_code (Routes.cancel_bookingNumber req)
                    (Routes.cancel_confirmationCode req)) (Routes.bookings s)
       = Some (i, booking)
       /\ Booking.canBeCancelled booking (Routes.guardNow env) = true
       /\ let fee :=
            Booking.calculateCancellationFee booking (Routes.feeNow env) in
          let refund := (Booking.totalAmount booking - fee)%float in
          let refunding :=
            JS.truthy (Booking.stripePaymentIntentId booking)
            && (0 <? refund)%float in
          let doc :=
            Booking.pre_validate (Routes.cancelDraws env)
              (Routes.markCancelled booking (Routes.reason req)
                 (Routes.cancelNow env) fee refund) in
          (refunding = true -> Routes.refundOk env = true)
          /\ s' = Routes.with_bookings s (<[i:=doc]> (Routes.bookings s))
          /\ calls
             = (if refunding
                then [Routes.RefundsCreate
                        (Booking.stripePaymentIntentId booking)
                        (JS.Math_round (refund * 100)%float)]
                else [])
               ++ [Routes.SendEmail "bookingCancellation"
                                    (Booking.guest booking)]
          /\ resp = Routes.Success 200
                      {| Routes.c_bookingNumber :=
                           Routes.cancel_bookingNumber req;
                         Routes.c_cancellationFee := fee;
                         Routes.c_refundAmount := refund;
                         Routes.c_status := Booking.Cancelled |}.
Proof.
  unfold Routes.cancelBooking. intros H.
  destruct (list_find _ _) as [[i booking]|] eqn:Hf;
    [|injection H as <- <- <-; left; eauto].
  destruct (Booking.canBeCancelled booking (Routes.guardNow env)) eqn:Hc;
    simpl in H; [|injection H as <- <- <-; left; eauto].
  destruct (JS.truthy (Booking.stripePaymentIntentId booking)
            && (0 <? _)%float && negb (Routes.refundOk env)) eqn:Hr;
    [injection H as <- <- <-; left; eauto|].
  destruct (Booking.save _ _ _ _) as [coll doc| |] eqn:Hs;
    [|injection H as <- <- <-; left; eauto..].
  injection H as <- <- <-. right. exists i, booking.
  apply save_Saved in Hs as (Hd & _ & -> & _).
  split; [done|]. split; [done|]. simpl.
  pose proof (pre_validate_core (Routes.cancelDraws env)
    (Routes.markCancelled booking (Routes.reason req) (Routes.cancelNow env)
       (Booking.calculateCancellationFee booking (Routes.feeNow env))
       (Booking.totalAmount booking
        - Booking.calculateCancellationFee booking (Routes.feeNow env))))
    as (Hst & _ & _ & _ & Hg & _).
  rewrite Hd, Hst, Hg. simpl. repeat split; auto.
  intros Hrf. rewrite Hrf in Hr. simpl in Hr.
  by destruct (Routes.refundOk env).
Qed.

Lemma checkIn_spec s id env s' calls resp :
  Routes.checkIn s id env = (s', calls, resp) ->
  (s' = s /\ exists code message, resp = Routes.Failure code message)
  \/ exists booking,
       Routes.bookings s !! id = Some booking
       /\ Booking.status booking = Booking.Confirmed
       /\ let doc :=
            Booking.pre_validate (Routes.stayDraws env)
              (Booking.set_actualCheckInTime (Some (Routes.stayNow env))
                 (Booking.set_status Booking.CheckedIn booking)) in
          Routes.bookings s' = <[id:=doc]> (Routes.bookings s)
          /\ (resp = Routes.Success 200 doc
              \/ exists message, resp = Routes.Failure 500 message).
Proof.
  unfold Routes.checkIn. intros H.
  destruct (Routes.bookings s !! id) as [booking|] eqn:Hb;
    [|injection H as <- <- <-; left; eauto].
  destruct (Booking.Status_eqb (Booking.status booking) Booking.Confirmed)
    eqn:Hst; simpl in H; [|injection H as <- <- <-; left; eauto].
  apply booking_status_eqb_eq in Hst.
  destruct (Booking.save _ _ _ _) as [coll doc| |] eqn:Hs;
    [|injection H as <- <- <-; left; eauto..].
  apply save_Saved in Hs as (-> & _ & -> & _).
  right. exists booking. split; [done|]. split; [done|]. simpl.
  destruct (Routes.rooms s !! _); injection H as <- <- <-; simpl; eauto.
Qed.

Lemma checkOut_spec s id env s' calls resp :
  Routes.checkOut s id env = (s', calls, resp) ->
  (s' = s /\ exists code message, resp = Routes.Failure code message)
  \/ exists booking,
       Routes.bookings s !! id = Some booking
       /\ Booking.status booking = Booking.CheckedIn
       /\ let doc :=
            Booking.pre_validate (Routes.stayDraws env)
              (Booking.set_actualCheckOutTime (Some (Routes.stayNow env))
                 (Booking.set_status Booking.CheckedOut booking)) in
          Routes.bookings s' = <[id:=doc]> (Routes.bookings s)
          /\ (resp = Routes.Success 200 doc
              \/ exists message, resp = Routes.Failure 500 message).
Proof.
  unfold Routes.checkOut. intros H.
  destruct (Routes.bookings s !! id) as [booking|] eqn:Hb;
    [|injection H as <- <- <-; left; eauto].
  destruct (Booking.Status_eqb (Booking.status booking) Booking.CheckedIn)
    eqn:Hst; simpl in H; [|injection H as <- <- <-; left; eauto].
  apply booking_status_eqb_eq in Hst.
  destruct (Booking.save _ _ _ _) as [coll doc| |] eqn:Hs;
    [|injection H as <- <- <-; left; eauto..].
  apply save_Saved in Hs as (-> & _ & -> & _).
  right. exists booking. split; [done|]. split; [done|]. simpl.
  destruct (Routes.rooms s !! _); injection H as <- <- <-; simpl; eauto.
Qed.

(** ** Disjoint stays *)

Lemma disjoint_app (bs : list Booking.t) b :
  disjoint_stays bs ->
  (occupying b ->
   forall e, e ∈ bs ->
             ~ blocks (Booking.room b) (Booking.checkInDate b)
                      (Booking.checkOutDate b) e) ->
  disjoint_stays (bs ++ [b]).
Proof.
  intros Hinv Hnew i j b1 b2 Hij H1 H2 Hroom Ho1 Ho2.
  apply lookup_app_Some in H1 as [H1|[Hl1 H1]];
    apply lookup_app_Some in H2 as [H2|[Hl2 H2]].
  - eapply Hinv; eauto.
  - apply list_lookup_singleton_Some in H2 as [_ <-].
    assert (~ blocks (Booking.room b) (Booking.checkInDate b)
              (Booking.checkOutDate b) b1) as Hnb.
    { apply Hnew; [done|]. by eapply list_elem_of_lookup_2. }
    unfold blocks in Hnb.
    destruct (Z_le_gt_dec (Booking.checkOutDate b1) (Booking.checkInDate b));
      [by left|].
    destruct (Z_le_gt_dec (Booking.checkOutDate b) (Booking.checkInDate b1));
      [by right|].
    exfalso. apply Hnb. repeat split; auto; lia.
  - apply list_lookup_singleton_Some in H1 as [_ <-].
    assert (~ blocks (Booking.room b) (Booking.checkInDate b)
              (Booking.checkOutDate b) b2) as Hnb.
    { apply Hnew; [done|]. by eapply list_elem_of_lookup_2. }
    unfold blocks in Hnb.
    destruct (Z_le_gt_dec (Booking.checkOutDate b) (Booking.checkInDate b2));
      [by left|].
    destruct (Z_le_gt_dec (Booking.checkOutDate b2) (Booking.checkInDate b));
      [by right|].
    exfalso. apply Hnb. repeat split; auto; lia.
  - apply list_lookup_singleton_Some in H1 as [? _].
    apply list_lookup_singleton_Some in H2 as [? _]. lia.
Qed.

Lemma disjoint_insert (bs : list Booking.t) i b b' :
  disjoint_stays bs ->
  bs !! i = Some b ->
  Booking.room b' = Booking.room b ->
  Booking.checkInDate b' = Booking.checkInDate b ->
  Booking.checkOutDate b' = Booking.checkOutDate b ->
  (occupying b' -> occupying b) ->
  disjoint_stays (<[i:=b']> bs).
Proof.
  intros Hinv Hb Hr Hci Hco Hocc j k b1 b2 Hjk H1 H2 Hroom Ho1 Ho2.
  apply list_lookup_insert_Some in H1 as [(<- & <- & Hl1)|[Hn1 H1]];
    apply list_lookup_insert_Some in H2 as [(<- & <- & Hl2)|[Hn2 H2]].
  - done.
  - rewrite Hci, Hco.
    apply (Hinv i k b b2); auto; congruence.
  - rewrite Hci, Hco.
    apply (Hinv j i b1 b); auto; congruence.
  - by apply (Hinv j k b1 b2).
Qed.

Lemma getBooking_store s req : (Routes.getBooking s req).1.1 = s.
Proof.
  unfold Routes.getBooking.
  destruct (if JS.truthy _ then _ else _) as [[i b]|]; reflexivity.
Qed.

Lemma exec_disjoint s op :
  disjoint_stays (Routes.bookings s) ->
  disjoint_stays (Routes.bookings (Routes.exec s op)).
Proof.
  intros Hinv. destruct op as [req env|req env|req env|id env|id env|req|c];
    simpl.
  - destruct (Routes.createBookingRequest s req env) as [[s' calls] resp]
      eqn:H. simpl.
    apply createBookingRequest_spec in H
      as [[-> _]|(room & g & doc & Ha & Hg & Hs & -> & _)]; [done|].
    apply precheck_inl in Ha as (Hlt & _).
    apply save_insert in Hs as (Hd & _);
      [|reflexivity|reflexivity|by apply draft_nights].
    simpl. apply disjoint_app; [done|].
    intros [Ho|Ho]; rewrite Hd in Ho; discriminate.
  - destruct (Routes.createBooking s req env) as [[s' calls] resp] eqn:H.
    simpl.
    apply createBooking_spec in H
      as [[-> _]
         |(room & g & intent & doc & stored & Ha & Hg & Hi & Hs & -> & Hst
           & _)]; [done|].
    apply precheck_inl in Ha as (Hlt & _ & _ & _ & _ & Hav).
    apply save_insert in Hs as (Hd & _);
      [|reflexivity|reflexivity|by apply draft_nights].
    apply isAvailable_true in Hav as (_ & _ & Hno).
    simpl. apply disjoint_app; [done|]. intros _.
    destruct Hst as [->| ->]; rewrite Hd; simpl; exact Hno.
  - destruct (Routes.cancelBooking s req env) as [[s' calls] resp] eqn:H.
    simpl.
    apply cancelBooking_spec in H
      as [[-> _]|(i & booking & Hf & _ & _ & -> & _)]; [done|].
    apply list_find_Some in Hf as (Hl & _).
    simpl.
    match goal with
    | |- context [Booking.pre_validate ?d ?b] =>
        pose proof (pre_validate_core d b) as (Hst & Hr & Hci & Hco & _)
    end.
    eapply disjoint_insert; eauto.
    intros [Ho|Ho]; rewrite Hst in Ho; discriminate.
  - destruct (Routes.checkIn s id env) as [[s' calls] resp] eqn:H. simpl.
    apply checkIn_spec in H as [[-> _]|(booking & Hl & Hc & Hb & _)];
      [done|].
    rewrite Hb.
    match goal with
    | |- context [Booking.pre_validate ?d ?b] =>
        pose proof (pre_validate_core d b) as (Hst & Hr & Hci & Hco & _)
    end.
    eapply disjoint_insert; eauto. intros _. by left.
  - destruct (Routes.checkOut s id env) as [[s' calls] resp] eqn:H. simpl.
    apply checkOut_spec in H as [[-> _]|(booking & Hl & Hc & Hb & _)];
      [done|].
    rewrite Hb.
    match goal with
    | |- context [Booking.pre_validate ?d ?b] =>
        pose proof (pre_validate_core d b) as (Hst & Hr & Hci & Hco & _)
    end.
    eapply disjoint_insert; eauto.
    intros [Ho|Ho]; rewrite Hst in Ho; discriminate.
  - by rewrite getBooking_store.
  - done.
Qed.

Lemma run_disjoint ops s :
  disjoint_stays (Routes.bookings s) ->
  disjoint_stays (Routes.bookings (Routes.run s ops)).
Proof.
  revert s. induction ops as [|op ops IH]; intros s Hinv; [done|].
  simpl. apply IH. by apply exec_disjoint.
Qed.

Lemma creation_needs_availability s req env :
  Routes.bookings (Routes.createBookingRequest s req env).1.1
  <> Routes.bookings s
  \/ Routes.bookings (Routes.createBooking s req env).1.1
     <> Routes.bookings s ->
  exists room,
    Routes.rooms s !! Routes.roomId req = Some room
    /\ Room.isAvailable (Routes.roomId req) room (Routes.bookings s)
         (Routes.checkInDate req) (Routes.checkOutDate req) = true.
Proof.
  intros [H|H].
  - destruct (Routes.createBookingRequest s req env) as [[s' calls] resp]
      eqn:Hc. simpl in H.
    apply createBookingRequest_spec in Hc
      as [[-> _]|(room & g & doc & Ha & _)]; [done|].
    apply precheck_inl in Ha as (_ & _ & Hr & _ & _ & Hav). eauto.
  - destruct (Routes.createBooking s req env) as [[s' calls] resp] eqn:Hc.
    simpl in H.
    apply createBooking_spec in Hc
      as [[-> _]|(room & g & intent & doc & stored & Ha & _)]; [done|].
    apply precheck_inl in Ha as (_ & _ & Hr & _ & _ & Hav). eauto.
Qed.

(** C1: in every store reached from a store without bookings by handling
    requests one after the other (booking requests, paid bookings,
    cancellations, check-ins, check-outs, lookups, edits of the room
    catalogue), any two distinct bookings of one room whose status is
    'Confirmed' or 'Checked In' have disjoint stays [checkInDate,
    checkOutDate): one ends no later than the other begins.  A creation
    route adds a booking to the store only if [isAvailable] answered true
    for the room and the interval of the request on that store. *)
Theorem stays_never_overlap catalog ops :
  disjoint_stays (Routes.bookings (Routes.run (Routes.opening catalog) ops))
  /\ forall req env,
       let s := Routes.run (Routes.opening catalog) ops in
       Routes.bookings (Routes.createBookingRequest s req env).1.1
       <> Routes.bookings s
       \/ Routes.bookings (Routes.createBooking s req env).1.1
          <> Routes.bookings s ->
       exists room,
         Routes.rooms s !! Routes.roomId req = Some room
         /\ Room.isAvailable (Routes.roomId req) room (Routes.bookings s)
              (Routes.checkInDate req) (Routes.checkOutDate req) = true.
Proof.
  split.
  - apply run_disjoint. intros i j b1 b2 _ H. done.
  - intros req env s. apply creation_needs_availability.
Qed.

(** ** Cancellation policy (models/Booking.js) *)

Lemma hours_gt b now (h : Z) :
  (inject_Z h < Booking.hoursUntilCheckIn b now)%Q
  <-> h * JS.msPerHour < Booking.checkInDate b - now.
Proof.
  unfold Booking.hoursUntilCheckIn, JS.msPerHour, Qlt, Qdiv, Qmult, Qinv,
    inject_Z.
  simpl. lia.
Qed.

Lemma hours_le b now (h : Z) :
  (Booking.hoursUntilCheckIn b now <= inject_Z h)%Q
  <-> Booking.checkInDate b - now <= h * JS.msPerHour.
Proof.
  unfold Booking.hoursUntilCheckIn, JS.msPerHour, Qle, Qdiv, Qmult, Qinv,
    inject_Z.
  simpl. lia.
Qed.

Lemma canBeCancelled_true b now :
  Booking.canBeCancelled b now = true
  <-> Booking.status b = Booking.Confirmed
      /\ (24 < Booking.hoursUntilCheckIn b now)%Q.
Proof.
  unfold Booking.canBeCancelled.
  by rewrite andb_true_iff, booking_status_eqb_eq, Qltb_lt.
Qed.

Lemma fee_tiers b now :
  let h := Booking.hoursUntilCheckIn b now in
  let fee := Booking.calculateCancellationFee b now in
  ((48 < h)%Q -> fee = 0%float)
  /\ ((24 < h)%Q /\ (h <= 48)%Q -> fee = (Booking.totalAmount b * 0.25)%float)
  /\ ((h <= 24)%Q -> fee = (Booking.totalAmount b * 0.50)%float).
Proof.
  simpl. unfold Booking.calculateCancellationFee.
  destruct (JS.Qltb 48 _) eqn:H48;
    [apply Qltb_lt, (hours_gt b now 48) in H48
    |apply Qltb_ge, (hours_le b now 48) in H48;
     destruct (JS.Qltb 24 _) eqn:H24;
       [apply Qltb_lt, (hours_gt b now 24) in H24
       |apply Qltb_ge, (hours_le b now 24) in H24]].
  all: split;
    [intros H%(hours_gt b now 48)
    |split; [intros [Ha%(hours_gt b now 24) Hb%(hours_le b now 48)]
            |intros H%(hours_le b now 24)]].
  all: try reflexivity; unfold JS.msPerHour in *; lia.
Qed.

Lemma cancelBooking_stored s req env s' calls data :
  Routes.cancelBooking s req env = (s', calls, Routes.Success 200 data) ->
  exists i booking stored,
    list_find (Routes.by_number_and_code (Routes.cancel_bookingNumber req)
                 (Routes.cancel_confirmationCode req)) (Routes.bookings s)
    = Some (i, booking)
    /\ Booking.canBeCancelled booking (Routes.guardNow env) = true
    /\ let fee :=
         Booking.calculateCancellationFee booking (Routes.feeNow env) in
       let refund := (Booking.totalAmount booking - fee)%float in
       Routes.bookings s' !! i = Some stored
       /\ Booking.status stored = Booking.Cancelled
       /\ Booking.cancellationFee stored = fee
       /\ Booking.refundAmount stored = refund
       /\ Booking.paymentStatus stored
          = (if (0 <? refund)%float then Booking.Refunded else Booking.Paid)
       /\ Routes.c_cancellationFee data = fee
       /\ Routes.c_refundAmount data = refund
       /\ calls
          = (if JS.truthy (Booking.stripePaymentIntentId booking)
                && (0 <? refund)%float
             then [Routes.RefundsCreate
                     (Booking.stripePaymentIntentId booking)
                     (JS.Math_round (refund * 100)%float)]
             else [])
            ++ [Routes.SendEmail "bookingCancellation"
                                 (Booking.guest booking)].
Proof.
  intros H.
  apply cancelBooking_spec in H
    as [[_ (code & msg & Hr)]|(i & booking & Hf & Hc & H)]; [discriminate|].
  simpl in H. destruct H as (_ & -> & -> & Hr). injection Hr as ->.
  exists i, booking. eexists. split; [exact Hf|]. split; [exact Hc|].
  simpl. apply list_find_Some in Hf as (Hl & _).
  split; [apply list_lookup_insert_eq; by eapply lookup_lt_Some|].
  match goal with
  | |- context [Booking.pre_validate ?d ?b] =>
      pose proof (pre_validate_core d b)
        as (Hst & _ & _ & _ & _ & _ & Hps & _ & Hfee & Hre & _)
  end.
  rewrite Hst, Hfee, Hre, Hps. simpl. repeat split; reflexivity.
Qed.

(** C4: a cancellation request succeeds only when the booking's status is
    'Confirmed' and strictly more than 24 hours (as a quotient, and in
    milliseconds) remain before checkInDate at the clock reading of the
    guard.  When it succeeds, with the hours that remain at the clock
    reading of the fee computation: the fee is 0 if more than 48 hours
    remain, 25% of totalAmount if more than 24 and at most 48 remain, 50%
    of totalAmount if at most 24 remain; the booking is stored as
    'Cancelled' with that fee, and its refundAmount is totalAmount minus
    the fee. *)
Theorem cancellation_policy s req env s' calls data :
  Routes.cancelBooking s req env = (s', calls, Routes.Success 200 data) ->
  exists i booking stored,
    list_find (Routes.by_number_and_code (Routes.cancel_bookingNumber req)
                 (Routes.cancel_confirmationCode req)) (Routes.bookings s)
    = Some (i, booking)
    /\ Booking.status booking = Booking.Confirmed
    /\ (24 < Booking.hoursUntilCheckIn booking (Routes.guardNow env))%Q
    /\ 24 * JS.msPerHour
       < Booking.checkInDate booking - Routes.guardNow env
    /\ Routes.bookings s' !! i = Some stored
    /\ Booking.status stored = Booking.Cancelled
    /\ let h := Booking.hoursUntilCheckIn booking (Routes.feeNow env) in
       let fee := Booking.cancellationFee stored in
       ((48 < h)%Q -> fee = 0%float)
       /\ ((24 < h)%Q /\ (h <= 48)%Q ->
           fee = (Booking.totalAmount booking * 0.25)%float)
       /\ ((h <= 24)%Q -> fee = (Booking.totalAmount booking * 0.50)%float)
       /\ Booking.refundAmount stored
          = (Booking.totalAmount booking - fee)%float
       /\ Routes.c_cancellationFee data = fee
       /\ Routes.c_refundAmount data = Booking.refundAmount stored.
Proof.
  intros H.
  apply cancelBooking_stored in H
    as (i & booking & stored & Hf & Hc & Hl & Hst & Hfee & Hre & _ & Hdf
        & Hdr & _).
  apply canBeCancelled_true in Hc as [Hs Hh].
  exists i, booking, stored. do 3 (split; [done|]).
  split; [by apply (hours_gt booking (Routes.guardNow env) 24)|].
  do 2 (split; [done|]). simpl. rewrite Hfee.
  destruct (fee_tiers booking (Routes.feeNow env)) as (T1 & T2 & T3).
  repeat split; auto; congruence.
Qed.

(** C5: a check-in of a booking whose status is not 'Confirmed', a
    check-out of a booking whose status is not 'Checked In' and a
    cancellation that the eligibility guard refuses are each answered
    with an error (400), make no external call and leave the store
    (bookings and rooms) as it was; a cancellation whose refund call
    fails is answered with an error (400) and leaves the store as it was;
    more generally, every cancellation answered with an error leaves the
    store as it was. *)
Theorem guards_leave_store_unchanged :
  (forall s id env booking,
      Routes.bookings s !! id = Some booking ->
      Booking.status booking <> Booking.Confirmed ->
      exists message,
        Routes.checkIn s id env = (s, [], Routes.Failure 400 message))
  /\ (forall s id env booking,
         Routes.bookings s !! id = Some booking ->
         Booking.status booking <> Booking.CheckedIn ->
         exists message,
           Routes.checkOut s id env = (s, [], Routes.Failure 400 message))
  /\ (forall s req env i booking,
         list_find (Routes.by_number_and_code
                      (Routes.cancel_bookingNumber req)
                      (Routes.cancel_confirmationCode req))
                   (Routes.bookings s) = Some (i, booking) ->
         ~ (Booking.status booking = Booking.Confirmed
            /\ (24 < Booking.hoursUntilCheckIn booking
                       (Routes.guardNow env))%Q) ->
         exists message,
           Routes.cancelBooking s req env
           = (s, [], Routes.Failure 400 message))
  /\ (forall s req env i booking,
         list_find (Routes.by_number_and_code
                      (Routes.cancel_bookingNumber req)
                      (Routes.cancel_confirmationCode req))
                   (Routes.bookings s) = Some (i, booking) ->
         Booking.canBeCancelled booking (Routes.guardNow env) = true ->
         JS.truthy (Booking.stripePaymentIntentId booking) = true ->
         (0 <? Booking.totalAmount booking
               - Booking.calculateCancellationFee booking
                   (Routes.feeNow env))%float = true ->
         Routes.refundOk env = false ->
         exists call message,
           Routes.cancelBooking s req env
           = (s, [call], Routes.Failure 400 message))
  /\ (forall s req env s' calls code message,
         Routes.cancelBooking s req env
         = (s', calls, Routes.Failure code message) ->
         s' = s).
Proof.
  repeat split.
  - intros s id env booking Hl Hs. unfold Routes.checkIn. rewrite Hl.
    destruct (Booking.Status_eqb _ _) eqn:He;
      [by apply booking_status_eqb_eq in He|]. simpl. eauto.
  - intros s id env booking Hl Hs. unfold Routes.checkOut. rewrite Hl.
    destruct (Booking.Status_eqb _ _) eqn:He;
      [by apply booking_status_eqb_eq in He|]. simpl. eauto.
  - intros s req env i booking Hf Hg. unfold Routes.cancelBooking.
    rewrite Hf.
    destruct (Booking.canBeCancelled _ _) eqn:Hc;
      [by apply canBeCancelled_true in Hc|]. simpl. eauto.
  - intros s req env i booking Hf Hc Hi Hr Hk. unfold Routes.cancelBooking.
    rewrite Hf, Hc, Hi, Hr, Hk. simpl. eauto.
  - intros s req env s' calls code message H.
    apply cancelBooking_spec in H as [[-> _]|(i & booking & _ & _ & H)];
      [done|].
    simpl in H. by destruct H as (_ & _ & _ & ?).
Qed.

(** C10: after every successful cancellation whose refundAmount is
    strictly positive the stored paymentStatus is 'Refunded'; this
    includes a booking with no stored payment-intent reference (whatever
    its paymentStatus was, 'Pending' included), for which no refund call
    is made: the only external call is the cancellation mail.  When the
    refundAmount is zero the stored paymentStatus is 'Paid'. *)
Theorem cancellation_payment_status s req env s' calls data :
  Routes.cancelBooking s req env = (s', calls, Routes.Success 200 data) ->
  exists i booking stored,
    list_find (Routes.by_number_and_code (Routes.cancel_bookingNumber req)
                 (Routes.cancel_confirmationCode req)) (Routes.bookings s)
    = Some (i, booking)
    /\ Routes.bookings s' !! i = Some stored
    /\ Booking.status stored = Booking.Cancelled
    /\ Routes.c_refundAmount data = Booking.refundAmount stored
    /\ ((0 <? Booking.refundAmount stored)%float = true ->
        Booking.paymentStatus stored = Booking.Refunded)
    /\ ((0 <? Booking.refundAmount stored)%float = true ->
        Booking.stripePaymentIntentId booking = "" ->
        Booking.paymentStatus stored = Booking.Refunded
        /\ calls = [Routes.SendEmail "bookingCancellation"
                                     (Booking.guest booking)])
    /\ (Booking.refundAmount stored = 0%float ->
        Booking.paymentStatus stored = Booking.Paid).
Proof.
  intros H.
  apply cancelBooking_stored in H
    as (i & booking & stored & Hf & Hc & Hl & Hst & Hfee & Hre & Hps & Hdf
        & Hdr & Hcalls).
  exists i, booking, stored. do 3 (split; [done|]).
  split; [congruence|].
  rewrite <- Hre in Hps.
  split; [intros Hpos; by rewrite Hps, Hpos|].
  split.
  - intros Hpos Hno. split; [by rewrite Hps, Hpos|].
    rewrite Hcalls, Hno. reflexivity.
  - intros Hz. rewrite Hps, Hz. reflexivity.
Qed.

(** ** Pricing and the clock *)

Lemma creation_snapshot s req env b :
  created s req env b ->
  exists room,
    Routes.rooms s !! Routes.roomId req = Some room
    /\ snapshot b
       = Routes.pricing room (Routes.checkInDate req)
           (Routes.checkOutDate req) (Routes.priceNow env).
Proof.
  intros (s' & calls & [H|H]).
  - apply createBookingRequest_spec in H
      as [[_ (code & msg & Hr)]|(room & g & doc & Ha & Hg & Hs & -> & Hr)];
      [discriminate|].
    injection Hr as ->.
    apply precheck_inl in Ha as (Hlt & _ & Hroom & _).
    apply save_insert in Hs as (Hd & _);
      [|reflexivity|reflexivity|by apply draft_nights].
    exists room. split; [done|]. rewrite Hd. reflexivity.
  - apply createBooking_spec in H
      as [[_ (code & msg & Hr)]
         |(room & g & intent & doc & stored & Ha & Hg & Hi & Hs & -> & Hst
           & Hr)];
      [discriminate|].
    apply precheck_inl in Ha as (Hlt & _ & Hroom & _).
    apply save_insert in Hs as (Hd & _);
      [|reflexivity|reflexivity|by apply draft_nights].
    exists room. split; [done|].
    destruct Hr as [[msg Hr]|[Hr|Hr]]; [discriminate|..];
      injection Hr as ->; rewrite Hd; reflexivity.
Qed.

Lemma pricing_of_snapshot room room' checkIn checkOut now :
  Room.basePrice room = Room.basePrice room' ->
  Room.seasonalPricing room = Room.seasonalPricing room' ->
  Routes.pricing room checkIn checkOut now
  = Routes.pricing room' checkIn checkOut now.
Proof.
  intros Hb Hs. unfold Routes.pricing, Room.currentPrice.
  by rewrite Hb, Hs.
Qed.

(** C6, as it holds: the pricing snapshot (numberOfNights, roomRate,
    subtotal, taxes, totalAmount) of a created booking is a function of
    the room's base price and seasonal overrides, the two dates of the
    stay, and the clock reading at which [currentPrice] is evaluated: two
    successful creations, whatever their stores, guests, payment outcomes
    and routes, that agree on these produce the same snapshot. *)
Theorem pricing_deterministic_given_clock
    s req env b room s' req' env' b' room' :
  created s req env b -> created s' req' env' b' ->
  Routes.rooms s !! Routes.roomId req = Some room ->
  Routes.rooms s' !! Routes.roomId req' = Some room' ->
  Room.basePrice room = Room.basePrice room' ->
  Room.seasonalPricing room = Room.seasonalPricing room' ->
  Routes.checkInDate req = Routes.checkInDate req' ->
  Routes.checkOutDate req = Routes.checkOutDate req' ->
  Routes.priceNow env = Routes.priceNow env' ->
  snapshot b = snapshot b'.
Proof.
  intros Hc Hc' Hr Hr' Hb Hs Hci Hco Hnow.
  apply creation_snapshot in Hc as (r & Hl & ->).
  apply creation_snapshot in Hc' as (r' & Hl' & ->).
  rewrite Hl in Hr. rewrite Hl' in Hr'.
  injection Hr as ->. injection Hr' as ->.
  rewrite Hci, Hco, Hnow. by apply pricing_of_snapshot.
Qed.

(** The claim C6 as stated fails: for one room and one stay, the price
    computed during the season differs from the price computed after
    it. *)
Lemma pricing_depends_on_clock :
  Routes.pricing room_seasonal (t0 + 40 * JS.msPerDay)
    (t0 + 43 * JS.msPerDay) (t0 + 1 * JS.msPerDay)
  <> Routes.pricing room_seasonal (t0 + 40 * JS.msPerDay)
       (t0 + 43 * JS.msPerDay) (t0 + 31 * JS.msPerDay).
Proof.
  intros H.
  apply (f_equal (fun p => (Routes.totalAmount p <? 400)%float)) in H.
  vm_compute in H. discriminate.
Qed.

Lemma pricing_in_and_out_of_season :
  Routes.pricing room_seasonal (t0 + 40 * JS.msPerDay)
    (t0 + 43 * JS.msPerDay) (t0 + 1 * JS.msPerDay)
  = {| Routes.numberOfNights := 3; Routes.roomRate := 150%float;
       Routes.subtotal := 450%float; Routes.taxes := 54%float;
       Routes.totalAmount := 504%float |}
  /\ Routes.pricing room_seasonal (t0 + 40 * JS.msPerDay)
       (t0 + 43 * JS.msPerDay) (t0 + 31 * JS.msPerDay)
     = {| Routes.numberOfNights := 3; Routes.roomRate := 100%float;
          Routes.subtotal := 300%float; Routes.taxes := 36%float;
          Routes.totalAmount := 336%float |}.
Proof. split; vm_compute; reflexivity. Qed.

(** ** Lookup *)

Lemma getBooking_with_code s req s' calls b :
  JS.truthy (Routes.get_confirmationCode req) = true ->
  Routes.getBooking s req = (s', calls, Routes.Success 200 b) ->
  b ∈ Routes.bookings s
  /\ Booking.bookingNumber b = Routes.get_bookingNumber req
  /\ Booking.confirmationCode b = Routes.get_confirmationCode req.
Proof.
  unfold Routes.getBooking. intros -> H.
  destruct (list_find _ _) as [[i x]|] eqn:Hf; [|discriminate].
  injection H as _ _ ->.
  apply list_find_Some in Hf as (Hl & [Hn Hc] & _).
  split; [by eapply list_elem_of_lookup_2|done].
Qed.

(** C7, where the code departs from it: a request without confirmation
    code and without any credential is answered with the booking that
    has the requested number. *)
Theorem getBooking_without_code_unauthenticated :
  Routes.getBooking store1
    {| Routes.get_bookingNumber := "OVH2026123456";
       Routes.get_confirmationCode := "";
       Routes.authorization := "" |}
  = (store1, [], Routes.Success 200 booking1).
Proof. vm_compute. reflexivity. Qed.

Lemma getBooking_ignores_credentials s n a a' :
  Routes.getBooking s
    {| Routes.get_bookingNumber := n; Routes.get_confirmationCode := "";
       Routes.authorization := a |}
  = Routes.getBooking s
      {| Routes.get_bookingNumber := n; Routes.get_confirmationCode := "";
         Routes.authorization := a' |}.
Proof. reflexivity. Qed.

(** ** Booking numbers and confirmation codes *)

Lemma unique_app (bs : list Booking.t) b :
  unique_ids bs ->
  Booking.required_ok b = true ->
  (forall e, e ∈ bs ->
     Booking.bookingNumber e <> Booking.bookingNumber b
     /\ Booking.confirmationCode e <> Booking.confirmationCode b) ->
  unique_ids (bs ++ [b]).
Proof.
  intros [Hu Hr] Hb Hnew. split.
  - intros i j b1 b2 Hij H1 H2.
    apply lookup_app_Some in H1 as [H1|[Hl1 H1]];
      apply lookup_app_Some in H2 as [H2|[Hl2 H2]].
    + by apply (Hu i j).
    + apply list_lookup_singleton_Some in H2 as [_ <-].
      apply Hnew. by eapply list_elem_of_lookup_2.
    + apply list_lookup_singleton_Some in H1 as [_ <-].
      destruct (Hnew b2) as [Hn Hc]; [by eapply list_elem_of_lookup_2|].
      split; congruence.
    + apply list_lookup_singleton_Some in H1 as [? _].
      apply list_lookup_singleton_Some in H2 as [? _]. lia.
  - intros e [He|He%list_elem_of_singleton]%elem_of_app; [by apply Hr|].
    by subst.
Qed.

Lemma unique_insert (bs : list Booking.t) i b b' :
  unique_ids bs ->
  bs !! i = Some b ->
  Booking.bookingNumber b' = Booking.bookingNumber b ->
  Booking.confirmationCode b' = Booking.confirmationCode b ->
  unique_ids (<[i:=b']> bs).
Proof.
  intros [Hu Hr] Hb Hn Hc. split.
  - intros j k b1 b2 Hjk H1 H2.
    apply list_lookup_insert_Some in H1 as [(<- & <- & Hl1)|[Hn1 H1]];
      apply list_lookup_insert_Some in H2 as [(<- & <- & Hl2)|[Hn2 H2]].
    + done.
    + rewrite Hn, Hc. by apply (Hu i k).
    + rewrite Hn, Hc. by apply (Hu j i).
    + by apply (Hu j k).
  - intros e He. apply list_elem_of_lookup in He as [j Hj].
    apply list_lookup_insert_Some in Hj as [(<- & <- & Hl)|[Hne Hj]].
    + assert (Booking.required_ok b = true) as Hrb
        by (apply Hr; by eapply list_elem_of_lookup_2).
      unfold Booking.required_ok in *. by rewrite Hn, Hc.
    + apply Hr. by eapply list_elem_of_lookup_2.
Qed.

Lemma unique_update (bs : list Booking.t) i b d doc :
  unique_ids bs ->
  bs !! i = Some b ->
  Booking.bookingNumber doc = Booking.bookingNumber b ->
  Booking.confirmationCode doc = Booking.confirmationCode b ->
  unique_ids (<[i:=Booking.pre_validate d doc]> bs).
Proof.
  intros Hu Hb Hn Hc.
  assert (Booking.required_ok b = true) as Hrb
    by (apply Hu; by eapply list_elem_of_lookup_2).
  apply andb_true_iff in Hrb as [Hk Hcd].
  eapply unique_insert; eauto.
  - rewrite pre_validate_keeps_number; congruence.
  - rewrite pre_validate_keeps_code; congruence.
Qed.

Lemma exec_unique s op :
  unique_ids (Routes.bookings s) ->
  unique_ids (Routes.bookings (Routes.exec s op)).
Proof.
  intros Hinv. destruct op as [req env|req env|req env|id env|id env|req|c];
    simpl.
  - destruct (Routes.createBookingRequest s req env) as [[s' calls] resp]
      eqn:H. simpl.
    apply createBookingRequest_spec in H
      as [[-> _]|(room & g & doc & Ha & Hg & Hs & -> & _)]; [done|].
    apply precheck_inl in Ha as (Hlt & _).
    apply save_insert in Hs as (_ & _ & Hr & Hnew);
      [|reflexivity|reflexivity|by apply draft_nights].
    simpl. by apply unique_app.
  - destruct (Routes.createBooking s req env) as [[s' calls] resp] eqn:H.
    simpl.
    apply createBooking_spec in H
      as [[-> _]
         |(room & g & intent & doc & stored & Ha & Hg & Hi & Hs & -> & Hst
           & _)]; [done|].
    apply precheck_inl in Ha as (Hlt & _).
    apply save_insert in Hs as (_ & _ & Hr & Hnew);
      [|reflexivity|reflexivity|by apply draft_nights].
    simpl. destruct Hst as [->| ->]; by apply unique_app.
  - destruct (Routes.cancelBooking s req env) as [[s' calls] resp] eqn:H.
    simpl.
    apply cancelBooking_spec in H
      as [[-> _]|(i & booking & Hf & _ & _ & -> & _)]; [done|].
    apply list_find_Some in Hf as (Hl & _).
    simpl. by eapply unique_update.
  - destruct (Routes.checkIn s id env) as [[s' calls] resp] eqn:H. simpl.
    apply checkIn_spec in H as [[-> _]|(booking & Hl & Hc & Hb & _)];
      [done|].
    rewrite Hb. by eapply unique_update.
  - destruct (Routes.checkOut s id env) as [[s' calls] resp] eqn:H. simpl.
    apply checkOut_spec in H as [[-> _]|(booking & Hl & Hc & Hb & _)];
      [done|].
    rewrite Hb. by eapply unique_update.
  - by rewrite getBooking_store.
  - done.
Qed.

Lemma run_unique ops s :
  unique_ids (Routes.bookings s) ->
  unique_ids (Routes.bookings (Routes.run s ops)).
Proof.
  revert s. induction ops as [|op ops IH]; intros s Hinv; [done|].
  simpl. apply IH. by apply exec_unique.
Qed.

Lemma save_collision d draft (coll : list Booking.t) :
  Booking.bookingNumber draft = "" -> Booking.confirmationCode draft = "" ->
  Booking.numberOfNights draft <> 0 ->
  collision d coll ->
  Booking.save d None draft coll = Booking.ValidationError
  \/ Booking.save d None draft coll = Booking.DuplicateKey.
Proof.
  intros Hk Hc Hn (e & He & Hcol).
  destruct (Booking.save d None draft coll) as [coll' doc| |] eqn:Hs; auto.
  exfalso. apply save_insert in Hs as (Hd & _ & _ & Hnew); auto.
  destruct (Hnew e He) as [H1 H2]. rewrite Hd in H1, H2. simpl in H1, H2.
  destruct Hcol; congruence.
Qed.

Lemma creation_ids s req env b :
  created s req env b ->
  Booking.bookingNumber b = Booking.generate_bookingNumber (Routes.draws env)
  /\ Booking.confirmationCode b
     = Booking.generate_confirmationCode (Routes.draws env).
Proof.
  intros (s' & calls & [H|H]).
  - apply createBookingRequest_spec in H
      as [[_ (code & msg & Hr)]|(room & g & doc & Ha & Hg & Hs & -> & Hr)];
      [discriminate|].
    injection Hr as ->.
    apply precheck_inl in Ha as (Hlt & _).
    apply save_insert in Hs as (Hd & _);
      [|reflexivity|reflexivity|by apply draft_nights].
    rewrite Hd. by split.
  - apply createBooking_spec in H
      as [[_ (code & msg & Hr)]
         |(room & g & intent & doc & stored & Ha & Hg & Hi & Hs & -> & Hst
           & Hr)];
      [discriminate|].
    apply precheck_inl in Ha as (Hlt & _).
    apply save_insert in Hs as (Hd & _);
      [|reflexivity|reflexivity|by apply draft_nights].
    destruct Hr as [[msg Hr]|[Hr|Hr]]; [discriminate|..];
      injection Hr as ->; rewrite Hd; by split.
Qed.

Lemma creation_collision s req env room guestId :
  Routes.precheck s req env = inl room ->
  Routes.guest env = Some guestId ->
  collision (Routes.draws env) (Routes.bookings s) ->
  Routes.createBookingRequest s req env
  = (s, [], Routes.Failure 500 "Server error while creating booking request")
  /\ forall intent,
       Routes.paymentIntent env = Some intent ->
       Routes.createBooking s req env
       = (s,
          [Routes.PaymentIntentsCreate
             (JS.Math_round
                (Routes.totalAmount
                   (Routes.pricing room (Routes.checkInDate req)
                      (Routes.checkOutDate req) (Routes.priceNow env))
                 * 100)%float)
             (Routes.paymentMethodId req)],
          Routes.Failure 500 "Server error while creating booking").
Proof.
  intros Ha Hg Hcol.
  apply precheck_inl in Ha as Hadm. destruct Hadm as (Hlt & _).
  split.
  - unfold Routes.createBookingRequest. rewrite Ha, Hg.
    destruct (save_collision (Routes.draws env)
      (Routes.newBooking guestId req
         (Routes.pricing room (Routes.checkInDate req)
            (Routes.checkOutDate req) (Routes.priceNow env))
         Booking.PaymentPending Booking.Cash "" Booking.Pending)
      (Routes.bookings s) eq_refl eq_refl
      (draft_nights _ _ _ _ _ _ _ _ Hlt) Hcol) as [-> | ->];
      reflexivity.
  - intros intent Hi. unfold Routes.createBooking. rewrite Ha, Hg, Hi.
    destruct (save_collision (Routes.draws env)
      (Routes.newBooking guestId req
         (Routes.pricing room (Routes.checkInDate req)
            (Routes.checkOutDate req) (Routes.priceNow env))
         (if Routes.succeeded intent then Booking.Paid
          else Booking.PaymentPending)
         Booking.CreditCard (Routes.id intent)
         (if Routes.succeeded intent then Booking.Confirmed
          else Booking.Pending))
      (Routes.bookings s) eq_refl eq_refl
      (draft_nights _ _ _ _ _ _ _ _ Hlt) Hcol) as [-> | ->];
      reflexivity.
Qed.

(** C8, as it holds: the booking number and the confirmation code of a
    new booking are generated once by the hook, from its draws alone; the
    store is not consulted and nothing is retried.  Uniqueness is
    enforced by the unique indexes when the document is saved: in every
    store reached by handling requests one after the other no two
    bookings share a number or a code; and a creation whose drawn number
    or code is already taken is answered with a server error (500) and
    stores nothing. *)
Theorem ids_unique_by_index_only :
  (forall catalog ops,
      unique_ids
        (Routes.bookings (Routes.run (Routes.opening catalog) ops)))
  /\ (forall s req env b,
         created s req env b ->
         Booking.bookingNumber b
         = Booking.generate_bookingNumber (Routes.draws env)
         /\ Booking.confirmationCode b
            = Booking.generate_confirmationCode (Routes.draws env))
  /\ (forall s req env room guestId,
         Routes.precheck s req env = inl room ->
         Routes.guest env = Some guestId ->
         collision (Routes.draws env) (Routes.bookings s) ->
         Routes.createBookingRequest s req env
         = (s, [],
            Routes.Failure 500 "Server error while creating booking request")
         /\ forall intent,
              Routes.paymentIntent env = Some intent ->
              exists call,
                Routes.createBooking s req env
                = (s, [call],
                   Routes.Failure 500 "Server error while creating booking")).
Proof.
  split; [|split].
  - intros catalog ops. apply run_unique. split.
    + intros i j b1 b2 _ H. done.
    + intros b Hb. by apply elem_of_nil in Hb.
  - exact creation_ids.
  - intros s req env room guestId Ha Hg Hcol.
    destruct (creation_collision s req env room guestId Ha Hg Hcol)
      as [H1 H2].
    split; [done|]. intros intent Hi. eexists. exact (H2 intent Hi).
Qed.

(** The claim C8 as stated fails: the hook draws the number and the code
    of [booking1] again, the save is refused by the unique index, and the
    request for a free interval is answered with a server error. *)
Lemma duplicate_key_on_collision :
  Booking.save (Routes.draws env2) None
    (Routes.newBooking 8 req2
       (Routes.pricing room100 (Routes.checkInDate req2)
          (Routes.checkOutDate req2) (Routes.priceNow env2))
       Booking.PaymentPending Booking.Cash "" Booking.Pending)
    (Routes.bookings store1)
  = Booking.DuplicateKey
  /\ Routes.createBookingRequest store1 req2 env2
     = (store1, [],
        Routes.Failure 500 "Server error while creating booking request")
  /\ Room.isAvailable (Routes.roomId req2) room100 (Routes.bookings store1)
       (Routes.checkInDate req2) (Routes.checkOutDate req2) = true.
Proof. repeat split; vm_compute; reflexivity. Qed.

(** ** Revenue report *)

(** ** The calendar of the report

    [Booking.dateParts] is the civil date of the UTC day of an instant:
    the epoch is the first of January 1970, and the date of the following
    day is the next date of the calendar. *)

Lemma dateParts_of_day date :
  Booking.dateParts date = Calendar.of_day (Calendar.utc_day date).
Proof. reflexivity. Qed.

Lemma era_step z :
  let era := z / 146097 in
  let doe := z - era * 146097 in
  0 <= doe < 146097
  /\ ((doe < 146096 /\ (z + 1) / 146097 = era)
      \/ (doe = 146096 /\ (z + 1) / 146097 = era + 1)).
Proof. cbv zeta. Z.div_mod_to_equations. lia. Qed.

Lemma leap_cases y :
  (Calendar.leap_year y = true
   /\ y mod 4 = 0 /\ (y mod 100 <> 0 \/ y mod 400 = 0))
  \/ (Calendar.leap_year y = false
      /\ (y mod 4 <> 0 \/ (y mod 100 = 0 /\ y mod 400 <> 0))).
Proof.
  unfold Calendar.leap_year.
  destruct (Z.eqb_spec (y mod 4) 0), (Z.eqb_spec (y mod 100) 0),
    (Z.eqb_spec (y mod 400) 0); simpl; intuition lia.
Qed.

Lemma leapZ_range y : 0 <= Calendar.leapZ y <= 1.
Proof. unfold Calendar.leapZ. destruct (Calendar.leap_year y); lia. Qed.

Lemma yoe_range doe : 0 <= doe < 146097 -> 0 <= Calendar.yoe_of doe <= 399.
Proof. unfold Calendar.yoe_of. intros. Z.div_mod_to_equations. lia. Qed.

Lemma yoe_lower doe :
  0 <= doe < 146097 -> Calendar.start (Calendar.yoe_of doe) <= doe.
Proof.
  unfold Calendar.yoe_of, Calendar.start. intros.
  Z.div_mod_to_equations. lia.
Qed.

Lemma yoe_upper doe :
  0 <= doe < 146097 ->
  doe < Calendar.start (Calendar.yoe_of doe + 1)
  \/ (doe = 146096 /\ Calendar.yoe_of doe = 399).
Proof.
  unfold Calendar.yoe_of, Calendar.start. intros.
  Z.div_mod_to_equations. lia.
Qed.

Lemma start_mono a b : a <= b -> Calendar.start a <= Calendar.start b.
Proof. unfold Calendar.start. intros. Z.div_mod_to_equations. lia. Qed.

(** The years of an era have 365 days, and one more when the civil year
    in which they end is a leap year; the formula of [start] misses the
    last day of the era. *)
Lemma start_succ Y e :
  0 <= Y <= 399 ->
  Calendar.start (Y + 1)
  = Calendar.start Y + 365 + Calendar.leapZ (Y + 1 + e * 400)
    - (if Y =? 399 then 1 else 0).
Proof.
  intros H. unfold Calendar.leapZ.
  destruct (leap_cases (Y + 1 + e * 400)) as [(-> & H1)|(-> & H1)];
    destruct (Z.eqb_spec Y 399);
    unfold Calendar.start; Z.div_mod_to_equations; lia.
Qed.

Lemma start_next Y e :
  0 <= Y <= 398 ->
  Calendar.start (Y + 1)
  = Calendar.start Y + 365 + Calendar.leapZ (Y + 1 + e * 400).
Proof.
  intros H. rewrite (start_succ Y e) by lia.
  destruct (Z.eqb_spec Y 399); lia.
Qed.

Lemma doy_range doe e :
  0 <= doe < 146097 ->
  0 <= doe - Calendar.start (Calendar.yoe_of doe)
  < 365 + Calendar.leapZ (Calendar.yoe_of doe + 1 + e * 400).
Proof.
  intros H.
  pose proof (yoe_range doe H) as R1.
  pose proof (yoe_lower doe H) as L1.
  pose proof (yoe_upper doe H) as U1.
  pose proof (start_succ (Calendar.yoe_of doe) e R1) as S1.
  pose proof (leapZ_range (Calendar.yoe_of doe + 1 + e * 400)) as B1.
  destruct U1 as [U1|[-> E]].
  - destruct (Z.eqb_spec (Calendar.yoe_of doe) 399); lia.
  - rewrite E in *. change (Calendar.start (399 + 1)) with 146096 in S1.
    change (Calendar.start 399) with 145731 in *. simpl in S1. lia.
Qed.

Lemma year_step doe e :
  0 <= doe < 146096 ->
  let yoe := Calendar.yoe_of doe in
  let doy := doe - Calendar.start yoe in
  let yoe' := Calendar.yoe_of (doe + 1) in
  let doy' := doe + 1 - Calendar.start yoe' in
  (yoe' = yoe /\ doy' = doy + 1
   /\ doy + 1 < 365 + Calendar.leapZ (yoe + 1 + e * 400))
  \/ (yoe' = yoe + 1 /\ doy' = 0
      /\ doy = 364 + Calendar.leapZ (yoe + 1 + e * 400)).
Proof.
  intros H. cbv zeta.
  pose proof (yoe_range doe ltac:(lia)) as R1.
  pose proof (yoe_lower doe ltac:(lia)) as L1.
  pose proof (yoe_upper doe ltac:(lia)) as U1.
  pose proof (yoe_range (doe + 1) ltac:(lia)) as R2.
  pose proof (yoe_lower (doe + 1) ltac:(lia)) as L2.
  pose proof (yoe_upper (doe + 1) ltac:(lia)) as U2.
  generalize dependent (Calendar.yoe_of (doe + 1)).
  generalize dependent (Calendar.yoe_of doe).
  intros Y R1 L1 U1 Y' R2 L2 U2.
  pose proof (start_succ Y e R1) as S1.
  pose proof (leapZ_range (Y + 1 + e * 400)) as B1.
  assert (Y' = Y \/ Y' = Y + 1) as [-> | ->].
  { destruct (Z.lt_trichotomy Y' Y) as [Hlt|[->|Hgt]];
      [|left; reflexivity|].
    - pose proof (start_mono (Y' + 1) Y ltac:(lia)). lia.
    - destruct (Z.eq_dec Y' (Y + 1)) as [->|Hne]; [right; reflexivity|].
      pose proof (start_mono (Y + 1 + 1) Y' ltac:(lia)).
      pose proof (start_next (Y + 1) e ltac:(lia)) as S2.
      pose proof (leapZ_range (Y + 1 + 1 + e * 400)) as B2.
      lia. }
  - destruct (Z.eqb_spec Y 399); lia.
  - destruct (Z.eqb_spec Y 399); lia.
Qed.

Lemma month_index doy :
  0 <= doy <= 365 ->
  exists k s,
    (5 * doy + 2) / 153 = k /\ (153 * k + 2) / 5 = s
    /\ 153 * k <= 5 * doy + 2 < 153 * k + 153
    /\ 5 * s <= 153 * k + 2 < 5 * s + 5
    /\ (k = 0 \/ k = 1 \/ k = 2 \/ k = 3 \/ k = 4 \/ k = 5 \/ k = 6
        \/ k = 7 \/ k = 8 \/ k = 9 \/ k = 10 \/ k = 11).
Proof.
  intros H.
  exists ((5 * doy + 2) / 153), ((153 * ((5 * doy + 2) / 153) + 2) / 5).
  split; [reflexivity|]. split; [reflexivity|].
  Z.div_mod_to_equations. lia.
Qed.

Lemma triple_eq (a b c a' b' c' : Z) :
  a = a' -> b = b' -> c = c' -> (a, b, c) = (a', b', c').
Proof. congruence. Qed.

Ltac months H :=
  destruct H as [->|[->|[->|[->|[->|[->|[->|[->|[->|[->|[->| ->]]]]]]]]]]].

Ltac pos_literal p :=
  lazymatch p with
  | xH => idtac
  | xO ?q => pos_literal q
  | xI ?q => pos_literal q
  end.

Ltac literal a :=
  lazymatch a with
  | Z0 => idtac
  | Zpos ?p => pos_literal p
  | Zneg ?p => pos_literal p
  end.

(** Evaluate the operations and the tests on numerals. *)
Ltac fold_literals :=
  repeat (match goal with
          | |- context [Z.add ?a ?b] =>
              literal a; literal b;
              let v := eval vm_compute in (Z.add a b) in
              change (Z.add a b) with v
          | |- context [Z.sub ?a ?b] =>
              literal a; literal b;
              let v := eval vm_compute in (Z.sub a b) in
              change (Z.sub a b) with v
          | |- context [Z.ltb ?a ?b] =>
              literal a; literal b;
              let v := eval vm_compute in (Z.ltb a b) in
              change (Z.ltb a b) with v
          | |- context [Z.leb ?a ?b] =>
              literal a; literal b;
              let v := eval vm_compute in (Z.leb a b) in
              change (Z.leb a b) with v
          | |- context [Z.eqb ?a ?b] =>
              literal a; literal b;
              let v := eval vm_compute in (Z.eqb a b) in
              change (Z.eqb a b) with v
          end; cbn [orb andb negb]).

Ltac calendar_tests :=
  fold_literals;
  repeat match goal with
    | |- context [Calendar.leap_year ?a] => destruct (Calendar.leap_year a)
    | |- context [Z.ltb ?a ?b] => destruct (Z.ltb_spec a b)
    end.

(** Within a year that begins in March, the date of the next day is the
    next date of the calendar. *)
Lemma md_step y doy :
  0 <= doy -> doy + 1 < 365 + Calendar.leapZ (y + 1) ->
  Calendar.md y (doy + 1) = Calendar.next_day (Calendar.md y doy).
Proof.
  intros H0 Hlen. pose proof (leapZ_range (y + 1)) as HL.
  destruct (month_index doy ltac:(lia)) as (k & s & Ek & Es & Hk & Hs & Hm).
  destruct (month_index (doy + 1) ltac:(lia))
    as (k' & s' & Ek' & Es' & Hk' & Hs' & Hm').
  unfold Calendar.md. rewrite Ek, Ek', Es, Es'. clear Ek Ek' Es Es'.
  unfold Calendar.next_day, Calendar.days_in_month. revert Hlen.
  unfold Calendar.leapZ.
  months Hm; months Hm'; try (exfalso; lia); calendar_tests;
    intros Hlen; try (exfalso; lia); apply triple_eq; lia.
Qed.

(** The day after the last of February is the first of March. *)
Lemma md_last y doy :
  doy = 364 + Calendar.leapZ (y + 1) ->
  Calendar.next_day (Calendar.md y doy) = Calendar.md (y + 1) 0.
Proof.
  intros ->.
  unfold Calendar.md, Calendar.next_day, Calendar.days_in_month,
    Calendar.leapZ.
  destruct (Calendar.leap_year (y + 1)) eqn:E; simpl; rewrite ?E; simpl;
    reflexivity.
Qed.

Lemma md_civil y doy :
  0 <= doy < 365 + Calendar.leapZ (y + 1) ->
  Calendar.civil (Calendar.md y doy).
Proof.
  intros Hlen. pose proof (leapZ_range (y + 1)) as HL.
  destruct (month_index doy ltac:(lia)) as (k & s & Ek & Es & Hk & Hs & Hm).
  unfold Calendar.md. rewrite Ek, Es. clear Ek Es.
  unfold Calendar.civil, Calendar.days_in_month. revert Hlen.
  unfold Calendar.leapZ.
  months Hm; calendar_tests; intros Hlen; lia.
Qed.

Lemma of_day_next day :
  Calendar.of_day (day + 1) = Calendar.next_day (Calendar.of_day day).
Proof.
  unfold Calendar.of_day. cbv zeta.
  replace (day + 1 + 719468) with (day + 719468 + 1) by lia.
  generalize (day + 719468). intros z.
  destruct (era_step z) as (Hd & [(Hlt & He)|(Heq & He)]); rewrite He.
  - replace (z + 1 - z / 146097 * 146097)
      with (z - z / 146097 * 146097 + 1) by lia.
    set (era := z / 146097) in *. set (doe := z - era * 146097) in *.
    pose proof (doy_range doe era Hd) as Hr.
    destruct (year_step doe era ltac:(lia))
      as [(E1 & E2 & E3)|(E1 & E2 & E3)].
    + rewrite E2, E1. apply md_step; [lia|].
      by replace (Calendar.yoe_of doe + era * 400 + 1)
        with (Calendar.yoe_of doe + 1 + era * 400) by lia.
    + rewrite E2, E1. symmetry.
      replace (Calendar.yoe_of doe + 1 + era * 400)
        with (Calendar.yoe_of doe + era * 400 + 1) by lia.
      apply md_last.
      by replace (Calendar.yoe_of doe + era * 400 + 1)
        with (Calendar.yoe_of doe + 1 + era * 400) by lia.
  - replace (z + 1 - (z / 146097 + 1) * 146097) with 0 by lia.
    rewrite Heq.
    change (Calendar.yoe_of 0) with 0.
    change (Calendar.yoe_of 146096) with 399.
    change (Calendar.start 0) with 0. change (Calendar.start 399) with 145731.
    symmetry.
    replace (0 + (z / 146097 + 1) * 400)
      with (399 + z / 146097 * 400 + 1) by lia.
    replace (0 - 0) with 0 by lia.
    apply md_last.
    pose proof (doy_range 146096 (z / 146097) ltac:(lia)) as Hr.
    change (Calendar.yoe_of 146096) with 399 in Hr.
    change (Calendar.start 399) with 145731 in Hr.
    pose proof (leapZ_range (399 + 1 + z / 146097 * 400)) as HL.
    replace (399 + z / 146097 * 400 + 1)
      with (399 + 1 + z / 146097 * 400) by lia.
    lia.
Qed.

Lemma of_day_civil day : Calendar.civil (Calendar.of_day day).
Proof.
  unfold Calendar.of_day. cbv zeta. generalize (day + 719468). intros z.
  destruct (era_step z) as (Hd & _).
  set (era := z / 146097) in *. set (doe := z - era * 146097) in *.
  apply md_civil. pose proof (doy_range doe era Hd) as Hr.
  by replace (Calendar.yoe_of doe + era * 400 + 1)
    with (Calendar.yoe_of doe + 1 + era * 400) by lia.
Qed.

Lemma day_before_next k : day_before k (Calendar.next_day k).
Proof.
  destruct k as [[y m] d]. unfold Calendar.next_day, day_before.
  destruct (d <? Calendar.days_in_month y m); [lia|].
  destruct (Z.ltb_spec m 12); lia.
Qed.

Lemma day_before_trans a b c :
  day_before a b -> day_before b c -> day_before a c.
Proof.
  destruct a as [[y1 m1] d1], b as [[y2 m2] d2], c as [[y3 m3] d3].
  unfold day_before. lia.
Qed.

Lemma day_before_irrefl a : ~ day_before a a.
Proof. destruct a as [[y m] d]. unfold day_before. lia. Qed.

Lemma of_day_lt a b :
  a < b -> day_before (Calendar.of_day a) (Calendar.of_day b).
Proof.
  intros H. replace b with (a + 1 + Z.of_nat (Z.to_nat (b - a - 1))) by lia.
  induction (Z.to_nat (b - a - 1)) as [|n IH].
  - replace (a + 1 + Z.of_nat 0) with (a + 1) by lia.
    rewrite of_day_next. apply day_before_next.
  - replace (a + 1 + Z.of_nat (S n)) with (a + 1 + Z.of_nat n + 1) by lia.
    rewrite of_day_next.
    eapply day_before_trans; [exact IH|apply day_before_next].
Qed.

Lemma of_day_order a b :
  day_before (Calendar.of_day a) (Calendar.of_day b) <-> a < b.
Proof.
  split; [|apply of_day_lt]. intros H.
  destruct (Z.lt_trichotomy a b) as [Hlt|[->|Hgt]]; [done|..].
  - by apply day_before_irrefl in H.
  - apply of_day_lt in Hgt.
    destruct (day_before_irrefl (Calendar.of_day a)).
    by eapply day_before_trans.
Qed.

Lemma of_day_inj a b : Calendar.of_day a = Calendar.of_day b <-> a = b.
Proof.
  split; [|by intros ->]. intros H.
  destruct (Z.lt_trichotomy a b) as [Hlt|[->|Hgt]]; [|done|].
  - apply of_day_lt in Hlt. rewrite H in Hlt.
    by apply day_before_irrefl in Hlt.
  - apply of_day_lt in Hgt. rewrite H in Hgt.
    by apply day_before_irrefl in Hgt.
Qed.

Lemma utc_day_next date :
  Calendar.utc_day (date + JS.msPerDay) = Calendar.utc_day date + 1.
Proof.
  unfold Calendar.utc_day.
  replace (date + JS.msPerDay) with (date + 1 * JS.msPerDay) by lia.
  by rewrite Z.div_add.
Qed.

Lemma utc_day_start n : Calendar.utc_day (n * JS.msPerDay) = n.
Proof. unfold Calendar.utc_day. by rewrite Z.div_mul. Qed.

Lemma utc_day_lt t t' :
  Calendar.utc_day t < Calendar.utc_day t' -> t < t'.
Proof.
  unfold Calendar.utc_day. intros H.
  destruct (Z.lt_ge_cases t t') as [|Hge]; [done|].
  pose proof (Z.div_le_mono t' t JS.msPerDay ltac:(done) Hge). lia.
Qed.

Lemma StronglySorted_lookup {A} (R : relation A) (l : list A) i j x y :
  StronglySorted R l -> (i < j)%nat ->
  l !! i = Some x -> l !! j = Some y -> R x y.
Proof.
  intros Hs. revert i j. induction Hs as [|a l Hs IH Hall]; intros i j Hij.
  - by rewrite lookup_nil.
  - destruct j as [|j]; [lia|]. destruct i as [|i]; simpl.
    + intros [= ->] Hy. rewrite Forall_forall in Hall. apply Hall.
      by eapply list_elem_of_lookup_2.
    + apply IH. lia.
Qed.

Lemma report_match_counted startDate endDate b :
  Booking.report_match startDate endDate b = true
  <-> counted startDate endDate b.
Proof.
  unfold Booking.report_match, counted.
  rewrite !andb_true_iff, !orb_true_iff, !booking_status_eqb_eq, !Z.leb_le.
  tauto.
Qed.

Lemma key_leb_total a b :
  Booking.key_leb a b = true \/ Booking.key_leb b a = true.
Proof.
  destruct a as [[y1 m1] d1], b as [[y2 m2] d2]. unfold Booking.key_leb.
  rewrite !orb_true_iff, !andb_true_iff, !orb_true_iff, !andb_true_iff,
    !Z.ltb_lt, !Z.eqb_eq, !Z.leb_le. lia.
Qed.

Lemma key_leb_trans a b c :
  Booking.key_leb a b = true -> Booking.key_leb b c = true ->
  Booking.key_leb a c = true.
Proof.
  destruct a as [[y1 m1] d1], b as [[y2 m2] d2], c as [[y3 m3] d3].
  unfold Booking.key_leb.
  rewrite !orb_true_iff, !andb_true_iff, !orb_true_iff, !andb_true_iff,
    !Z.ltb_lt, !Z.eqb_eq, !Z.leb_le. lia.
Qed.

Lemma key_leb_before a b :
  Booking.key_leb a b = true -> a <> b -> day_before a b.
Proof.
  destruct a as [[y1 m1] d1], b as [[y2 m2] d2].
  unfold Booking.key_leb, day_before.
  rewrite !orb_true_iff, !andb_true_iff, !orb_true_iff, !andb_true_iff,
    !Z.ltb_lt, !Z.eqb_eq, !Z.leb_le.
  intros H Hne.
  destruct (Z.eq_dec d1 d2) as [->|Hd]; [|lia].
  destruct (Z.eq_dec m1 m2) as [->|Hm]; [|lia].
  destruct (Z.eq_dec y1 y2) as [->|Hy]; [|lia].
  done.
Qed.

#[local] Instance record_le_total : Total Booking.record_le.
Proof. intros r1 r2. apply key_leb_total. Qed.

#[local] Instance record_le_trans : Transitive Booking.record_le.
Proof. intros r1 r2 r3. apply key_leb_trans. Qed.

Lemma strictly_sorted {A B} (R : relation A) (f : A -> B) (l : list A) :
  StronglySorted R l -> NoDup (f <$> l) ->
  StronglySorted (fun x y => R x y /\ f x <> f y) l.
Proof.
  induction 1 as [|x l Hs IH Hall]; intros Hnd; [constructor|].
  rewrite fmap_cons in Hnd. apply NoDup_cons in Hnd as [Hx Hnd].
  constructor; [by apply IH|].
  rewrite Forall_forall in *. intros y Hy. split; [by apply Hall|].
  intros Heq. apply Hx. rewrite Heq. by apply list_elem_of_fmap_2.
Qed.

Lemma StronglySorted_weaken {A} (R R' : relation A) (l : list A) :
  (forall x y, R x y -> R' x y) -> StronglySorted R l -> StronglySorted R' l.
Proof.
  intros Himp. induction 1 as [|x l Hs IH Hall]; constructor; [done|].
  eapply Forall_impl; eauto.
Qed.

Section Report.

Variable acc_sum acc_avg : list float -> float.
Variable coll : list Booking.t.
Variable startDate endDate : Z.

Local Abbreviation matched :=
  (filter (fun b => Booking.report_match startDate endDate b = true) coll).

Local Abbreviation report :=
  (Booking.generateRevenueReport acc_sum acc_avg coll startDate endDate).

Lemma group_of_day k :
  Booking.group_of matched k = day_bookings startDate endDate k coll.
Proof.
  unfold Booking.group_of, day_bookings.
  rewrite list_filter_filter. apply list_filter_iff.
  intros b. by rewrite report_match_counted.
Qed.

Lemma report_elem r :
  r ∈ report
  <-> exists b, b ∈ coll /\ counted startDate endDate b
        /\ r = Booking.group_record acc_sum acc_avg matched
                 (Booking.dateParts (Booking.checkInDate b)).
Proof.
  unfold Booking.generateRevenueReport.
  rewrite merge_sort_Permutation, list_elem_of_fmap. split.
  - intros (k & -> & Hk). rewrite elem_of_remove_dups in Hk.
    apply list_elem_of_fmap in Hk as (b & -> & Hb).
    apply list_elem_of_filter in Hb as [Hm Hb].
    exists b. by rewrite <- report_match_counted.
  - intros (b & Hb & Hc & ->). eexists. split; [done|].
    apply elem_of_remove_dups.
    apply (list_elem_of_fmap_2
             (fun b => Booking.dateParts (Booking.checkInDate b))).
    apply list_elem_of_filter. by rewrite report_match_counted.
Qed.

Lemma report_sorted :
  StronglySorted
    (fun r1 r2 => day_before (Booking._id r1) (Booking._id r2)) report.
Proof.
  assert (StronglySorted
            (fun r1 r2 => Booking.record_le r1 r2
                          /\ Booking._id r1 <> Booking._id r2) report)
    as Hs.
  { apply strictly_sorted.
    - apply StronglySorted_merge_sort; apply _.
    - unfold Booking.generateRevenueReport.
      rewrite merge_sort_Permutation, <- list_fmap_compose.
      assert (forall keys : list (Z * Z * Z),
                 Booking._id
                   ∘ Booking.group_record acc_sum acc_avg
                       (filter (fun b => Booking.report_match startDate
                                           endDate b = true) coll)
                   <$> keys = keys) as ->.
      { induction keys as [|k keys IH]; [done|].
        rewrite fmap_cons, IH. done. }
      apply NoDup_remove_dups. }
  eapply StronglySorted_weaken; [|exact Hs].
  intros r1 r2 [Hle Hne]. by apply key_leb_before.
Qed.

End Report.

Lemma report_empty acc_sum acc_avg (coll : list Booking.t) startDate endDate :
  (forall b, b ∈ coll -> ~ counted startDate endDate b) ->
  Booking.generateRevenueReport acc_sum acc_avg coll startDate endDate = [].
Proof.
  intros Hno.
  destruct (Booking.generateRevenueReport _ _ _ _ _) as [|r rest] eqn:Hr;
    [done|].
  assert (r ∈ Booking.generateRevenueReport acc_sum acc_avg coll
                startDate endDate) as Hin
    by (rewrite Hr; apply list_elem_of_here).
  apply report_elem in Hin as (b & Hb & Hc & _). by destruct (Hno b Hb).
Qed.

(** C9: the revenue report of a window has one record per calendar day
    and its records are in chronological order.  The key of a record is
    the civil date (year, month, day) of a UTC day: [dateParts] gives the
    first of January 1970 at the epoch, the next date of the Gregorian
    calendar one day later, always a date that exists, the same date
    exactly for the instants of one UTC day, and an earlier date exactly
    for an earlier day.  The records are in strictly ascending order of
    date; each record is computed from the bookings whose status is
    'Confirmed', 'Checked In' or 'Checked Out' and whose checkInDate lies
    in the window and falls on the record's day (all of them, and there
    is at least one): totalRevenue is the [$sum] of their totalAmount,
    bookingsCount their number, averageRate the [$avg] of their roomRate;
    every day with such a booking has a record; and the bookings of an
    earlier record check in on an earlier day than those of a later one.
    The route answers with this report for the requested window; its
    summary adds up the records, and has averageBookingValue 0 whenever
    totalBookings is 0, in particular when no booking counts in the
    window. *)
Theorem revenue_report_by_day acc_sum acc_avg :
  (Booking.dateParts 0 = (1970, 1, 1)
   /\ (forall t, Booking.dateParts (t + JS.msPerDay)
                 = Calendar.next_day (Booking.dateParts t))
   /\ (forall t, Calendar.civil (Booking.dateParts t))
   /\ (forall t t', Booking.dateParts t = Booking.dateParts t'
                    <-> Calendar.utc_day t = Calendar.utc_day t')
   /\ (forall t t', day_before (Booking.dateParts t) (Booking.dateParts t')
                    <-> Calendar.utc_day t < Calendar.utc_day t'))
  /\ (forall (coll : list Booking.t) startDate endDate,
      let report :=
        Booking.generateRevenueReport acc_sum acc_avg coll startDate endDate
      in
      StronglySorted
        (fun r1 r2 => day_before (Booking._id r1) (Booking._id r2)) report
      /\ (forall r, r ∈ report ->
            let day :=
              day_bookings startDate endDate (Booking._id r) coll in
            day <> []
            /\ (exists n,
                  Booking._id r = Booking.dateParts (n * JS.msPerDay)
                  /\ day = utc_day_bookings startDate endDate n coll)
            /\ Booking.totalRevenue r = acc_sum (Booking.totalAmount <$> day)
            /\ Booking.bookingsCount r = Z.of_nat (length day)
            /\ Booking.averageRate r = acc_avg (Booking.roomRate <$> day))
      /\ (forall b, b ∈ coll -> counted startDate endDate b ->
            exists r, r ∈ report
              /\ Booking._id r
                 = Booking.dateParts (Booking.checkInDate b))
      /\ (forall i j r1 r2 b1 b2,
            (i < j)%nat -> report !! i = Some r1 -> report !! j = Some r2 ->
            b1 ∈ day_bookings startDate endDate (Booking._id r1) coll ->
            b2 ∈ day_bookings startDate endDate (Booking._id r2) coll ->
            Calendar.utc_day (Booking.checkInDate b1)
            < Calendar.utc_day (Booking.checkInDate b2)
            /\ Booking.checkInDate b1 < Booking.checkInDate b2))
  /\ (forall s req dateNow endNow,
         exists revenueData summary,
           Routes.revenueAnalytics acc_sum acc_avg s req dateNow endNow
           = (s, [], Routes.Success 200 (revenueData, summary))
           /\ revenueData
              = Booking.generateRevenueReport acc_sum acc_avg
                  (Routes.bookings s) (Routes.dateRange summary).1
                  (Routes.dateRange summary).2
           /\ Routes.dateRange summary
              = (default (dateNow - 30 * JS.msPerDay) (Routes.startDate req),
                 default endNow (Routes.endDate req))
           /\ Routes.totalRevenue summary
              = fold_left
                  (fun sum day => (sum + Booking.totalRevenue day)%float)
                  revenueData 0%float
           /\ Routes.totalBookings summary
              = fold_left (fun sum day => sum + Booking.bookingsCount day)
                          revenueData 0
           /\ (0 < Routes.totalBookings summary ->
               Routes.averageBookingValue summary
               = (Routes.totalRevenue summary
                  / JS.float_of_Z (Routes.totalBookings summary))%float)
           /\ (Routes.totalBookings summary = 0 ->
               Routes.averageBookingValue summary = 0%float)
           /\ ((forall b, b ∈ Routes.bookings s ->
                          ~ counted (Routes.dateRange summary).1
                                    (Routes.dateRange summary).2 b) ->
               Routes.totalRevenue summary = 0%float
               /\ Routes.totalBookings summary = 0
               /\ Routes.averageBookingValue summary = 0%float)).
Proof.
  split; [|split].
  - split; [by vm_compute|]. split; [|split; [|split]].
    + intros t. rewrite !dateParts_of_day, utc_day_next. apply of_day_next.
    + intros t. rewrite dateParts_of_day. apply of_day_civil.
    + intros t t'. rewrite !dateParts_of_day. apply of_day_inj.
    + intros t t'. rewrite !dateParts_of_day. apply of_day_order.
  - intros coll startDate endDate report. split; [apply report_sorted|].
    split; [|split].
    + intros r Hr. apply report_elem in Hr as (b & Hb & Hc & ->).
      simpl. rewrite group_of_day. split; [|split; [|done]].
      * intros Hnil.
        assert (b ∈ day_bookings startDate endDate
                      (Booking.dateParts (Booking.checkInDate b)) coll)
          as Hin.
        { unfold day_bookings. by apply list_elem_of_filter. }
        rewrite Hnil in Hin. by apply elem_of_nil in Hin.
      * exists (Calendar.utc_day (Booking.checkInDate b)). split.
        -- rewrite !dateParts_of_day. by rewrite utc_day_start.
        -- unfold day_bookings, utc_day_bookings. apply list_filter_iff.
           intros x. rewrite !dateParts_of_day. by rewrite of_day_inj.
    + intros b Hb Hc.
      exists (Booking.group_record acc_sum acc_avg
                (filter (fun b => Booking.report_match startDate endDate b
                                  = true) coll)
                (Booking.dateParts (Booking.checkInDate b))).
      split; [|reflexivity]. apply report_elem. eauto.
    + intros i j r1 r2 b1 b2 Hij H1 H2 Hb1 Hb2.
      pose proof (StronglySorted_lookup _ _ _ _ _ _
                    (report_sorted acc_sum acc_avg coll startDate endDate)
                    Hij H1 H2) as Hd.
      apply list_elem_of_filter in Hb1 as [[E1 _] _].
      apply list_elem_of_filter in Hb2 as [[E2 _] _].
      cbv beta in Hd. rewrite <- E1, <- E2, !dateParts_of_day in Hd.
      apply of_day_order in Hd. split; [done|]. by apply utc_day_lt.
  - intros s req dateNow endNow. unfold Routes.revenueAnalytics.
    do 2 eexists. split; [reflexivity|]. simpl.
    split; [reflexivity|].
    split; [by destruct (Routes.startDate req), (Routes.endDate req)|].
    split; [reflexivity|]. split; [reflexivity|]. split; [|split].
    + intros Hpos. apply Z.gtb_lt in Hpos. by rewrite Hpos.
    + intros ->. reflexivity.
    + intros Hno. rewrite (report_empty _ _ _ _ _ Hno). simpl. done.
Qed.

(** ** The properties at work on the one-room hotel *)

Lemma stays_never_overlap_witness :
  disjoint_stays
    (Routes.bookings
       (Routes.run (Routes.opening catalog1)
          [Routes.PostBooking req1 env1; Routes.PostBooking req2 env2;
           Routes.PutCheckIn 0 stay_env1]))
  /\ exists room,
       Routes.rooms (Routes.run (Routes.opening catalog1) [])
         !! Routes.roomId req1 = Some room
       /\ Room.isAvailable (Routes.roomId req1) room
            (Routes.bookings (Routes.run (Routes.opening catalog1) []))
            (Routes.checkInDate req1) (Routes.checkOutDate req1) = true.
Proof.
  split.
  - apply (proj1 (stays_never_overlap catalog1
             [Routes.PostBooking req1 env1; Routes.PostBooking req2 env2;
              Routes.PutCheckIn 0 stay_env1])).
  - apply (proj2 (stays_never_overlap catalog1 []) req1 env1).
    right. vm_compute. discriminate.
Defined.

Lemma cancellation_example :
  Routes.cancelBooking store1 cancel1 cancel_env30
  = ((Routes.cancelBooking store1 cancel1 cancel_env30).1.1,
     [Routes.RefundsCreate "pi_1" 25200%float;
      Routes.SendEmail "bookingCancellation" 7],
     Routes.Success 200 cancellation30).
Proof. vm_compute. reflexivity. Qed.

Lemma cancellation_policy_witness :
  exists i booking stored,
    list_find (Routes.by_number_and_code
                 (Routes.cancel_bookingNumber cancel1)
                 (Routes.cancel_confirmationCode cancel1))
              (Routes.bookings store1)
    = Some (i, booking)
    /\ Booking.status booking = Booking.Confirmed
    /\ (24 < Booking.hoursUntilCheckIn booking
               (Routes.guardNow cancel_env30))%Q
    /\ 24 * JS.msPerHour
       < Booking.checkInDate booking - Routes.guardNow cancel_env30
    /\ Routes.bookings
         (Routes.cancelBooking store1 cancel1 cancel_env30).1.1 !! i
       = Some stored
    /\ Booking.status stored = Booking.Cancelled
    /\ let h := Booking.hoursUntilCheckIn booking
                  (Routes.feeNow cancel_env30) in
       let fee := Booking.cancellationFee stored in
       ((48 < h)%Q -> fee = 0%float)
       /\ ((24 < h)%Q /\ (h <= 48)%Q ->
           fee = (Booking.totalAmount booking * 0.25)%float)
       /\ ((h <= 24)%Q -> fee = (Booking.totalAmount booking * 0.50)%float)
       /\ Booking.refundAmount stored
          = (Booking.totalAmount booking - fee)%float
       /\ Routes.c_cancellationFee cancellation30 = fee
       /\ Routes.c_refundAmount cancellation30 = Booking.refundAmount stored.
Proof.
  apply (cancellation_policy store1 cancel1 cancel_env30
           (Routes.cancelBooking store1 cancel1 cancel_env30).1.1
           [Routes.RefundsCreate "pi_1" 25200%float;
            Routes.SendEmail "bookingCancellation" 7]
           cancellation30).
  vm_compute. reflexivity.
Defined.

(** The third tier of the fee is reached when the clock passes the 24th
    hour between the guard and the fee computation. *)
Lemma cancellation_half_fee :
  Routes.cancelBooking store1 cancel1 cancel_env24
  = ((Routes.cancelBooking store1 cancel1 cancel_env24).1.1,
     [Routes.RefundsCreate "pi_1" 16800%float;
      Routes.SendEmail "bookingCancellation" 7],
     Routes.Success 200
       {| Routes.c_bookingNumber := "OVH2026123456";
          Routes.c_cancellationFee := 168%float;
          Routes.c_refundAmount := 168%float;
          Routes.c_status := Booking.Cancelled |}).
Proof. vm_compute. reflexivity. Qed.

Lemma guards_leave_store_unchanged_witness :
  exists message,
    Routes.checkOut store1 0 stay_env1
    = (store1, [], Routes.Failure 400 message).
Proof.
  apply (proj1 (proj2 guards_leave_store_unchanged) store1 0%nat stay_env1
           booking1).
  - reflexivity.
  - discriminate.
Defined.

Lemma cancellation_payment_status_witness :
  exists i booking stored,
    list_find (Routes.by_number_and_code
                 (Routes.cancel_bookingNumber cancel1)
                 (Routes.cancel_confirmationCode cancel1))
              (Routes.bookings store_unpaid)
    = Some (i, booking)
    /\ Routes.bookings
         (Routes.cancelBooking store_unpaid cancel1
            cancel_env30_norefund).1.1 !! i
       = Some stored
    /\ Booking.status stored = Booking.Cancelled
    /\ Routes.c_refundAmount cancellation30 = Booking.refundAmount stored
    /\ ((0 <? Booking.refundAmount stored)%float = true ->
        Booking.paymentStatus stored = Booking.Refunded)
    /\ ((0 <? Booking.refundAmount stored)%float = true ->
        Booking.stripePaymentIntentId booking = "" ->
        Booking.paymentStatus stored = Booking.Refunded
        /\ [Routes.SendEmail "bookingCancellation" 7]
           = [Routes.SendEmail "bookingCancellation"
                               (Booking.guest booking)])
    /\ (Booking.refundAmount stored = 0%float ->
        Booking.paymentStatus stored = Booking.Paid).
Proof.
  apply (cancellation_payment_status store_unpaid cancel1
           cancel_env30_norefund
           (Routes.cancelBooking store_unpaid cancel1
              cancel_env30_norefund).1.1
           [Routes.SendEmail "bookingCancellation" 7] cancellation30).
  vm_compute. reflexivity.
Defined.

(** The booking that was never paid is stored as refunded. *)
Lemma unpaid_cancellation_refunded :
  Routes.bookings
    (Routes.cancelBooking store_unpaid cancel1 cancel_env30_norefund).1.1
  = [Routes.markCancelled unpaid1 None (Routes.cancelNow cancel_env30)
       84%float 252%float]
  /\ Booking.paymentStatus
       (Routes.markCancelled unpaid1 None (Routes.cancelNow cancel_env30)
          84%float 252%float) = Booking.Refunded.
Proof. split; vm_compute; reflexivity. Qed.

Lemma request_example :
  Routes.createBookingRequest (Routes.opening catalog1) req1 env1
  = ({| Routes.rooms := catalog1; Routes.bookings := [request1] |}, [],
     Routes.Success 201 request1).
Proof. vm_compute. reflexivity. Qed.

Lemma pricing_deterministic_given_clock_witness :
  snapshot booking1 = snapshot request1.
Proof.
  apply (pricing_deterministic_given_clock
           (Routes.opening catalog1) req1 env1 booking1 room100
           (Routes.opening catalog1) req1 env1 request1 room100);
    try reflexivity.
  - eexists _, _. right. exact createBooking_example.
  - eexists _, _. left. exact request_example.
Defined.

Lemma ids_unique_by_index_only_witness :
  Routes.createBookingRequest store1 req2 env2
  = (store1, [],
     Routes.Failure 500 "Server error while creating booking request").
Proof.
  apply (proj1 (proj2 (proj2 ids_unique_by_index_only) store1 req2 env2
                  room100 8%nat eq_refl eq_refl
                  (ex_intro _ booking1
                     (conj (list_elem_of_here booking1 [])
                           (or_introl eq_refl))))).
Defined.

Lemma revenue_report_example :
  Booking.generateRevenueReport plain_sum plain_avg
    [booking1; request1] t0 (t0 + 30 * JS.msPerDay)
  = [{| Booking._id := (2026, 1, 11); Booking.totalRevenue := 336%float;
        Booking.bookingsCount := 1; Booking.averageRate := 100%float |}].
Proof. vm_compute. reflexivity. Qed.

Lemma revenue_report_by_day_witness :
  exists r,
    r ∈ Booking.generateRevenueReport plain_sum plain_avg
          [booking1; request1] t0 (t0 + 30 * JS.msPerDay)
    /\ Booking._id r = Booking.dateParts (Booking.checkInDate booking1).
Proof.
  apply (proj1 (proj2 (proj2 (proj1 (proj2
           (revenue_report_by_day plain_sum plain_avg))
           [booking1; request1] t0 (t0 + 30 * JS.msPerDay))))
           booking1).
  - apply list_elem_of_here.
  - split; [by left|]. vm_compute. split; discriminate.
Defined.

(** * Further properties *)

(** ** The life of a stored booking *)

Lemma status_moves_trans a b c :
  status_moves a b -> status_moves b c -> status_moves a c.
Proof.
  unfold status_moves. intros H1 H2.
  destruct a, b, c; try (left; reflexivity);
    destruct H1 as [H1|[[H1 H1']|[H1 H1']]];
    destruct H2 as [H2|[[H2 H2']|[H2 H2']]];
    try discriminate;
    try (destruct H1' as [H1'|[H1'|H1']]; discriminate);
    try (destruct H2' as [H2'|[H2'|H2']]; discriminate);
    right; auto.
Qed.

Lemma evolves_refl b : evolves b b.
Proof.
  split; [by repeat split|]. split; [by left|]. by intros _ _.
Qed.

Lemma evolves_trans a b c : evolves a b -> evolves b c -> evolves a c.
Proof.
  intros (S1 & M1 & I1) (S2 & M2 & I2).
  split; [|split].
  - unfold same_stay in *. intuition congruence.
  - by eapply status_moves_trans.
  - intros Hr Hn. destruct (I1 Hr Hn) as (Hk & Hc & Hnn).
    assert (Booking.required_ok b = true) as Hrb.
    { unfold Booking.required_ok in *. by rewrite Hk, Hc. }
    assert (Booking.numberOfNights b <> 0) as Hnb by congruence.
    destruct (I2 Hrb Hnb) as (Hk' & Hc' & Hnn'). repeat split; congruence.
Qed.

(** A save of a document [m] that differs from the stored [b] in none of
    the kept fields stores an evolution of [b]. *)
Lemma pre_validate_evolves d b m :
  same_stay b m ->
  Booking.bookingNumber m = Booking.bookingNumber b ->
  Booking.confirmationCode m = Booking.confirmationCode b ->
  Booking.numberOfNights m = Booking.numberOfNights b ->
  status_moves (Booking.status b) (Booking.status m) ->
  evolves b (Booking.pre_validate d m).
Proof.
  intros Hs Hk Hc Hn Hm. split; [|split].
  - destruct (pre_validate_shape d m) as (k & c & n & ->). exact Hs.
  - destruct (pre_validate_core d m) as (-> & _). exact Hm.
  - intros Hr Hnz. rewrite pre_validate_id; [done|..].
    + unfold Booking.required_ok in *. by rewrite Hk, Hc.
    + congruence.
Qed.

Lemma insert_evolves (bs : list Booking.t) i j b old doc :
  bs !! i = Some b -> bs !! j = Some old -> evolves old doc ->
  exists b', <[j:=doc]> bs !! i = Some b' /\ evolves b b'.
Proof.
  intros Hi Hj He. destruct (decide (i = j)) as [->|Hne].
  - exists doc. split.
    + apply list_lookup_insert_eq. by eapply lookup_lt_Some.
    + congruence.
  - exists b. split; [by rewrite list_lookup_insert_ne|apply evolves_refl].
Qed.

Lemma exec_evolves s op i b :
  Routes.bookings s !! i = Some b ->
  exists b', Routes.bookings (Routes.exec s op) !! i = Some b'
             /\ evolves b b'.
Proof.
  intros Hi. destruct op as [req env|req env|req env|id env|id env|req|c];
    simpl.
  - destruct (Routes.createBookingRequest s req env) as [[s' calls] resp]
      eqn:H. simpl.
    apply createBookingRequest_spec in H
      as [[-> _]|(room & g & doc & _ & _ & _ & -> & _)];
      exists b; split; auto using evolves_refl.
    simpl. by apply lookup_app_l_Some.
  - destruct (Routes.createBooking s req env) as [[s' calls] resp] eqn:H.
    simpl.
    apply createBooking_spec in H
      as [[-> _]|(room & g & intent & doc & stored & _ & _ & _ & _ & -> & _)];
      exists b; split; auto using evolves_refl.
    simpl. by apply lookup_app_l_Some.
  - destruct (Routes.cancelBooking s req env) as [[s' calls] resp] eqn:H.
    simpl.
    apply cancelBooking_spec in H
      as [[-> _]|(j & booking & Hf & Hc & _ & -> & _)];
      [exists b; split; auto using evolves_refl|].
    apply list_find_Some in Hf as (Hl & _).
    apply canBeCancelled_true in Hc as [Hst _].
    simpl. eapply insert_evolves; eauto.
    apply pre_validate_evolves; try reflexivity.
    + by repeat split.
    + simpl. rewrite Hst. right. left. auto.
  - destruct (Routes.checkIn s id env) as [[s' calls] resp] eqn:H. simpl.
    apply checkIn_spec in H as [[-> _]|(booking & Hl & Hc & Hb & _)];
      [exists b; split; auto using evolves_refl|].
    rewrite Hb. eapply insert_evolves; eauto.
    apply pre_validate_evolves; try reflexivity.
    + by repeat split.
    + simpl. rewrite Hc. right. left. auto.
  - destruct (Routes.checkOut s id env) as [[s' calls] resp] eqn:H. simpl.
    apply checkOut_spec in H as [[-> _]|(booking & Hl & Hc & Hb & _)];
      [exists b; split; auto using evolves_refl|].
    rewrite Hb. eapply insert_evolves; eauto.
    apply pre_validate_evolves; try reflexivity.
    + by repeat split.
    + simpl. rewrite Hc. right. right. auto.
  - rewrite getBooking_store. exists b. split; auto using evolves_refl.
  - exists b. split; auto using evolves_refl.
Qed.

Lemma run_evolves ops s i b :
  Routes.bookings s !! i = Some b ->
  exists b', Routes.bookings (Routes.run s ops) !! i = Some b'
             /\ evolves b b'.
Proof.
  revert s b. induction ops as [|op ops IH]; intros s b Hi.
  - exists b. split; auto using evolves_refl.
  - simpl. destruct (exec_evolves s op i b Hi) as (b1 & H1 & E1).
    destruct (IH _ _ H1) as (b2 & H2 & E2).
    exists b2. split; [done|]. by eapply evolves_trans.
Qed.

(** X1: the routes never delete a booking, and the status of a stored
    booking only moves from 'Confirmed' to 'Checked In', 'Checked Out' or
    'Cancelled' and from 'Checked In' to 'Checked Out': whatever requests
    are handled, a booking that is 'Pending', 'Cancelled', 'Checked Out'
    or 'No Show' keeps its status. *)
Theorem status_only_moves_forward s ops i b :
  Routes.bookings s !! i = Some b ->
  exists b',
    Routes.bookings (Routes.run s ops) !! i = Some b'
    /\ status_moves (Booking.status b) (Booking.status b')
    /\ (Booking.status b = Booking.Pending
        \/ Booking.status b = Booking.Cancelled
        \/ Booking.status b = Booking.CheckedOut
        \/ Booking.status b = Booking.NoShow ->
        Booking.status b' = Booking.status b).
Proof.
  intros Hi. destruct (run_evolves ops s i b Hi) as (b' & Hl & _ & Hm & _).
  exists b'. split; [done|]. split; [done|].
  intros Hs. destruct Hm as [Hm|[[Hm _]|[Hm _]]]; [done|..];
    destruct Hs as [Hs|[Hs|[Hs|Hs]]]; congruence.
Qed.

(** X2: whatever requests are handled, a stored booking keeps its room,
    its guest, its two dates, its occupants and its pricing snapshot
    (roomRate, subtotal, taxes, totalAmount); if it has a booking number,
    a confirmation code and a number of nights, it keeps them too. *)
Theorem stay_and_price_are_frozen s ops i b :
  Routes.bookings s !! i = Some b ->
  exists b',
    Routes.bookings (Routes.run s ops) !! i = Some b'
    /\ same_stay b b'
    /\ (Booking.required_ok b = true -> Booking.numberOfNights b <> 0 ->
        Booking.bookingNumber b' = Booking.bookingNumber b
        /\ Booking.confirmationCode b' = Booking.confirmationCode b
        /\ Booking.numberOfNights b' = Booking.numberOfNights b).
Proof.
  intros Hi. destruct (run_evolves ops s i b Hi) as (b' & Hl & Hs & _ & Hk).
  exists b'. auto.
Qed.

(** ** Stored bookings are sound *)

Lemma sound_evolves b b' : sound b -> evolves b b' -> sound b'.
Proof.
  intros (Hr & Hlt & Hn & Hpos & Hsub & Htax & Htot) (Hs & _ & Hi).
  destruct (Hi Hr ltac:(lia)) as (Hk & Hc & Hnn).
  destruct Hs as (_ & _ & Hci & Hco & _ & _ & Hrr & Hsu & Hta & Hto).
  unfold sound. rewrite Hci, Hco, Hnn, Hrr, Hsu, Hta, Hto.
  repeat split; auto.
  unfold Booking.required_ok in *. by rewrite Hk, Hc.
Qed.

Lemma sound_draft d guestId req room now ps pm pi st doc e :
  Routes.checkInDate req < Routes.checkOutDate req ->
  Booking.required_ok doc = true ->
  doc = Booking.set_confirmationCode (Booking.generate_confirmationCode d)
          (Booking.set_bookingNumber (Booking.generate_bookingNumber d)
             (Routes.newBooking guestId req
                (Routes.pricing room (Routes.checkInDate req)
                   (Routes.checkOutDate req) now) ps pm pi st)) ->
  sound (Booking.set_emailConfirmationSent e doc).
Proof.
  intros Hlt Hr ->. unfold sound. simpl.
  repeat split; auto using nights_positive.
Qed.

Lemma exec_grows s op :
  length (Routes.bookings (Routes.exec s op)) = length (Routes.bookings s)
  \/ exists stored,
       Routes.bookings (Routes.exec s op) = Routes.bookings s ++ [stored]
       /\ sound stored.
Proof.
  destruct op as [req env|req env|req env|id env|id env|req|c]; simpl.
  - destruct (Routes.createBookingRequest s req env) as [[s' calls] resp]
      eqn:H. simpl.
    apply createBookingRequest_spec in H
      as [[-> _]|(room & g & doc & Ha & _ & Hs & -> & _)]; [by left|].
    apply precheck_inl in Ha as (Hlt & _).
    apply save_insert in Hs as (Hd & _ & Hr & _);
      [|reflexivity|reflexivity|by apply draft_nights].
    right. exists doc. split; [done|].
    by apply (sound_draft _ _ _ _ _ _ _ _ _ _ false Hlt Hr Hd).
  - destruct (Routes.createBooking s req env) as [[s' calls] resp] eqn:H.
    simpl.
    apply createBooking_spec in H
      as [[-> _]
         |(room & g & intent & doc & stored & Ha & _ & _ & Hs & -> & Hst
           & _)]; [by left|].
    apply precheck_inl in Ha as (Hlt & _).
    apply save_insert in Hs as (Hd & _ & Hr & _);
      [|reflexivity|reflexivity|by apply draft_nights].
    right. exists stored. split; [done|].
    destruct Hst as [->| ->].
    + by apply (sound_draft _ _ _ _ _ _ _ _ _ _ false Hlt Hr Hd).
    + by apply (sound_draft _ _ _ _ _ _ _ _ _ _ true Hlt Hr Hd).
  - destruct (Routes.cancelBooking s req env) as [[s' calls] resp] eqn:H.
    simpl.
    apply cancelBooking_spec in H
      as [[-> _]|(j & booking & _ & _ & _ & -> & _)]; [by left|].
    left. simpl. apply length_insert.
  - destruct (Routes.checkIn s id env) as [[s' calls] resp] eqn:H. simpl.
    apply checkIn_spec in H as [[-> _]|(booking & _ & _ & Hb & _)];
      [by left|].
    left. rewrite Hb. apply length_insert.
  - destruct (Routes.checkOut s id env) as [[s' calls] resp] eqn:H. simpl.
    apply checkOut_spec in H as [[-> _]|(booking & _ & _ & Hb & _)];
      [by left|].
    left. rewrite Hb. apply length_insert.
  - left. by rewrite getBooking_store.
  - by left.
Qed.

Lemma exec_sound s op :
  Forall sound (Routes.bookings s) ->
  Forall sound (Routes.bookings (Routes.exec s op)).
Proof.
  intros Hs. apply Forall_lookup. intros i b' Hi.
  rewrite Forall_lookup in Hs.
  destruct (Routes.bookings s !! i) as [b|] eqn:Hb.
  - destruct (exec_evolves s op i b Hb) as (b'' & Hl & He).
    rewrite Hl in Hi. injection Hi as <-.
    eapply sound_evolves; eauto.
  - apply lookup_ge_None in Hb.
    destruct (exec_grows s op) as [Hlen|(stored & Happ & Hsound)].
    + apply lookup_lt_Some in Hi. lia.
    + rewrite Happ in Hi.
      apply lookup_app_Some in Hi as [Hi|[_ Hi]].
      * apply lookup_lt_Some in Hi. lia.
      * apply list_lookup_singleton_Some in Hi as [_ <-]. done.
Qed.

Lemma run_sound ops s :
  Forall sound (Routes.bookings s) ->
  Forall sound (Routes.bookings (Routes.run s ops)).
Proof.
  revert s. induction ops as [|op ops IH]; intros s Hs; [done|].
  simpl. apply IH. by apply exec_sound.
Qed.

(** X3: in every store reached from a store without bookings, every
    booking has a booking number and a confirmation code, check-in
    strictly before check-out, numberOfNights = ceil((checkOut - checkIn)
    / 1 day) >= 1, subtotal = roomRate * numberOfNights, taxes = subtotal
    * 0.12 and totalAmount = subtotal + taxes, whatever happened to it
    since it was created. *)
Theorem stored_bookings_stay_sound catalog ops b :
  b ∈ Routes.bookings (Routes.run (Routes.opening catalog) ops) ->
  sound b.
Proof.
  intros Hb.
  assert (Forall sound
            (Routes.bookings (Routes.run (Routes.opening catalog) ops)))
    as Hall by (apply run_sound; constructor).
  rewrite Forall_forall in Hall. by apply Hall.
Qed.

Lemma duration_sound b :
  sound b -> Virtuals.duration b = Booking.numberOfNights b.
Proof.
  intros (_ & Hlt & Hn & _). unfold Virtuals.duration, Booking.duration_nights.
  rewrite Hn, Z.abs_eq by lia. reflexivity.
Qed.

(** X4: the virtual [duration] of a booking agrees with its stored
    numberOfNights, for every booking of every store reached from a store
    without bookings. *)
Theorem duration_is_numberOfNights catalog ops b :
  b ∈ Routes.bookings (Routes.run (Routes.opening catalog) ops) ->
  Virtuals.duration b = Booking.numberOfNights b.
Proof.
  intros Hb. apply duration_sound.
  assert (Forall sound
            (Routes.bookings (Routes.run (Routes.opening catalog) ops)))
    as Hall by (apply run_sound; constructor).
  rewrite Forall_forall in Hall. by apply Hall.
Qed.

(** ** What a creation stores, and when it stores nothing *)

(** X5: a booking created by [POST /] is stored as 'Confirmed' and 'Paid'
    exactly when the payment processor reported success; otherwise it is
    stored as 'Pending' with payment 'Pending'.  It carries the
    reference of the payment intent and the method 'Credit Card'.  A
    booking created by [POST /request] is always stored as 'Pending',
    payment 'Pending', method 'Cash', without payment reference. *)
Theorem creation_status_follows_payment :
  (forall s req env s' calls b,
      Routes.createBooking s req env = (s', calls, Routes.Success 201 b) ->
      exists intent stored,
        Routes.paymentIntent env = Some intent
        /\ Routes.bookings s' = Routes.bookings s ++ [stored]
        /\ Booking.status stored = Booking.status b
        /\ Booking.paymentStatus stored = Booking.paymentStatus b
        /\ Booking.stripePaymentIntentId b = Routes.id intent
        /\ Booking.paymentMethod b = Booking.CreditCard
        /\ (Routes.succeeded intent = true ->
            Booking.status b = Booking.Confirmed
            /\ Booking.paymentStatus b = Booking.Paid)
        /\ (Routes.succeeded intent = false ->
            Booking.status b = Booking.Pending
            /\ Booking.paymentStatus b = Booking.PaymentPending))
  /\ (forall s req env s' calls b,
         Routes.createBookingRequest s req env
         = (s', calls, Routes.Success 201 b) ->
         Routes.bookings s' = Routes.bookings s ++ [b]
         /\ Booking.status b = Booking.Pending
         /\ Booking.paymentStatus b = Booking.PaymentPending
         /\ Booking.paymentMethod b = Booking.Cash
         /\ Booking.stripePaymentIntentId b = "").
Proof.
  split.
  - intros s req env s' calls b H.
    apply createBooking_spec in H
      as [[_ (code & msg & Hr)]
         |(room & g & intent & doc & stored & Ha & Hg & Hi & Hs & -> & Hst
           & Hr)];
      [discriminate|].
    apply precheck_inl in Ha as (Hlt & _).
    apply save_insert in Hs as (Hd & _);
      [|reflexivity|reflexivity|by apply draft_nights].
    exists intent, stored. split; [done|]. split; [done|].
    assert (Booking.status b = Booking.status doc
            /\ Booking.paymentStatus b = Booking.paymentStatus doc
            /\ Booking.stripePaymentIntentId b
               = Booking.stripePaymentIntentId doc
            /\ Booking.paymentMethod b = Booking.paymentMethod doc)
      as (Hb1 & Hb2 & Hb3 & Hb4).
    { destruct Hr as [[msg Hr]|[Hr|Hr]]; [discriminate|..];
        injection Hr as ->; by repeat split. }
    assert (Booking.status stored = Booking.status doc
            /\ Booking.paymentStatus stored = Booking.paymentStatus doc)
      as (Hs1 & Hs2).
    { destruct Hst as [->| ->]; by split. }
    rewrite Hb1, Hb2, Hb3, Hb4, Hs1, Hs2, Hd. simpl.
    do 4 (split; [reflexivity|]). split; intros ->; by split.
  - intros s req env s' calls b H.
    apply createBookingRequest_spec in H
      as [[_ (code & msg & Hr)]|(room & g & doc & Ha & Hg & Hs & -> & Hr)];
      [discriminate|].
    injection Hr as ->.
    apply precheck_inl in Ha as (Hlt & _).
    apply save_insert in Hs as (Hd & _);
      [|reflexivity|reflexivity|by apply draft_nights].
    split; [done|]. rewrite Hd. by repeat split.
Qed.

Lemma precheck_blocked s req env blocker :
  blocker ∈ Routes.bookings s ->
  blocks (Routes.roomId req) (Routes.checkInDate req)
         (Routes.checkOutDate req) blocker ->
  exists code message,
    Routes.precheck s req env = inr (code, message)
    /\ (code = 400 \/ code = 404).
Proof.
  intros Hin Hb. unfold Routes.precheck.
  destruct (_ >=? _); [eauto|].
  destruct (_ <? Routes.now env); [eauto|].
  destruct (Routes.rooms s !! Routes.roomId req) as [room|]; [|eauto].
  destruct (Room.isActive room); simpl; [|eauto].
  destruct (Room.maxOccupancy room <? _); [eauto|].
  destruct (Room.isAvailable _ _ _ _ _) eqn:Hav; simpl; [|eauto].
  apply isAvailable_true in Hav as (_ & _ & Hno).
  by destruct (Hno blocker Hin).
Qed.

Lemma precheck_refuses s req env code message :
  Routes.precheck s req env = inr (code, message) ->
  Routes.createBookingRequest s req env
  = (s, [], Routes.Failure code message)
  /\ Routes.createBooking s req env = (s, [], Routes.Failure code message).
Proof.
  intros H. unfold Routes.createBookingRequest, Routes.createBooking.
  by rewrite H.
Qed.

(** X6: when a booking of the room with status 'Confirmed' or 'Checked
    In' overlaps the requested stay (its check-in is before the requested
    check-out and its check-out after the requested check-in), both
    creation routes refuse the request with a client error (400 or 404),
    store nothing and call neither the payment processor nor the
    mailer. *)
Theorem overlapping_request_is_refused s req env blocker :
  blocker ∈ Routes.bookings s ->
  blocks (Routes.roomId req) (Routes.checkInDate req)
         (Routes.checkOutDate req) blocker ->
  exists code message,
    (code = 400 \/ code = 404)
    /\ Routes.createBookingRequest s req env
       = (s, [], Routes.Failure code message)
    /\ Routes.createBooking s req env
       = (s, [], Routes.Failure code message).
Proof.
  intros Hin Hb.
  destruct (precheck_blocked s req env blocker Hin Hb)
    as (code & message & Hp & Hc).
  exists code, message. split; [done|]. by apply precheck_refuses.
Qed.

(** X7: a creation answered with a client error (400 or 404) stores no
    booking and changes no room.  For [POST /request] such an answer
    comes from one of the checks, which run before the guest is looked
    up, and no call is made.  For [POST /] either no call was made, or the
    one call is the payment intent that the processor rejected (400
    'Payment processing failed').  Whenever [POST /] makes a call at all,
    the room exists and is active, [isAvailable] answered true, the guest
    had been found or saved, and the first call is the payment intent for
    [Math.round(totalAmount * 100)] with the payment method of the
    request.  (The guests collection is not part of the store: this is
    about bookings and rooms.) *)
Theorem failed_creation_stores_no_booking :
  (forall s req env s' calls code message,
      Routes.createBookingRequest s req env
      = (s', calls, Routes.Failure code message) ->
      code <> 500 ->
      Routes.bookings s' = Routes.bookings s
      /\ Routes.rooms s' = Routes.rooms s
      /\ calls = []
      /\ Routes.precheck s req env = inr (code, message))
  /\ (forall s req env s' calls code message,
         Routes.createBooking s req env
         = (s', calls, Routes.Failure code message) ->
         code <> 500 ->
         Routes.bookings s' = Routes.bookings s
         /\ Routes.rooms s' = Routes.rooms s
         /\ (calls = []
             \/ (Routes.paymentIntent env = None
                 /\ message = "Payment processing failed"
                 /\ exists amount,
                      calls = [Routes.PaymentIntentsCreate amount
                                 (Routes.paymentMethodId req)])))
  /\ (forall s req env s' calls resp,
         Routes.createBooking s req env = (s', calls, resp) ->
         calls <> [] ->
         exists room guestId,
           Routes.rooms s !! Routes.roomId req = Some room
           /\ Room.isActive room = true
           /\ Room.isAvailable (Routes.roomId req) room (Routes.bookings s)
                (Routes.checkInDate req) (Routes.checkOutDate req) = true
           /\ Routes.guest env = Some guestId
           /\ head calls
              = Some (Routes.PaymentIntentsCreate
                        (JS.Math_round
                           (Routes.totalAmount
                              (Routes.pricing room (Routes.checkInDate req)
                                 (Routes.checkOutDate req)
                                 (Routes.priceNow env)) * 100)%float)
                        (Routes.paymentMethodId req))).
Proof.
  split; [|split].
  - intros s req env s' calls code message H Hc.
    unfold Routes.createBookingRequest in H.
    destruct (Routes.precheck s req env) as [room|[c m]];
      [|by injection H as <- <- <- <-].
    destruct (Routes.guest env);
      [|by injection H as _ _ <- _; destruct Hc].
    destruct (Booking.save _ _ _ _); [discriminate|..];
      by injection H as _ _ <- _; destruct Hc.
  - intros s req env s' calls code message H Hc.
    unfold Routes.createBooking in H.
    destruct (Routes.precheck s req env) as [room|[c m]];
      [|injection H as <- <- _ _; auto].
    destruct (Routes.guest env);
      [|by injection H as _ _ <- _; destruct Hc].
    destruct (Routes.paymentIntent env) as [intent|];
      [|injection H as <- <- _ <-; do 2 (split; [done|]); right; eauto].
    destruct (Booking.save (Routes.draws env) _ _ _);
      [|by injection H as _ _ <- _; destruct Hc..].
    destruct (Routes.succeeded intent); simpl in H; [|discriminate].
    destruct (Routes.statsOk env); simpl in H;
      [|by injection H as _ _ <- _; destruct Hc].
    destruct (Routes.emailOk env); simpl in H; [|discriminate].
    destruct (Booking.save (Routes.drawsAgain env) _ _ _); discriminate.
  - intros s req env s' calls resp H Hcalls.
    unfold Routes.createBooking in H.
    destruct (Routes.precheck s req env) as [room|[c m]] eqn:Hp;
      [|by injection H as _ <- _].
    destruct (Routes.guest env) as [g|]; [|by injection H as _ <- _].
    apply precheck_inl in Hp as (_ & _ & Hroom & Hact & _ & Hav).
    exists room, g. do 4 (split; [done|]).
    destruct (Routes.paymentIntent env) as [intent|];
      [|by injection H as _ <- _].
    destruct (Booking.save (Routes.draws env) _ _ _);
      [|by injection H as _ <- _..].
    destruct (Routes.succeeded intent); simpl in H;
      [|by injection H as _ <- _].
    destruct (Routes.statsOk env); simpl in H; [|by injection H as _ <- _].
    destruct (Routes.emailOk env); simpl in H; [|by injection H as _ <- _].
    destruct (Booking.save (Routes.drawsAgain env) _ _ _);
      by injection H as _ <- _.
Qed.

(** ** Availability *)

(** X8: availability is inherited by shorter stays: a room available
    from [checkIn] to [checkOut] is available for every interval that
    begins no earlier and ends no later. *)
Theorem isAvailable_shrinks roomId r (bookings : list Booking.t)
    checkIn checkOut checkIn' checkOut' :
  checkIn <= checkIn' -> checkOut' <= checkOut ->
  Room.isAvailable roomId r bookings checkIn checkOut = true ->
  Room.isAvailable roomId r bookings checkIn' checkOut' = true.
Proof.
  intros Hi Ho Hav. apply isAvailable_true in Hav as (Ha & Hs & Hno).
  apply isAvailable_true. do 2 (split; [done|]).
  intros b Hb (Hr & Hst & H1 & H2). apply (Hno b Hb).
  repeat split; auto; lia.
Qed.

(** X9: the search and the single check agree: [findAvailable] returns
    a room of the catalogue exactly when [isAvailable] answers true for it
    and its maxOccupancy is at least the number of guests. *)
Theorem findAvailable_is_isAvailable (rooms : gmap nat Room.t)
    (bookings : list Booking.t) checkIn checkOut guests roomId r :
  Room.findAvailable rooms bookings checkIn checkOut guests !! roomId
  = Some r
  <-> rooms !! roomId = Some r
      /\ guests <= Room.maxOccupancy r
      /\ Room.isAvailable roomId r bookings checkIn checkOut = true.
Proof.
  rewrite findAvailable_lookup, isAvailable_true. tauto.
Qed.

(** ** Check-in, check-out and cancellation in sequence *)

Lemma checkIn_success s id env s' calls doc :
  Routes.checkIn s id env = (s', calls, Routes.Success 200 doc) ->
  exists booking room,
    Routes.bookings s !! id = Some booking
    /\ Booking.status booking = Booking.Confirmed
    /\ doc = Booking.pre_validate (Routes.stayDraws env)
               (Booking.set_actualCheckInTime (Some (Routes.stayNow env))
                  (Booking.set_status Booking.CheckedIn booking))
    /\ Routes.rooms s !! Booking.room booking = Some room
    /\ s' = {| Routes.rooms :=
                 <[Booking.room booking :=
                     Room.set_status Room.Occupied room]> (Routes.rooms s);
               Routes.bookings := <[id:=doc]> (Routes.bookings s) |}
    /\ calls = [].
Proof.
  unfold Routes.checkIn. intros H.
  destruct (Routes.bookings s !! id) as [booking|] eqn:Hb; [|discriminate].
  destruct (Booking.Status_eqb (Booking.status booking) Booking.Confirmed)
    eqn:Hst; simpl in H; [|discriminate].
  apply booking_status_eqb_eq in Hst.
  destruct (Booking.save _ _ _ _) as [coll d| |] eqn:Hs; [|discriminate..].
  apply save_Saved in Hs as (-> & _ & -> & _).
  match type of H with
  | context [Booking.pre_validate ?d ?b] =>
      pose proof (pre_validate_core d b) as (_ & Hr & _)
  end.
  simpl in Hr. rewrite Hr in H.
  destruct (Routes.rooms s !! Booking.room booking) as [room|] eqn:Hroom;
    [|discriminate].
  injection H as <- <- <-. exists booking, room. by repeat split.
Qed.

Lemma checkOut_success s id env s' calls doc :
  Routes.checkOut s id env = (s', calls, Routes.Success 200 doc) ->
  exists booking room,
    Routes.bookings s !! id = Some booking
    /\ Booking.status booking = Booking.CheckedIn
    /\ doc = Booking.pre_validate (Routes.stayDraws env)
               (Booking.set_actualCheckOutTime (Some (Routes.stayNow env))
                  (Booking.set_status Booking.CheckedOut booking))
    /\ Routes.rooms s !! Booking.room booking = Some room
    /\ s' = {| Routes.rooms :=
                 <[Booking.room booking :=
                     Room.set_lastCleaning (Some (Routes.cleaningNow env))
                       (Room.set_cleaningStatus Room.Dirty
                          (Room.set_status Room.Available room))]>
                   (Routes.rooms s);
               Routes.bookings := <[id:=doc]> (Routes.bookings s) |}
    /\ calls = [].
Proof.
  unfold Routes.checkOut. intros H.
  destruct (Routes.bookings s !! id) as [booking|] eqn:Hb; [|discriminate].
  destruct (Booking.Status_eqb (Booking.status booking) Booking.CheckedIn)
    eqn:Hst; simpl in H; [|discriminate].
  apply booking_status_eqb_eq in Hst.
  destruct (Booking.save _ _ _ _) as [coll d| |] eqn:Hs; [|discriminate..].
  apply save_Saved in Hs as (-> & _ & -> & _).
  match type of H with
  | context [Booking.pre_validate ?d ?b] =>
      pose proof (pre_validate_core d b) as (_ & Hr & _)
  end.
  simpl in Hr. rewrite Hr in H.
  destruct (Routes.rooms s !! Booking.room booking) as [room|] eqn:Hroom;
    [|discriminate].
  injection H as <- <- <-. exists booking, room. by repeat split.
Qed.

(** X10: once a guest is checked in, the room is 'Occupied' and no new
    booking of it is accepted, for any dates: both creation routes refuse
    every request for that room with a client error and store nothing. *)
Theorem checked_in_room_takes_no_booking s id env s' calls doc :
  Routes.checkIn s id env = (s', calls, Routes.Success 200 doc) ->
  (exists room, Routes.rooms s' !! Booking.room doc = Some room
                /\ Room.status room = Room.Occupied)
  /\ forall req env',
       Routes.roomId req = Booking.room doc ->
       exists code message,
         (code = 400 \/ code = 404)
         /\ Routes.createBookingRequest s' req env'
            = (s', [], Routes.Failure code message)
         /\ Routes.createBooking s' req env'
            = (s', [], Routes.Failure code message).
Proof.
  intros H.
  apply checkIn_success in H
    as (booking & room & Hb & Hst & Hd & Hroom & -> & _).
  assert (Booking.room doc = Booking.room booking) as Hr.
  { rewrite Hd.
    match goal with
    | |- context [Booking.pre_validate ?d ?b] =>
        by pose proof (pre_validate_core d b) as (_ & -> & _)
    end. }
  rewrite Hr. simpl.
  assert (<[Booking.room booking := Room.set_status Room.Occupied room]>
            (Routes.rooms s) !! Booking.room booking
          = Some (Room.set_status Room.Occupied room)) as Hl
    by apply lookup_insert_eq.
  split; [eauto|].
  intros req env' Hreq.
  assert (exists code message,
             Routes.precheck
               {| Routes.rooms :=
                    <[Booking.room booking :=
                        Room.set_status Room.Occupied room]> (Routes.rooms s);
                  Routes.bookings := <[id:=doc]> (Routes.bookings s) |}
               req env' = inr (code, message)
             /\ (code = 400 \/ code = 404)) as (code & message & Hp & Hc).
  { unfold Routes.precheck. simpl. rewrite Hreq, Hl.
    destruct (_ >=? _); [eauto|].
    destruct (_ <? Routes.now env'); [eauto|].
    destruct (Room.isActive _); simpl; [|eauto].
    destruct (Room.maxOccupancy _ <? _); [eauto|].
    destruct (Room.isAvailable _ _ _ _ _) eqn:Hav; simpl; [|eauto].
    apply isAvailable_true in Hav as (_ & Hs & _). discriminate. }
  exists code, message. split; [done|]. by apply precheck_refuses.
Qed.

Lemma pre_validate_times d b :
  Booking.actualCheckInTime (Booking.pre_validate d b)
  = Booking.actualCheckInTime b
  /\ Booking.actualCheckOutTime (Booking.pre_validate d b)
     = Booking.actualCheckOutTime b.
Proof.
  destruct (pre_validate_shape d b) as (k & c & n & ->). by split.
Qed.

(** X11: a check-in followed by the check-out of the same booking leaves
    it 'Checked Out' with both actual times recorded, and leaves its room
    'Available', to be cleaned ('Dirty'), with the time of the check-out
    as lastCleaning. *)
Theorem stay_cycle s id env1 s1 calls1 doc1 env2 s2 calls2 doc2 :
  Routes.checkIn s id env1 = (s1, calls1, Routes.Success 200 doc1) ->
  Routes.checkOut s1 id env2 = (s2, calls2, Routes.Success 200 doc2) ->
  Routes.bookings s2 !! id = Some doc2
  /\ Booking.status doc2 = Booking.CheckedOut
  /\ Booking.actualCheckInTime doc2 = Some (Routes.stayNow env1)
  /\ Booking.actualCheckOutTime doc2 = Some (Routes.stayNow env2)
  /\ exists room,
       Routes.rooms s2 !! Booking.room doc2 = Some room
       /\ Room.status room = Room.Available
       /\ Room.cleaningStatus room = Room.Dirty
       /\ Room.lastCleaning room = Some (Routes.cleaningNow env2).
Proof.
  intros H1 H2.
  apply checkIn_success in H1
    as (b0 & r0 & Hb0 & Hst0 & Hd1 & Hr0 & -> & _).
  apply checkOut_success in H2
    as (b1 & r1 & Hb1 & Hst1 & Hd2 & Hr1 & -> & _).
  simpl in *.
  rewrite list_lookup_insert_eq in Hb1 by (by eapply lookup_lt_Some).
  injection Hb1 as <-.
  destruct (pre_validate_core (Routes.stayDraws env2)
              (Booking.set_actualCheckOutTime (Some (Routes.stayNow env2))
                 (Booking.set_status Booking.CheckedOut doc1)))
    as (Hs2 & Hroom2 & _).
  destruct (pre_validate_times (Routes.stayDraws env2)
              (Booking.set_actualCheckOutTime (Some (Routes.stayNow env2))
                 (Booking.set_status Booking.CheckedOut doc1)))
    as (Hin2 & Hout2).
  destruct (pre_validate_times (Routes.stayDraws env1)
              (Booking.set_actualCheckInTime (Some (Routes.stayNow env1))
                 (Booking.set_status Booking.CheckedIn b0)))
    as (Hin1 & _).
  rewrite <- Hd2 in Hs2, Hroom2, Hin2, Hout2. rewrite <- Hd1 in Hin1.
  simpl in *.
  split.
  { apply list_lookup_insert_eq. rewrite length_insert.
    by eapply lookup_lt_Some. }
  split; [done|]. split; [congruence|]. split; [done|].
  eexists. rewrite Hroom2. split; [apply lookup_insert_eq|]. by repeat split.
Qed.

(** X12: a booking is cancelled, and refunded, at most once: after a
    successful cancellation the same request (with its non-empty booking
    number and confirmation code) is refused with 400, changes nothing
    and makes no call to the payment processor, whatever the clock and
    the processor. *)
Theorem no_second_cancellation s req env s' calls data env' :
  JS.truthy (Routes.cancel_bookingNumber req) = true ->
  JS.truthy (Routes.cancel_confirmationCode req) = true ->
  Routes.cancelBooking s req env = (s', calls, Routes.Success 200 data) ->
  Routes.cancelBooking s' req env'
  = (s', [], Routes.Failure 400 "Booking cannot be cancelled at this time").
Proof.
  intros Hn Hc H.
  apply cancelBooking_spec in H
    as [[_ (code & msg & Hr)]|(i & booking & Hf & _ & H)]; [discriminate|].
  simpl in H. destruct H as (_ & -> & _).
  set (doc := Booking.pre_validate (Routes.cancelDraws env) _).
  pose proof Hf as Hf'.
  apply list_find_Some in Hf' as (Hl & [Hbn Hbc] & Hfirst).
  assert (Booking.status doc = Booking.Cancelled) as Hst.
  { unfold doc.
    match goal with
    | |- context [Booking.pre_validate ?d ?b] =>
        by pose proof (pre_validate_core d b) as (-> & _)
    end. }
  assert (Routes.by_number_and_code (Routes.cancel_bookingNumber req)
            (Routes.cancel_confirmationCode req) doc) as Hdoc.
  { unfold doc. split.
    - rewrite pre_validate_keeps_number; simpl; congruence.
    - rewrite pre_validate_keeps_code; simpl; congruence. }
  unfold Routes.cancelBooking. simpl.
  assert (list_find (Routes.by_number_and_code
                       (Routes.cancel_bookingNumber req)
                       (Routes.cancel_confirmationCode req))
                    (<[i:=doc]> (Routes.bookings s)) = Some (i, doc)) as ->.
  { apply list_find_insert_Some. right. left.
    split; [done|]. split; [done|].
    split; [by eapply lookup_lt_Some|]. split; [exact Hdoc|exact Hfirst]. }
  unfold Booking.canBeCancelled. rewrite Hst. reflexivity.
Qed.

(** ** Creation and lookup *)

(** X13: a booking that a creation route has just stored is found by
    [GET /:bookingNumber] with the booking number and the confirmation
    code of the response: the lookup answers 200 with the stored booking,
    whose status and pricing snapshot are those of the response. *)
Theorem created_booking_is_found s req env s' calls b authorization :
  Routes.createBookingRequest s req env = (s', calls, Routes.Success 201 b)
  \/ Routes.createBooking s req env = (s', calls, Routes.Success 201 b) ->
  exists stored,
    Routes.bookings s' = Routes.bookings s ++ [stored]
    /\ Routes.getBooking s'
         {| Routes.get_bookingNumber := Booking.bookingNumber b;
            Routes.get_confirmationCode := Booking.confirmationCode b;
            Routes.authorization := authorization |}
       = (s', [], Routes.Success 200 stored)
    /\ Booking.status stored = Booking.status b
    /\ snapshot stored = snapshot b.
Proof.
  intros H.
  assert (exists doc stored,
             Routes.bookings s' = Routes.bookings s ++ [stored]
             /\ Booking.required_ok doc = true
             /\ (forall e, e ∈ Routes.bookings s ->
                   Booking.bookingNumber e <> Booking.bookingNumber doc
                   /\ Booking.confirmationCode e
                      <> Booking.confirmationCode doc)
             /\ (stored = doc
                 \/ stored = Booking.set_emailConfirmationSent true doc)
             /\ (b = doc \/ b = Booking.set_emailConfirmationSent true doc))
    as (doc & stored & Happ & Hr & Hnew & Hst & Hb).
  { destruct H as [H|H].
    - apply createBookingRequest_spec in H
        as [[_ (code & msg & Hr)]|(room & g & doc & Ha & Hg & Hs & -> & Hr)];
        [discriminate|].
      injection Hr as ->.
      apply precheck_inl in Ha as (Hlt & _).
      apply save_insert in Hs as (_ & _ & Hr & Hnew);
        [|reflexivity|reflexivity|by apply draft_nights].
      exists doc, doc. simpl. do 3 (split; [done|]). split; by left.
    - apply createBooking_spec in H
        as [[_ (code & msg & Hr)]
           |(room & g & intent & doc & stored & Ha & Hg & Hi & Hs & -> & Hst
             & Hr)];
        [discriminate|].
      apply precheck_inl in Ha as (Hlt & _).
      apply save_insert in Hs as (_ & _ & Hr' & Hnew);
        [|reflexivity|reflexivity|by apply draft_nights].
      exists doc, stored. simpl. do 4 (split; [done|]).
      destruct Hr as [[msg Hr]|[Hr|Hr]]; [discriminate|..];
        injection Hr as ->; auto. }
  assert (Booking.bookingNumber b = Booking.bookingNumber doc
          /\ Booking.confirmationCode b = Booking.confirmationCode doc
          /\ Booking.status b = Booking.status doc
          /\ snapshot b = snapshot doc) as (Hbn & Hbc & Hbs & Hbp)
    by (destruct Hb as [->| ->]; by repeat split).
  assert (Booking.bookingNumber stored = Booking.bookingNumber doc
          /\ Booking.confirmationCode stored = Booking.confirmationCode doc
          /\ Booking.status stored = Booking.status doc
          /\ snapshot stored = snapshot doc) as (Hsn & Hsc & Hss & Hsp)
    by (destruct Hst as [->| ->]; by repeat split).
  exists stored. split; [done|]. split; [|split; congruence].
  unfold Routes.getBooking. simpl. rewrite Hbn, Hbc.
  apply andb_true_iff in Hr as [_ Hcode]. rewrite Hcode, Happ.
  assert (list_find (Routes.by_number_and_code (Booking.bookingNumber doc)
                       (Booking.confirmationCode doc))
                    (Routes.bookings s ++ [stored])
          = Some (length (Routes.bookings s), stored)) as ->; [|done].
  apply list_find_Some. split; [|split].
  - by apply list_lookup_middle.
  - by split.
  - intros j y Hj Hlt [Hyn Hyc].
    rewrite lookup_app_l in Hj by done.
    apply list_elem_of_lookup_2 in Hj.
    destruct (Hnew y Hj) as [Hne _]. done.
Qed.

(** ** The totals of the revenue report *)

Lemma fold_left_sum {A} (f : A -> Z) (l : list A) (z : Z) :
  fold_left (fun sum x => sum + f x) l z
  = z + foldr (fun x acc => f x + acc) 0 l.
Proof.
  revert z. induction l as [|x l IH]; intros z; simpl; [lia|].
  rewrite IH. lia.
Qed.

Lemma foldr_sum_perm {A} (f : A -> Z) (l l' : list A) :
  l ≡ₚ l' ->
  foldr (fun x acc => f x + acc) 0 l = foldr (fun x acc => f x + acc) 0 l'.
Proof. induction 1; simpl; lia. Qed.

Lemma foldr_sum_fmap {A B} (g : A -> B) (f : B -> Z) (l : list A) :
  foldr (fun x acc => f x + acc) 0 (g <$> l)
  = foldr (fun x acc => f (g x) + acc) 0 l.
Proof.
  induction l as [|x l IH]; [done|]. rewrite fmap_cons. simpl.
  by rewrite IH.
Qed.

Lemma indicator_sum {K} `{EqDecision K} (k0 : K) (ks : list K) :
  NoDup ks -> k0 ∈ ks ->
  foldr (fun k acc => (if decide (k0 = k) then 1 else 0) + acc) 0 ks = 1.
Proof.
  induction 1 as [|k ks Hk Hnd IH]; intros Hin; [by apply elem_of_nil in Hin|].
  simpl. destruct (decide (k0 = k)) as [->|Hne].
  - assert (foldr (fun k' acc => (if decide (k = k') then 1 else 0) + acc)
                  0 ks = 0) as ->; [|done].
    clear IH Hin Hnd. induction ks as [|k' ks IH]; [done|]. simpl.
    apply not_elem_of_cons in Hk as [Hne Hk].
    destruct (decide (k = k')); [done|]. by rewrite IH.
  - apply elem_of_cons in Hin as [?|Hin]; [done|]. by rewrite IH.
Qed.

Lemma group_sizes_add_up {A K} `{EqDecision K} (key : A -> K)
    (ks : list K) (m : list A) :
  NoDup ks -> (forall x, x ∈ m -> key x ∈ ks) ->
  foldr (fun k acc =>
           Z.of_nat (length (filter (fun x => key x = k) m)) + acc) 0 ks
  = Z.of_nat (length m).
Proof.
  intros Hnd. induction m as [|x m IH]; intros Hin.
  - clear Hnd Hin. induction ks as [|k ks IH]; [done|].
    change (0 + foldr (fun k acc =>
                         Z.of_nat (length (filter (fun x => key x = k)
                                                  (@nil A))) + acc) 0 ks
            = 0).
    by rewrite IH.
  - assert (forall ks',
               foldr (fun k acc =>
                        Z.of_nat (length (filter (fun y => key y = k)
                                                 (x :: m))) + acc) 0 ks'
               = foldr (fun k acc =>
                          (if decide (key x = k) then 1 else 0) + acc) 0 ks'
                 + foldr (fun k acc =>
                            Z.of_nat (length (filter (fun y => key y = k) m))
                            + acc) 0 ks') as ->.
    { induction ks' as [|k ks' IH']; [done|]. simpl. rewrite IH'.
      rewrite filter_cons. destruct (decide (key x = k)); simpl; lia. }
    rewrite indicator_sum, IH; auto.
    + simpl. lia.
    + intros y Hy. apply Hin. by right.
    + apply Hin. by left.
Qed.

Lemma report_count_total acc_sum acc_avg (coll : list Booking.t)
    startDate endDate :
  foldr (fun day acc => Booking.bookingsCount day + acc) 0
        (Booking.generateRevenueReport acc_sum acc_avg coll startDate endDate)
  = Z.of_nat (length (filter (counted startDate endDate) coll)).
Proof.
  unfold Booking.generateRevenueReport.
  rewrite (foldr_sum_perm Booking.bookingsCount _ _
             (merge_sort_Permutation _ _)).
  rewrite foldr_sum_fmap. simpl. unfold Booking.group_of.
  rewrite (group_sizes_add_up
             (fun b => Booking.dateParts (Booking.checkInDate b))).
  - f_equal. f_equal. apply list_filter_iff. intros b.
    apply report_match_counted.
  - apply NoDup_remove_dups.
  - intros b Hb. apply elem_of_remove_dups.
    by apply (list_elem_of_fmap_2
                (fun b => Booking.dateParts (Booking.checkInDate b))).
Qed.

(** X14: the summary of the revenue analytics counts every booking of
    the window once: totalBookings is the number of stored bookings whose
    status is 'Confirmed', 'Checked In' or 'Checked Out' and whose
    checkInDate lies in the window, and it is the sum of the
    bookingsCount of the days of the report. *)
Theorem summary_counts_each_booking_once acc_sum acc_avg s req dateNow endNow
    s' calls revenueData summary :
  Routes.revenueAnalytics acc_sum acc_avg s req dateNow endNow
  = (s', calls, Routes.Success 200 (revenueData, summary)) ->
  Routes.totalBookings summary
  = Z.of_nat
      (length (filter (counted (Routes.dateRange summary).1
                               (Routes.dateRange summary).2)
                      (Routes.bookings s)))
  /\ Routes.totalBookings summary
     = foldr (fun day acc => Booking.bookingsCount day + acc) 0 revenueData.
Proof.
  unfold Routes.revenueAnalytics. intros H. injection H as _ _ <- <-.
  simpl. rewrite fold_left_sum, report_count_total. split; lia.
Qed.

(** ** Quoting, showing and retiring a room (routes/rooms.js) *)

(** X15: a positive availability answer is honoured by the booking
    request.  When [POST /:id/availability] answers that the room is
    available, a [POST /request] for the same room and dates and for no
    more guests than asked, once it has passed the validators and while
    the check-in is not in the past, is never refused with a client error
    on the same store: it is answered 201, or 500 when the guest or the
    booking cannot be saved.
    The quoted pricing is that of the room for the stay at the clock of
    the quote, and a booking created with [currentPrice] read at the same
    clock stores the quoted amounts. *)
Theorem positive_quote_is_honoured s qreq now priceNow s' calls q req env :
  Rooms.checkAvailability s qreq now priceNow
  = (s', calls, Routes.Success 200 q) ->
  Rooms.available q = true ->
  Routes.roomId req = Rooms.id qreq ->
  Routes.checkInDate req = Rooms.checkIn qreq ->
  Routes.checkOutDate req = Rooms.checkOut qreq ->
  Routes.adults req + default 0 (Routes.children req) <= Rooms.guests qreq ->
  Routes.now env <= Routes.checkInDate req ->
  (exists room,
      Routes.rooms s !! Rooms.id qreq = Some room
      /\ Rooms.pricing q
         = Routes.pricing room (Rooms.checkIn qreq) (Rooms.checkOut qreq)
                          priceNow)
  /\ forall s1 calls1 resp,
       Routes.createBookingRequest s req env = (s1, calls1, resp) ->
       (exists b,
           resp = Routes.Success 201 b
           /\ (Routes.priceNow env = priceNow ->
               snapshot b = Rooms.pricing q))
       \/ (exists message, resp = Routes.Failure 500 message).
Proof.
  unfold Rooms.checkAvailability. intros H Hav Hid Hci Hco Hg Hnow.
  destruct (Rooms.checkIn qreq >=? Rooms.checkOut qreq) eqn:Hd;
    [discriminate|].
  destruct (Rooms.checkIn qreq <? now); [discriminate|].
  destruct (Routes.rooms s !! Rooms.id qreq) as [room|] eqn:Hroom;
    [|discriminate].
  destruct (Room.isActive room) eqn:Hact; simpl in H; [|discriminate].
  destruct (Room.maxOccupancy room <? Rooms.guests qreq) eqn:Hocc;
    [discriminate|].
  injection H as _ _ <-. simpl in *.
  assert (Routes.precheck s req env = inl room) as Hp.
  { unfold Routes.precheck. rewrite Hid, Hci, Hco, Hd, Hroom, Hact. simpl.
    assert ((Rooms.checkIn qreq <? Routes.now env) = false) as ->
      by (apply Z.ltb_ge; lia).
    assert ((Room.maxOccupancy room
             <? Routes.adults req + default 0 (Routes.children req)) = false)
      as -> by (apply Z.ltb_ge; apply Z.ltb_ge in Hocc; lia).
    by rewrite Hav. }
  split; [by exists room|].
  intros s1 calls1 resp Hr.
  destruct resp as [code b|code message].
  - left.
    assert (created s req env b /\ code = 201) as [Hb ->].
    { apply createBookingRequest_spec in Hr as Hspec.
      destruct Hspec
        as [[_ (c & m & Hx)]|(r' & g & doc & _ & _ & _ & _ & Hx)];
        [discriminate|].
      injection Hx as -> ->. split; [|done]. exists s1, calls1. by left. }
    exists b. split; [done|]. intros <-.
    apply creation_snapshot in Hb as (room' & Hl & ->).
    rewrite Hid, Hroom in Hl. injection Hl as <-. by rewrite Hci, Hco.
  - right. unfold Routes.createBookingRequest in Hr. rewrite Hp in Hr.
    destruct (Routes.guest env); [|injection Hr as _ _ <- <-; eauto].
    destruct (Booking.save _ _ _ _); [discriminate|..];
      injection Hr as _ _ <- <-; eauto.
Qed.

Lemma precheck_inactive s req env room :
  Routes.rooms s !! Routes.roomId req = Some room ->
  Room.isActive room = false ->
  exists code message,
    Routes.precheck s req env = inr (code, message)
    /\ (code = 400 \/ code = 404).
Proof.
  intros Hl Ha. unfold Routes.precheck. rewrite Hl, Ha. simpl.
  destruct (_ >=? _); [eauto|].
  destruct (_ <? Routes.now env); eauto.
Qed.

(** X16: [DELETE /api/rooms/:id] retires a room without touching a
    booking: afterwards the room is no longer shown ([GET /:id] answers
    404), no longer quoted, no longer found by [findAvailable] for any
    dates, and no longer bookable (both creation routes refuse with a
    client error); the bookings and the other rooms are as before. *)
Theorem retired_room_is_not_bookable s roomId s' calls message :
  Rooms.deleteRoom s roomId = (s', calls, Routes.Success 200 message) ->
  Routes.bookings s' = Routes.bookings s
  /\ (forall other, other <> roomId ->
        Routes.rooms s' !! other = Routes.rooms s !! other)
  /\ Rooms.getRoom s' roomId = (s', [], Routes.Failure 404 "Room not found")
  /\ (forall checkIn checkOut guests,
        Room.findAvailable (Routes.rooms s') (Routes.bookings s')
          checkIn checkOut guests !! roomId = None)
  /\ (forall qreq now priceNow,
        Rooms.id qreq = roomId ->
        exists code text,
          Rooms.checkAvailability s' qreq now priceNow
          = (s', [], Routes.Failure code text))
  /\ (forall req env,
        Routes.roomId req = roomId ->
        exists code text,
          (code = 400 \/ code = 404)
          /\ Routes.createBookingRequest s' req env
             = (s', [], Routes.Failure code text)
          /\ Routes.createBooking s' req env
             = (s', [], Routes.Failure code text)).
Proof.
  unfold Rooms.deleteRoom. intros H.
  destruct (Routes.rooms s !! roomId) as [room|] eqn:Hroom; [|discriminate].
  injection H as <- _ _. simpl.
  assert (<[roomId := Rooms.deactivate room]> (Routes.rooms s) !! roomId
          = Some (Rooms.deactivate room)) as Hl by apply lookup_insert_eq.
  split; [done|]. split; [by intros other Hne; apply lookup_insert_ne|].
  split; [by unfold Rooms.getRoom; simpl; rewrite Hl|].
  split.
  { intros checkIn checkOut guests.
    destruct (Room.findAvailable _ _ _ _ _ !! roomId) as [r|] eqn:Hf;
      [|done].
    apply findAvailable_lookup in Hf as (Hr & Ha & _).
    rewrite Hl in Hr. injection Hr as <-. discriminate. }
  split.
  { intros qreq now priceNow Hid. unfold Rooms.checkAvailability. simpl.
    rewrite Hid, Hl. simpl.
    destruct (_ >=? _); [eauto|]. destruct (_ <? now); eauto. }
  intros req env Hid.
  destruct (precheck_inactive
              {| Routes.rooms :=
                   <[roomId := Rooms.deactivate room]> (Routes.rooms s);
                 Routes.bookings := Routes.bookings s |}
              req env (Rooms.deactivate room))
    as (code & text & Hp & Hc); [by simpl; rewrite Hid|done|].
  exists code, text. split; [done|]. by apply precheck_refuses.
Qed.

(** ** Pagination of the list routes *)

Lemma ceiling_gt (p n limit : Z) :
  1 <= limit ->
  p < Qceiling (inject_Z n / inject_Z limit) <-> p * limit < n.
Proof.
  intros Hl.
  set (x := (inject_Z n / inject_Z limit)%Q).
  assert ((inject_Z p < x)%Q <-> p * limit < n) as Hx.
  { unfold x, Qlt, Qdiv, Qmult, Qinv, inject_Z. simpl.
    destruct limit as [|l|l]; simpl; try lia. }
  rewrite <- Hx. split.
  - intros H. eapply Qle_lt_trans; [|apply (Qceiling_lt x)].
    rewrite <- Zle_Qle. lia.
  - intros H. rewrite Zlt_Qlt. eapply Qlt_le_trans; [exact H|].
    apply Qle_ceiling.
Qed.

Lemma skip_limit_nat {A} (page limit : Z) (docs : list A) :
  1 <= page -> 1 <= limit ->
  Paging.skip_limit page limit docs
  = take (Z.to_nat limit)
         (drop (Z.to_nat (page - 1) * Z.to_nat limit) docs).
Proof.
  intros Hp Hl. unfold Paging.skip_limit. do 2 f_equal. nia.
Qed.

(** X17: with [page >= 1], [limit >= 1] and [totalCount] the number of
    documents to page, a page holds at most [limit] documents and is
    non-empty exactly when [page <= totalPages]; [hasNextPage] is true
    exactly when the next page is non-empty, [hasPrevPage] exactly when
    [page > 1]. *)
Theorem pagination_flags {A} (page limit : Z) (docs : list A) :
  1 <= page -> 1 <= limit ->
  let p := Paging.pagination page limit (Z.of_nat (length docs)) in
  (length (Paging.skip_limit page limit docs) <= Z.to_nat limit)%nat
  /\ (Paging.skip_limit page limit docs <> []
      <-> page <= Paging.totalPages p)
  /\ (Paging.hasNextPage p = true
      <-> Paging.skip_limit (page + 1) limit docs <> [])
  /\ (Paging.hasPrevPage p = true <-> 1 < page).
Proof.
  intros Hp Hl p.
  assert (forall q, 1 <= q ->
             Paging.skip_limit q limit docs <> []
             <-> q <= Paging.totalPages p) as Hpage.
  { intros q Hq. unfold p. simpl.
    assert (q <= Qceiling (inject_Z (Z.of_nat (length docs)) / inject_Z limit)
            <-> (q - 1) * limit < Z.of_nat (length docs)) as ->.
    { rewrite <- (ceiling_gt (q - 1)) by done. lia. }
    unfold Paging.skip_limit.
    set (k := Z.to_nat ((q - 1) * limit)).
    assert ((q - 1) * limit = Z.of_nat k) as -> by (unfold k; nia).
    split.
    - intros Hne. destruct (decide (k < length docs)%nat); [lia|].
      exfalso. apply Hne. rewrite drop_ge by lia. by rewrite take_nil.
    - intros Hlt Hnil.
      assert (length (take (Z.to_nat limit) (drop k docs)) = 0%nat) as Hlen
        by (by rewrite Hnil).
      rewrite length_take, length_drop in Hlen. lia. }
  split.
  { unfold Paging.skip_limit. rewrite length_take. lia. }
  split; [by apply Hpage|]. split.
  - rewrite Hpage by lia. unfold p. simpl. rewrite Z.ltb_lt. lia.
  - unfold p. simpl. rewrite Z.gtb_ltb, Z.ltb_lt. lia.
Qed.

Lemma pages_take {A} (limit : Z) (docs : list A) (m : nat) :
  1 <= limit ->
  concat ((fun k => Paging.skip_limit (Z.of_nat k + 1) limit docs)
            <$> seq 0 m)
  = take (m * Z.to_nat limit) docs.
Proof.
  intros Hl. induction m as [|m IH]; [done|].
  rewrite seq_S, fmap_app, concat_app, IH. simpl.
  rewrite app_nil_r, skip_limit_nat by lia.
  replace (Z.to_nat (Z.of_nat m + 1 - 1)) with m by lia.
  rewrite take_take_drop. f_equal. lia.
Qed.

(** X18: the pages partition the result: with [limit >= 1], the pages 1
    to [totalPages], one after the other, are exactly the documents, each
    once and in order; every page after [totalPages] is empty. *)
Theorem pages_partition_the_result {A} (limit : Z) (docs : list A) :
  1 <= limit ->
  let totalPages :=
    Paging.totalPages (Paging.pagination 1 limit (Z.of_nat (length docs))) in
  concat ((fun k => Paging.skip_limit (Z.of_nat k + 1) limit docs)
            <$> seq 0 (Z.to_nat totalPages))
  = docs
  /\ forall page, totalPages < page ->
       Paging.skip_limit page limit docs = [].
Proof.
  intros Hl totalPages.
  assert (Z.of_nat (length docs) <= totalPages * limit) as Hcover.
  { destruct (Z_le_gt_dec (Z.of_nat (length docs)) (totalPages * limit));
      [done|].
    assert (totalPages < totalPages); [|lia].
    unfold totalPages at 2. simpl. apply ceiling_gt; [done|]. lia. }
  assert (0 <= totalPages) as Hnn by nia.
  split.
  - rewrite pages_take by done. apply take_ge. nia.
  - intros page Hlt. unfold Paging.skip_limit.
    rewrite drop_ge; [by rewrite take_nil|]. nia.
Qed.

(** ** The confirmation code *)

Lemma list_ascii_of_append (a b : string) :
  list_ascii_of_string (a +:+ b)
  = list_ascii_of_string a ++ list_ascii_of_string b.
Proof. induction a as [|c a IH]; [done|]. simpl. by rewrite IH. Qed.

Lemma charAt_chars i :
  (i < 36)%nat ->
  exists c, JS.charAt Booking.chars i = String c EmptyString
            /\ code_char c = true.
Proof.
  intros Hi.
  do 36 (destruct i as [|i]; [eexists; split; reflexivity|]). lia.
Qed.

Lemma generate_code_shape rounds :
  forall draws code,
    Forall (fun i => (i < 36)%nat) draws -> (rounds <= length draws)%nat ->
    exists l,
      list_ascii_of_string (Booking.generate_code rounds draws code)
      = list_ascii_of_string code ++ l
      /\ length l = rounds /\ Forall (fun c => code_char c = true) l.
Proof.
  induction rounds as [|k IH]; intros draws code Hall Hlen.
  - exists []. simpl. by rewrite app_nil_r.
  - destruct draws as [|i rest]; [simpl in Hlen; lia|].
    apply Forall_cons in Hall as [Hi Hall]. simpl in Hlen.
    destruct (charAt_chars i Hi) as (c & Hc & Hcc).
    destruct (IH rest (code +:+ JS.charAt Booking.chars i) Hall ltac:(lia))
      as (l & Hl & Hk & Hf).
    exists (c :: l). simpl. rewrite Hl, list_ascii_of_append, Hc. simpl.
    rewrite <- app_assoc. simpl. repeat split; auto.
Qed.

Lemma length_list_ascii (s : string) :
  length (list_ascii_of_string s) = String.length s.
Proof. induction s as [|c s IH]; [done|]. simpl. by rewrite IH. Qed.

(** X19: with eight draws in the range of [chars] (0 to 35), as
    [Math.floor(Math.random() * chars.length)] gives, the hook generates
    a confirmation code of exactly eight characters, each a capital
    letter or a digit; the code is not empty, so the [required] validator
    accepts it. *)
Theorem confirmation_code_shape d :
  Forall (fun i => (i < 36)%nat) (Booking.indices d) ->
  (8 <= length (Booking.indices d))%nat ->
  String.length (Booking.generate_confirmationCode d) = 8%nat
  /\ Forall (fun c => code_char c = true)
            (list_ascii_of_string (Booking.generate_confirmationCode d))
  /\ JS.truthy (Booking.generate_confirmationCode d) = true.
Proof.
  intros Hall Hlen. unfold Booking.generate_confirmationCode.
  destruct (generate_code_shape 8 (Booking.indices d) "" Hall Hlen)
    as (l & Hl & Hk & Hf).
  change (list_ascii_of_string "" ++ l) with l in Hl.
  assert (String.length (Booking.generate_code 8 (Booking.indices d) "")
          = 8%nat) as Hlen8.
  { rewrite <- length_list_ascii, Hl. done. }
  split; [done|]. split; [by rewrite Hl|].
  destruct (Booking.generate_code 8 (Booking.indices d) ""); [done|done].
Qed.

(** ** The slug of a room (models/Room.js) *)

Lemma replace_other_ok c :
  Slug.is_alnum (Slug.replace_other c) = true
  \/ Slug.replace_other c = Slug.dash.
Proof. unfold Slug.replace_other. destruct (Slug.is_alnum c) eqn:H; auto. Qed.

Lemma alnum_fixed c :
  Slug.is_alnum c = true -> Slug.replace_other (Slug.toLowerCase c) = c.
Proof.
  intros H. destruct c as [[] [] [] [] [] [] [] []];
    try reflexivity; discriminate H.
Qed.

Lemma no_double_cons c l :
  no_double_dash (c :: l)
  <-> (head l = Some Slug.dash -> c <> Slug.dash) /\ no_double_dash l.
Proof.
  destruct l as [|d l]; simpl.
  - split; [intros _; split; [discriminate|done]|done].
  - split.
    + intros [Hn Hl]. split; [|done]. intros [= ->] ->. by apply Hn.
    + intros [Hn Hl]. split; [|done]. intros [-> ->]. by apply Hn.
Qed.

Lemma no_double_lookup l :
  no_double_dash l
  <-> forall i, ~ (l !! i = Some Slug.dash /\ l !! S i = Some Slug.dash).
Proof.
  induction l as [|c l IH].
  - split; [intros _ i [H _]; discriminate|done].
  - rewrite no_double_cons, IH. split.
    + intros [Hh Hl] [|i] [H1 H2]; simpl in *.
      * injection H1 as ->. apply Hh; [|done].
        destruct l; [discriminate|]. simpl in *. congruence.
      * by apply (Hl i).
    + intros H. split.
      * intros Hhd ->. apply (H 0%nat). split; [done|].
        destruct l; [discriminate|]. simpl in *. congruence.
      * intros i Hi. by apply (H (S i)).
Qed.

Lemma collapse_head l : head (Slug.collapse l) = head l.
Proof.
  induction l as [|c rest IH]; [done|]. simpl.
  destruct (Ascii.eqb c Slug.dash) eqn:Hc; [|done].
  destruct rest as [|d rest']; [done|].
  destruct (Ascii.eqb d Slug.dash) eqn:Hd; [|done].
  rewrite IH. simpl. apply Ascii.eqb_eq in Hc, Hd. congruence.
Qed.

Lemma collapse_no_double l : no_double_dash (Slug.collapse l).
Proof.
  induction l as [|c rest IH]; [done|]. simpl.
  destruct (Ascii.eqb c Slug.dash) eqn:Hc.
  - destruct rest as [|d rest']; [done|].
    destruct (Ascii.eqb d Slug.dash) eqn:Hd; [done|].
    apply no_double_cons. split; [|done].
    rewrite collapse_head. simpl. intros [= ->].
    by rewrite Ascii.eqb_refl in Hd.
  - apply no_double_cons. split; [|done].
    intros _ ->. by rewrite Ascii.eqb_refl in Hc.
Qed.

Lemma collapse_Forall (P : ascii -> Prop) l :
  Forall P l -> Forall P (Slug.collapse l).
Proof.
  induction 1 as [|c rest Hc Hrest IH]; [done|]. simpl.
  destruct (Ascii.eqb c Slug.dash); [|by constructor].
  destruct rest as [|d rest']; [by constructor|].
  destruct (Ascii.eqb d Slug.dash); [done|by constructor].
Qed.

Lemma collapse_keeps c l :
  c ∈ l -> c <> Slug.dash -> c ∈ Slug.collapse l.
Proof.
  intros Hin Hc. induction l as [|x rest IH]; [done|]. simpl.
  destruct (Ascii.eqb x Slug.dash) eqn:Hx.
  - apply Ascii.eqb_eq in Hx. subst x.
    apply elem_of_cons in Hin as [->|Hin]; [done|].
    destruct rest as [|d rest']; [by apply elem_of_nil in Hin|].
    destruct (Ascii.eqb d Slug.dash); [by apply IH|].
    right. by apply IH.
  - apply elem_of_cons in Hin as [->|Hin]; [by left|]. right. by apply IH.
Qed.

Lemma collapse_id l : no_double_dash l -> Slug.collapse l = l.
Proof.
  induction l as [|c rest IH]; [done|]. intros [Hh Hl]%no_double_cons.
  simpl. rewrite (IH Hl).
  destruct (Ascii.eqb c Slug.dash) eqn:Hc; [|done].
  destruct rest as [|d rest']; [done|].
  destruct (Ascii.eqb d Slug.dash) eqn:Hd; [|done].
  apply Ascii.eqb_eq in Hc, Hd. subst. by destruct Hh.
Qed.

Lemma strip_leading_spec l :
  (head l = Some Slug.dash /\ Slug.strip_leading l = tail l)
  \/ (head l <> Some Slug.dash /\ Slug.strip_leading l = l).
Proof.
  destruct l as [|c rest]; [by right|]. simpl.
  destruct (Ascii.eqb c Slug.dash) eqn:Hc.
  - apply Ascii.eqb_eq in Hc. subst. by left.
  - right. split; [|done]. intros [= ->]. by rewrite Ascii.eqb_refl in Hc.
Qed.

Lemma strip_trailing_nil l :
  Slug.strip_trailing l = [] <-> l = [] \/ l = [Slug.dash].
Proof.
  destruct l as [|c [|d rest]]; simpl.
  - by split; [left|].
  - destruct (Ascii.eqb c Slug.dash) eqn:Hc.
    + apply Ascii.eqb_eq in Hc. subst. by split; [right|].
    + split; [done|]. intros [?|[= ->]]; [done|].
      by rewrite Ascii.eqb_refl in Hc.
  - split; [done|]. by intros [?|?].
Qed.

Lemma strip_trailing_head l x :
  head (Slug.strip_trailing l) = Some x -> head l = Some x.
Proof.
  destruct l as [|c [|d rest]]; simpl; [done| |done].
  destruct (Ascii.eqb c Slug.dash); done.
Qed.

Lemma strip_trailing_Forall (P : ascii -> Prop) l :
  Forall P l -> Forall P (Slug.strip_trailing l).
Proof.
  induction 1 as [|c rest Hc Hrest IH]; [done|]. simpl.
  destruct rest as [|d rest'].
  - destruct (Ascii.eqb c Slug.dash); [done|by constructor].
  - by constructor.
Qed.

Lemma strip_trailing_no_double l :
  no_double_dash l -> no_double_dash (Slug.strip_trailing l).
Proof.
  induction l as [|c rest IH]; [done|]. intros [Hh Hl]%no_double_cons.
  simpl. destruct rest as [|d rest'].
  - by destruct (Ascii.eqb c Slug.dash).
  - apply no_double_cons. split; [|by apply IH].
    intros Hd. apply Hh. by apply strip_trailing_head.
Qed.

Lemma strip_trailing_last l :
  no_double_dash l -> last (Slug.strip_trailing l) <> Some Slug.dash.
Proof.
  induction l as [|c rest IH]; [done|]. intros [Hh Hl]%no_double_cons.
  simpl. destruct rest as [|d rest'].
  - destruct (Ascii.eqb c Slug.dash) eqn:Hc; [done|]. simpl.
    intros [= ->]. by rewrite Ascii.eqb_refl in Hc.
  - destruct (Slug.strip_trailing (d :: rest')) as [|e t] eqn:He.
    + apply strip_trailing_nil in He as [?|[= -> ->]]; [done|].
      simpl. intros [= ->]. by apply Hh.
    + rewrite last_cons_cons. by apply IH.
Qed.

Lemma strip_trailing_keeps c l :
  c ∈ l -> c <> Slug.dash -> c ∈ Slug.strip_trailing l.
Proof.
  intros Hin Hc. induction l as [|x rest IH]; [done|]. simpl.
  destruct rest as [|d rest'].
  - apply list_elem_of_singleton in Hin as ->.
    destruct (Ascii.eqb x Slug.dash) eqn:Hx; [|by left].
    by apply Ascii.eqb_eq in Hx.
  - apply elem_of_cons in Hin as [->|Hin]; [by left|]. right. by apply IH.
Qed.

Lemma strip_trailing_id l :
  last l <> Some Slug.dash -> Slug.strip_trailing l = l.
Proof.
  induction l as [|c rest IH]; [done|]. intros Hl. simpl.
  destruct rest as [|d rest'].
  - destruct (Ascii.eqb c Slug.dash) eqn:Hc; [|done].
    apply Ascii.eqb_eq in Hc. subst. by destruct Hl.
  - rewrite IH; [done|]. by rewrite last_cons_cons in Hl.
Qed.

Lemma slugify_list_shaped l : slug_shaped (Slug.slugify_list l).
Proof.
  unfold Slug.slugify_list.
  set (m := List.map (fun c => Slug.replace_other (Slug.toLowerCase c)) l).
  assert (Forall (fun c => Slug.is_alnum c = true \/ c = Slug.dash) m) as Hm.
  { unfold m. apply Forall_forall. intros c Hc.
    apply list_elem_of_In, in_map_iff in Hc as (x & <- & _).
    apply replace_other_ok. }
  pose proof (collapse_Forall _ _ Hm) as Hc.
  pose proof (collapse_no_double m) as Hn.
  set (k := Slug.collapse m) in *.
  assert (Forall (fun c => Slug.is_alnum c = true \/ c = Slug.dash)
                 (Slug.strip_leading k)
          /\ no_double_dash (Slug.strip_leading k)
          /\ head (Slug.strip_leading k) <> Some Slug.dash)
    as (Hf & Hnd & Hhd).
  { destruct (strip_leading_spec k) as [[Hh ->]|[Hh ->]]; [|done].
    destruct k as [|c rest]; [done|]. simpl in *. injection Hh as ->.
    apply Forall_cons in Hc as [_ Hc].
    apply no_double_cons in Hn as [Hh Hn].
    repeat split; auto. intros Hd. by apply Hh. }
  split; [by apply strip_trailing_Forall|].
  split; [|split].
  - intros Hs. by apply strip_trailing_head in Hs.
  - by apply strip_trailing_last.
  - apply no_double_lookup. by apply strip_trailing_no_double.
Qed.

Lemma slugify_list_id l : slug_shaped l -> Slug.slugify_list l = l.
Proof.
  intros (Hf & Hh & Hl & Hn). unfold Slug.slugify_list.
  assert (List.map (fun c => Slug.replace_other (Slug.toLowerCase c)) l = l)
    as ->.
  { clear Hh Hl Hn. induction Hf as [|c rest Hc Hrest IH]; [done|].
    simpl. rewrite IH. f_equal.
    destruct Hc as [Hc| ->]; [by apply alnum_fixed|reflexivity]. }
  rewrite collapse_id by (by apply no_double_lookup).
  destruct (strip_leading_spec l) as [[Hd _]|[_ ->]]; [done|].
  by apply strip_trailing_id.
Qed.

(** X20: the slug derived from a name consists of lower-case letters,
    digits and dashes only, neither begins nor ends with a dash, and has
    no two dashes in a row; the [pre('save')] hook keeps the slug of a
    room well formed, whether it derives it again or leaves it. *)
Theorem slug_is_well_formed :
  (forall name, slug_shaped (list_ascii_of_string (Slug.slugify name)))
  /\ forall nameModified doc,
       (nameModified = false ->
        slug_shaped (list_ascii_of_string (Slug.slug doc))) ->
       slug_shaped
         (list_ascii_of_string (Slug.slug (Slug.pre_save nameModified doc))).
Proof.
  assert (forall name, slug_shaped (list_ascii_of_string (Slug.slugify name)))
    as Hs.
  { intros name. unfold Slug.slugify.
    rewrite list_ascii_of_string_of_list_ascii. apply slugify_list_shaped. }
  split; [exact Hs|]. intros m doc Hdoc. unfold Slug.pre_save.
  destruct m; simpl; [apply Hs|].
  destruct (JS.truthy (Slug.slug doc)); simpl; [by apply Hdoc|apply Hs].
Qed.

(** X21: deriving the slug is idempotent: a well-formed slug is its own
    slug, so the slug of a slug is that slug. *)
Theorem slugify_idempotent :
  (forall s, slug_shaped (list_ascii_of_string s) -> Slug.slugify s = s)
  /\ forall name, Slug.slugify (Slug.slugify name) = Slug.slugify name.
Proof.
  assert (forall s, slug_shaped (list_ascii_of_string s) ->
                    Slug.slugify s = s) as Hid.
  { intros s Hs. unfold Slug.slugify. rewrite slugify_list_id by done.
    apply string_of_list_ascii_of_string. }
  split; [exact Hid|]. intros name. apply Hid.
  unfold Slug.slugify. rewrite list_ascii_of_string_of_list_ascii.
  apply slugify_list_shaped.
Qed.

Lemma slugify_list_keeps c l :
  c ∈ l -> survives c = true ->
  Slug.replace_other (Slug.toLowerCase c) ∈ Slug.slugify_list l.
Proof.
  intros Hin Hs. unfold Slug.slugify_list.
  assert (Slug.replace_other (Slug.toLowerCase c) <> Slug.dash) as Hne.
  { unfold Slug.replace_other. unfold survives in Hs. rewrite Hs.
    intros Heq. rewrite Heq in Hs. discriminate. }
  apply strip_trailing_keeps; [|done].
  assert (Slug.replace_other (Slug.toLowerCase c)
          ∈ Slug.collapse
              (List.map (fun c => Slug.replace_other (Slug.toLowerCase c)) l))
    as Hk.
  { apply collapse_keeps; [|done]. apply list_elem_of_In, in_map_iff.
    exists c. split; [done|]. by apply list_elem_of_In. }
  destruct (strip_leading_spec
              (Slug.collapse
                 (List.map (fun c => Slug.replace_other (Slug.toLowerCase c))
                           l))) as [[Hh ->]|[_ ->]]; [|done].
  destruct (Slug.collapse _) as [|x rest]; [done|]. simpl in *.
  injection Hh as ->. apply elem_of_cons in Hk as [?|?]; done.
Qed.

Lemma all_dashes_collapse l :
  Forall (fun c => c = Slug.dash) l ->
  Slug.collapse l = [] \/ Slug.collapse l = [Slug.dash].
Proof.
  induction 1 as [|c rest -> Hrest IH]; [by left|]. simpl.
  destruct rest as [|d rest']; [by right|].
  apply Forall_cons in Hrest as [-> _]. simpl in *. exact IH.
Qed.

(** X22: the slug is empty exactly when the name has no letter of the
    basic alphabet and no digit: a room with such a name gets the empty
    slug. *)
Theorem slug_empty_iff name :
  Slug.slugify name = ""
  <-> Forall (fun c => survives c = false) (list_ascii_of_string name).
Proof.
  unfold Slug.slugify. set (l := list_ascii_of_string name).
  assert (string_of_list_ascii (Slug.slugify_list l) = ""
          <-> Slug.slugify_list l = []) as ->.
  { destruct (Slug.slugify_list l); simpl; split; done. }
  split.
  - intros Hnil. apply Forall_forall. intros c Hc.
    destruct (survives c) eqn:Hs; [|done].
    pose proof (slugify_list_keeps c l Hc Hs) as Hin.
    rewrite Hnil in Hin. by apply elem_of_nil in Hin.
  - intros Hall. unfold Slug.slugify_list.
    assert (Forall (fun c => c = Slug.dash)
              (List.map (fun c => Slug.replace_other (Slug.toLowerCase c)) l))
      as Hd.
    { apply Forall_forall. intros c Hc.
      apply list_elem_of_In, in_map_iff in Hc as (x & <- & Hx).
      rewrite Forall_forall in Hall.
      apply list_elem_of_In in Hx. specialize (Hall x Hx).
      unfold survives in Hall. unfold Slug.replace_other. by rewrite Hall. }
    destruct (all_dashes_collapse _ Hd) as [-> | ->]; reflexivity.
Qed.

(** ** The further properties at work on the one-room hotel *)

Lemma status_only_moves_forward_witness :
  exists b',
    Routes.bookings
      (Routes.run store1
         [Routes.PutCancel cancel1 cancel_env30;
          Routes.PutCheckIn 0 stay_env1]) !! 0%nat = Some b'
    /\ status_moves (Booking.status booking1) (Booking.status b')
    /\ (Booking.status booking1 = Booking.Pending
        \/ Booking.status booking1 = Booking.Cancelled
        \/ Booking.status booking1 = Booking.CheckedOut
        \/ Booking.status booking1 = Booking.NoShow ->
        Booking.status b' = Booking.status booking1).
Proof.
  apply (status_only_moves_forward store1
           [Routes.PutCancel cancel1 cancel_env30;
            Routes.PutCheckIn 0 stay_env1] 0%nat booking1).
  reflexivity.
Defined.

Lemma stay_and_price_are_frozen_witness :
  exists b',
    Routes.bookings
      (Routes.run store1
         [Routes.PutCheckIn 0 stay_env1; Routes.PutCheckOut 0 stay_env1])
      !! 0%nat = Some b'
    /\ same_stay booking1 b'
    /\ (Booking.required_ok booking1 = true ->
        Booking.numberOfNights booking1 <> 0 ->
        Booking.bookingNumber b' = Booking.bookingNumber booking1
        /\ Booking.confirmationCode b' = Booking.confirmationCode booking1
        /\ Booking.numberOfNights b' = Booking.numberOfNights booking1).
Proof.
  apply (stay_and_price_are_frozen store1
           [Routes.PutCheckIn 0 stay_env1; Routes.PutCheckOut 0 stay_env1]
           0%nat booking1).
  reflexivity.
Defined.

Lemma stored_bookings_stay_sound_witness : sound booking1.
Proof.
  apply (stored_bookings_stay_sound catalog1
           [Routes.PostBooking req1 env1] booking1).
  vm_compute. apply list_elem_of_here.
Defined.

Lemma duration_is_numberOfNights_witness :
  Virtuals.duration booking1 = Booking.numberOfNights booking1.
Proof.
  apply (duration_is_numberOfNights catalog1
           [Routes.PostBooking req1 env1] booking1).
  vm_compute. apply list_elem_of_here.
Defined.

Lemma creation_status_follows_payment_witness :
  (exists intent stored,
      Routes.paymentIntent env1 = Some intent
      /\ Routes.bookings store1
         = Routes.bookings (Routes.opening catalog1) ++ [stored]
      /\ Booking.status stored = Booking.status booking1
      /\ Booking.paymentStatus stored = Booking.paymentStatus booking1
      /\ Booking.stripePaymentIntentId booking1 = Routes.id intent
      /\ Booking.paymentMethod booking1 = Booking.CreditCard
      /\ (Routes.succeeded intent = true ->
          Booking.status booking1 = Booking.Confirmed
          /\ Booking.paymentStatus booking1 = Booking.Paid)
      /\ (Routes.succeeded intent = false ->
          Booking.status booking1 = Booking.Pending
          /\ Booking.paymentStatus booking1 = Booking.PaymentPending))
  /\ Booking.status request1 = Booking.Pending.
Proof.
  split.
  - apply (proj1 creation_status_follows_payment (Routes.opening catalog1)
             req1 env1 store1
             [Routes.PaymentIntentsCreate 33600%float "pm_1";
              Routes.SendEmail "bookingConfirmation" 7] booking1).
    vm_compute. reflexivity.
  - apply (proj2 creation_status_follows_payment (Routes.opening catalog1)
             req1 env1
             {| Routes.rooms := catalog1; Routes.bookings := [request1] |}
             [] request1).
    vm_compute. reflexivity.
Defined.

Lemma overlapping_request_is_refused_witness :
  exists code message,
    (code = 400 \/ code = 404)
    /\ Routes.createBookingRequest store1 req1 env2
       = (store1, [], Routes.Failure code message)
    /\ Routes.createBooking store1 req1 env2
       = (store1, [], Routes.Failure code message).
Proof.
  apply (overlapping_request_is_refused store1 req1 env2 booking1).
  - apply list_elem_of_here.
  - split; [reflexivity|]. split; [left; reflexivity|].
    split; vm_compute; reflexivity.
Defined.

Lemma failed_creation_stores_no_booking_witness :
  Routes.bookings (Routes.createBookingRequest store1 req1 env2).1.1
  = Routes.bookings store1
  /\ Routes.rooms (Routes.createBookingRequest store1 req1 env2).1.1
     = Routes.rooms store1
  /\ (Routes.createBookingRequest store1 req1 env2).1.2 = []
  /\ Routes.precheck store1 req1 env2
     = inr (400, "Room is not available for the selected dates").
Proof.
  apply (proj1 failed_creation_stores_no_booking store1 req1 env2 _ _ 400
           "Room is not available for the selected dates").
  - vm_compute. reflexivity.
  - discriminate.
Defined.

Lemma isAvailable_shrinks_witness :
  Room.isAvailable 0 room100 [booking1]
    (t0 + 14 * JS.msPerDay) (t0 + 15 * JS.msPerDay) = true.
Proof.
  apply (isAvailable_shrinks 0 room100 [booking1]
           (t0 + 13 * JS.msPerDay) (t0 + 20 * JS.msPerDay)).
  - unfold t0, JS.msPerDay. lia.
  - unfold t0, JS.msPerDay. lia.
  - vm_compute. reflexivity.
Defined.

Lemma checked_in_room_takes_no_booking_witness :
  exists code message,
    (code = 400 \/ code = 404)
    /\ Routes.createBookingRequest
         (Routes.checkIn store1 0 stay_env1).1.1 req2 env2
       = ((Routes.checkIn store1 0 stay_env1).1.1, [],
          Routes.Failure code message)
    /\ Routes.createBooking
         (Routes.checkIn store1 0 stay_env1).1.1 req2 env2
       = ((Routes.checkIn store1 0 stay_env1).1.1, [],
          Routes.Failure code message).
Proof.
  refine (proj2 (checked_in_room_takes_no_booking store1 0 stay_env1
                   (Routes.checkIn store1 0 stay_env1).1.1
                   (Routes.checkIn store1 0 stay_env1).1.2
                   (Booking.set_actualCheckInTime
                      (Some (Routes.stayNow stay_env1))
                      (Booking.set_status Booking.CheckedIn booking1)) _)
            req2 env2 _).
  - vm_compute. reflexivity.
  - reflexivity.
Defined.

Lemma findAvailable_is_isAvailable_witness :
  Room.findAvailable catalog1 [booking1]
    (t0 + 13 * JS.msPerDay) (t0 + 15 * JS.msPerDay) 2 !! 0%nat
  = Some room100.
Proof.
  apply (proj2 (findAvailable_is_isAvailable catalog1 [booking1]
                  (t0 + 13 * JS.msPerDay) (t0 + 15 * JS.msPerDay) 2
                  0%nat room100)).
  split; [reflexivity|]. split; [simpl; lia|]. vm_compute. reflexivity.
Defined.

Lemma stay_cycle_witness :
  exists s2 doc2,
    Routes.bookings s2 !! 0%nat = Some doc2
    /\ Booking.status doc2 = Booking.CheckedOut
    /\ Booking.actualCheckInTime doc2 = Some (Routes.stayNow stay_env1)
    /\ Booking.actualCheckOutTime doc2 = Some (Routes.stayNow stay_env1)
    /\ exists room,
         Routes.rooms s2 !! Booking.room doc2 = Some room
         /\ Room.status room = Room.Available
         /\ Room.cleaningStatus room = Room.Dirty
         /\ Room.lastCleaning room = Some (Routes.cleaningNow stay_env1).
Proof.
  eexists _, _.
  eapply (stay_cycle store1 0 stay_env1 _ _ _ stay_env1); reflexivity.
Defined.

Lemma no_second_cancellation_witness :
  Routes.cancelBooking
    (Routes.cancelBooking store1 cancel1 cancel_env30).1.1 cancel1
    cancel_env30_norefund
  = ((Routes.cancelBooking store1 cancel1 cancel_env30).1.1, [],
     Routes.Failure 400 "Booking cannot be cancelled at this time").
Proof.
  apply (no_second_cancellation store1 cancel1 cancel_env30
           (Routes.cancelBooking store1 cancel1 cancel_env30).1.1
           [Routes.RefundsCreate "pi_1" 25200%float;
            Routes.SendEmail "bookingCancellation" 7]
           cancellation30 cancel_env30_norefund).
  - reflexivity.
  - reflexivity.
  - vm_compute. reflexivity.
Defined.

Lemma created_booking_is_found_witness :
  exists stored,
    Routes.bookings store1
    = Routes.bookings (Routes.opening catalog1) ++ [stored]
    /\ Routes.getBooking store1 lookup1
       = (store1, [], Routes.Success 200 stored)
    /\ Booking.status stored = Booking.status booking1
    /\ snapshot stored = snapshot booking1.
Proof.
  apply (created_booking_is_found (Routes.opening catalog1) req1 env1 store1
           [Routes.PaymentIntentsCreate 33600%float "pm_1";
            Routes.SendEmail "bookingConfirmation" 7] booking1 "").
  right. vm_compute. reflexivity.
Defined.

Lemma summary_counts_each_booking_once_witness :
  exists revenueData summary,
    Routes.totalBookings summary
    = Z.of_nat
        (length (filter (counted (Routes.dateRange summary).1
                                 (Routes.dateRange summary).2)
                        (Routes.bookings store1)))
    /\ Routes.totalBookings summary
       = foldr (fun day acc => Booking.bookingsCount day + acc) 0
               revenueData.
Proof.
  eexists _, _.
  eapply (summary_counts_each_booking_once plain_sum plain_avg store1
            january t0 t0).
  reflexivity.
Defined.

Lemma positive_quote_is_honoured_witness :
  exists q,
    Rooms.checkAvailability (Routes.opening catalog1) quote_req1 t0 t0
    = (Routes.opening catalog1, [], Routes.Success 200 q)
    /\ snapshot request1 = Rooms.pricing q.
Proof.
  eexists. split; [reflexivity|].
  destruct (proj2 (positive_quote_is_honoured (Routes.opening catalog1)
                     quote_req1 t0 t0 (Routes.opening catalog1) [] _
                     req1 env1
                     eq_refl eq_refl eq_refl eq_refl eq_refl
                     ltac:(vm_compute; discriminate)
                     ltac:(vm_compute; discriminate))
              {| Routes.rooms := catalog1; Routes.bookings := [request1] |}
              [] (Routes.Success 201 request1)
              ltac:(vm_compute; reflexivity))
    as [(b & Hb & Hs)|(message & Hm)]; [|discriminate].
  injection Hb as <-. by apply Hs.
Defined.

Lemma retired_room_is_not_bookable_witness :
  Rooms.getRoom (Rooms.deleteRoom store1 0).1.1 0
  = ((Rooms.deleteRoom store1 0).1.1, [],
     Routes.Failure 404 "Room not found").
Proof.
  refine (proj1 (proj2 (proj2
            (retired_room_is_not_bookable store1 0
               (Rooms.deleteRoom store1 0).1.1 []
               "Room deleted successfully" _)))).
  vm_compute. reflexivity.
Defined.

Lemma pagination_flags_witness :
  let p := Paging.pagination 2 10 (Z.of_nat (length (seq 0 25))) in
  (length (Paging.skip_limit 2 10 (seq 0 25)) <= Z.to_nat 10)%nat
  /\ (Paging.skip_limit 2 10 (seq 0 25) <> [] <-> 2 <= Paging.totalPages p)
  /\ (Paging.hasNextPage p = true
      <-> Paging.skip_limit (2 + 1) 10 (seq 0 25) <> [])
  /\ (Paging.hasPrevPage p = true <-> 1 < 2).
Proof. apply (pagination_flags 2 10 (seq 0 25)); lia. Defined.

Lemma pages_partition_the_result_witness :
  let totalPages :=
    Paging.totalPages
      (Paging.pagination 1 10 (Z.of_nat (length (seq 0 25)))) in
  concat ((fun k => Paging.skip_limit (Z.of_nat k + 1) 10 (seq 0 25))
            <$> seq 0 (Z.to_nat totalPages))
  = seq 0 25
  /\ forall page, totalPages < page ->
       Paging.skip_limit page 10 (seq 0 25) = [].
Proof. apply (pages_partition_the_result 10 (seq 0 25)). lia. Defined.

Lemma confirmation_code_shape_witness :
  String.length (Booking.generate_confirmationCode draws1) = 8%nat
  /\ Forall (fun c => code_char c = true)
            (list_ascii_of_string (Booking.generate_confirmationCode draws1))
  /\ JS.truthy (Booking.generate_confirmationCode draws1) = true.
Proof.
  apply (confirmation_code_shape draws1).
  - simpl. repeat (apply Forall_cons_2; [lia|]). apply Forall_nil_2.
  - simpl. lia.
Defined.

Lemma slug_is_well_formed_witness :
  slug_shaped
    (list_ascii_of_string (Slug.slug (Slug.pre_save false doc1))).
Proof.
  apply (proj2 slug_is_well_formed false doc1).
  intros _. exact (slugify_list_shaped []).
Defined.

Lemma slugify_idempotent_witness :
  Slug.slugify "deluxe-suite-1" = "deluxe-suite-1".
Proof.
  apply (proj1 slugify_idempotent "deluxe-suite-1").
  exact (slugify_list_shaped (list_ascii_of_string "Deluxe Suite #1")).
Defined.

Lemma slug_empty_iff_witness : Slug.slugify "#! (?)" = "".
Proof.
  apply (proj2 (slug_empty_iff "#! (?)")).
  simpl. repeat (apply Forall_cons_2; [reflexivity|]). apply Forall_nil_2.
Defined.

(** The slug hook at work: a new room named "Deluxe Suite #1" gets the
    slug "deluxe-suite-1"; capital letters with accents are lowered and
    then replaced like every character outside a-z and 0-9. *)
Lemma slug_example :
  Slug.pre_save false doc1
  = {| Slug.name := "Deluxe Suite #1"; Slug.slug := "deluxe-suite-1" |}
  /\ Slug.slugify "  --Sea  View--  " = "sea-view"
  /\ Slug.toLowerCase "192" = "224"%char
  /\ Slug.toLowerCase "215" = "215"%char.
Proof. repeat split. Qed.

(** The calendar at work: the first day of the examples, the last day
    before the epoch, the leap day of 2000, and the end of February 1900,
    which was not a leap year. *)
Lemma calendar_examples :
  Booking.dateParts t0 = (2026, 1, 1)
  /\ Booking.dateParts (-1) = (1969, 12, 31)
  /\ Booking.dateParts 951782400000 = (2000, 2, 29)
  /\ Booking.dateParts (951782400000 + JS.msPerDay) = (2000, 3, 1)
  /\ Booking.dateParts (-2203977600000) = (1900, 2, 28)
  /\ Booking.dateParts (-2203977600000 + JS.msPerDay) = (1900, 3, 1).
Proof. vm_compute. repeat split. Qed.

(** [Math.round] at work: ties go up, and a negative value that rounds
    to zero gives the negative zero. *)
Lemma Math_round_examples :
  JS.Math_round 2.5 = 3%float
  /\ JS.Math_round (-2.5) = (-2)%float
  /\ JS.Math_round 33600 = 33600%float
  /\ Prim2SF (JS.Math_round 0.4) = S754_zero false
  /\ Prim2SF (JS.Math_round (-0.112)) = S754_zero true
  /\ Prim2SF (JS.Math_round (-0.5)) = S754_zero true
  /\ JS.Math_round (-0.6) = (-1)%float.
Proof. vm_compute. repeat split. Qed.
